(** * MDB cashless-device protocol engine

    A shallow embedding of [src/MDB/Mdb.c] and [src/MDB/MDB.h]: the
    framing transport ([SendCommand], [WaitForResponse]), the reset and
    initialisation handshake, the message dispatcher, the poll loop and the
    error-recovery manager ([MDB_HandleError]).

    The C file keeps its state in file-level and function-local [static]
    variables; here they are the fields of one record, [Engine], threaded
    through every function (a state monad [M]).  The collaborators that
    the C code reaches through the HAL (serial transport, millisecond tick,
    delay) and the log sink are part of that record as well, in [World]:
    what the peripheral will answer is an input queue, what the engine
    emits is an event trace. *)

From Stdlib Require Import ZArith List String Lia Bool.
From stdpp Require Import prelude.
Import ListNotations.

Local Open Scope string_scope.
Local Open Scope list_scope.
Local Open Scope Z_scope.

(** ** Declarations of MDB.h *)

Inductive MDB_State_t : Type :=
  | MDB_STATE_INACTIVE
  | MDB_STATE_DISABLED
  | MDB_STATE_ENABLED
  | MDB_STATE_SESSION_IDLE
  | MDB_STATE_VEND
  | MDB_STATE_REVALUE
  | MDB_STATE_NEGATIVE_VEND.

Inductive MDB_LogLevel_t : Type :=
  | LOG_NONE
  | LOG_ERROR
  | LOG_WARNING
  | LOG_INFO
  | LOG_DEBUG.

Inductive MDB_Error_t : Type :=
  | MDB_ERR_NONE
  | MDB_ERR_NAK
  | MDB_ERR_TIMEOUT
  | MDB_ERR_CHECKSUM
  | MDB_ERR_STATE
  | MDB_ERR_PARAMETER
  | MDB_ERR_COMMUNICATION
  | MDB_ERR_SEQUENCE
  | MDB_ERR_FUNDS
  | MDB_ERR_HARDWARE.

Inductive MDB_TransactionType_t : Type :=
  | TRANS_PAID_VEND
  | TRANS_FREE_VEND
  | TRANS_TEST_VEND
  | TRANS_REVALUE
  | TRANS_NEGATIVE_VEND.

(** The enumerators of [MDB_State_t] as the integers C compares with [>]. *)
Definition state_ord (s : MDB_State_t) : Z :=
  match s with
  | MDB_STATE_INACTIVE => 0
  | MDB_STATE_DISABLED => 1
  | MDB_STATE_ENABLED => 2
  | MDB_STATE_SESSION_IDLE => 3
  | MDB_STATE_VEND => 4
  | MDB_STATE_REVALUE => 5
  | MDB_STATE_NEGATIVE_VEND => 6
  end.

Definition error_ord (e : MDB_Error_t) : Z :=
  match e with
  | MDB_ERR_NONE => 0
  | MDB_ERR_NAK => 1
  | MDB_ERR_TIMEOUT => 2
  | MDB_ERR_CHECKSUM => 3
  | MDB_ERR_STATE => 4
  | MDB_ERR_PARAMETER => 5
  | MDB_ERR_COMMUNICATION => 6
  | MDB_ERR_SEQUENCE => 7
  | MDB_ERR_FUNDS => 8
  | MDB_ERR_HARDWARE => 9
  end.

Definition MDB_State_eqb (a b : MDB_State_t) : bool := state_ord a =? state_ord b.

Definition MDB_ACK : Z := 0x00.
Definition MDB_NAK : Z := 0xFF.
Definition MDB_RET : Z := 0xAA.

Definition MDB_CMD_RESET : Z := 0x10.
Definition MDB_CMD_SETUP : Z := 0x11.
Definition MDB_CMD_POLL : Z := 0x12.
Definition MDB_CMD_VEND : Z := 0x13.
Definition MDB_CMD_READER : Z := 0x14.
Definition MDB_CMD_REVALUE : Z := 0x15.
Definition MDB_CMD_EXPANSION : Z := 0x17.

Definition MDB_RESPONSE_TIMEOUT : Z := 5.
Definition MDB_INTERBYTE_TIMEOUT : Z := 1.
Definition MDB_NON_RESPONSE_TIMEOUT : Z := 5000.
Definition MDB_RESET_HOLD_TIME : Z := 100.
Definition MDB_POLL_INTERVAL : Z := 200.

Definition MDB_MAX_MESSAGE_LENGTH : Z := 36.
Definition MDB_QUEUE_SIZE : Z := 10.
Definition MDB_TRANSACTION_LOG_SIZE : Z := 50.
Definition MDB_ERROR_LOG_SIZE : Z := 50.

Record MDB_Config_t : Type := mkConfig {
  featureLevel : Z;
  countryCode : Z;
  scaleFactor : Z;
  decimalPlaces : Z;
  maxPrice : Z;
  minPrice : Z;
  miscOptions : Z
}.

Record MDB_Session_t : Type := mkSession {
  state : MDB_State_t;
  availableFunds : Z;
  vendAmount : Z;
  itemNumber : Z;
  multivend : bool;
  refundable : bool;
  sessionTimeout : Z;
  transType : MDB_TransactionType_t
}.

(** A field whose C name is already the name of another field or function
    here takes a trailing underscore. *)
Record MDB_Message_t : Type := mkMessage {
  data : list Z;
  length_ : Z;
  timestamp_ : Z
}.

Record MDB_MessageQueue_t : Type := mkQueue {
  messages : list MDB_Message_t;
  head : Z;
  tail : Z;
  count : Z
}.

Record MDB_ErrorLog_t : Type := mkErrorLog {
  timestamp : Z;
  error : MDB_Error_t;
  state_ : MDB_State_t;
  lastCommand_ : Z;
  lastResponse : Z
}.

(** ** Machine integers and byte buffers

    [uint8_t] and [uint32_t] values are integers with the wrap-around
    written out.  A buffer is the list of its slots; reading a [uint8_t]
    slot always yields a value below 256, whatever was put there. *)

Definition u8 (z : Z) : Z := z mod 256.
Definition u32 (z : Z) : Z := z mod 2 ^ 32.

Definition rd8 (buf : list Z) (i : Z) : Z := u8 (nth (Z.to_nat i) buf 0).
Definition wr8 (buf : list Z) (i : Z) (v : Z) : list Z := <[Z.to_nat i := u8 v]> buf.

(** [memcpy(dst, src, n)]: the first [n] slots of [dst] become the first
    [n] bytes of [src]. *)
Definition memcpy (dst src : list Z) (n : Z) : list Z :=
  take (Z.to_nat n) src ++ drop (Z.to_nat n) dst.

(** ** The environment

    What the log sink and the wire see, in order. *)
Inductive Event : Type :=
  | EvLogMessage (level : MDB_LogLevel_t) (format : string) (args : list Z)
  | EvLogError (e : MDB_Error_t)
  | EvTransmit (bytes : list Z) (ok : bool)
  | EvDumpLogs.

(** [rxq] holds the outcome of the coming calls of [HAL_UART_Receive]:
    [Some w] is [HAL_OK] delivering the word [w], [None] any other status;
    once the queue is empty nothing arrives any more.  [txq] does the same
    for [HAL_UART_Transmit] ([true] is [HAL_OK]; empty queue: every write
    succeeds). *)
Record World : Type := mkWorld {
  tick : Z;
  rxq : list (option Z);
  txq : list bool;
  trace : list Event
}.

(** Function-local statics of [MDB_HandleError]. *)
Record ErrorStats : Type := mkErrorStats {
  lastErrorTime : Z;
  rapidErrorCount : Z;
  seriousErrorCount : Z
}.

(** The statics of Mdb.c ([transactionLog], [transactionLogIndex] and
    [currentLogLevel] are read and written by no function of the file and are
    left out). *)
Record Engine : Type := mkEngine {
  mdbConfig : MDB_Config_t;
  mdbSession : MDB_Session_t;
  messageQueue : MDB_MessageQueue_t;
  errorLog : list MDB_ErrorLog_t;
  errorLogIndex : Z;
  lastPollTime : Z;
  txBuffer : list Z;
  rxBuffer : list Z;
  lastCommand : list Z;
  lastCommandLength : Z;
  retryCount : Z;
  errStats : ErrorStats;
  hal : World
}.

Definition set_mdbConfig (v : MDB_Config_t) (st : Engine) : Engine :=
  {| mdbConfig := v; mdbSession := mdbSession st; messageQueue := messageQueue st; errorLog :=
     errorLog st; errorLogIndex := errorLogIndex st; lastPollTime := lastPollTime st; txBuffer :=
     txBuffer st; rxBuffer := rxBuffer st; lastCommand := lastCommand st; lastCommandLength :=
     lastCommandLength st; retryCount := retryCount st; errStats := errStats st; hal := hal st
     |}.

Definition set_mdbSession (v : MDB_Session_t) (st : Engine) : Engine :=
  {| mdbConfig := mdbConfig st; mdbSession := v; messageQueue := messageQueue st; errorLog :=
     errorLog st; errorLogIndex := errorLogIndex st; lastPollTime := lastPollTime st; txBuffer :=
     txBuffer st; rxBuffer := rxBuffer st; lastCommand := lastCommand st; lastCommandLength :=
     lastCommandLength st; retryCount := retryCount st; errStats := errStats st; hal := hal st
     |}.

Definition set_messageQueue (v : MDB_MessageQueue_t) (st : Engine) : Engine :=
  {| mdbConfig := mdbConfig st; mdbSession := mdbSession st; messageQueue := v; errorLog :=
     errorLog st; errorLogIndex := errorLogIndex st; lastPollTime := lastPollTime st; txBuffer :=
     txBuffer st; rxBuffer := rxBuffer st; lastCommand := lastCommand st; lastCommandLength :=
     lastCommandLength st; retryCount := retryCount st; errStats := errStats st; hal := hal st
     |}.

Definition set_errorLog (v : list MDB_ErrorLog_t) (st : Engine) : Engine :=
  {| mdbConfig := mdbConfig st; mdbSession := mdbSession st; messageQueue := messageQueue st;
     errorLog := v; errorLogIndex := errorLogIndex st; lastPollTime := lastPollTime st; txBuffer
     := txBuffer st; rxBuffer := rxBuffer st; lastCommand := lastCommand st; lastCommandLength :=
     lastCommandLength st; retryCount := retryCount st; errStats := errStats st; hal := hal st
     |}.

Definition set_errorLogIndex (v : Z) (st : Engine) : Engine :=
  {| mdbConfig := mdbConfig st; mdbSession := mdbSession st; messageQueue := messageQueue st;
     errorLog := errorLog st; errorLogIndex := v; lastPollTime := lastPollTime st; txBuffer :=
     txBuffer st; rxBuffer := rxBuffer st; lastCommand := lastCommand st; lastCommandLength :=
     lastCommandLength st; retryCount := retryCount st; errStats := errStats st; hal := hal st
     |}.

Definition set_lastPollTime (v : Z) (st : Engine) : Engine :=
  {| mdbConfig := mdbConfig st; mdbSession := mdbSession st; messageQueue := messageQueue st;
     errorLog := errorLog st; errorLogIndex := errorLogIndex st; lastPollTime := v; txBuffer :=
     txBuffer st; rxBuffer := rxBuffer st; lastCommand := lastCommand st; lastCommandLength :=
     lastCommandLength st; retryCount := retryCount st; errStats := errStats st; hal := hal st
     |}.

Definition set_txBuffer (v : list Z) (st : Engine) : Engine :=
  {| mdbConfig := mdbConfig st; mdbSession := mdbSession st; messageQueue := messageQueue st;
     errorLog := errorLog st; errorLogIndex := errorLogIndex st; lastPollTime := lastPollTime st;
     txBuffer := v; rxBuffer := rxBuffer st; lastCommand := lastCommand st; lastCommandLength :=
     lastCommandLength st; retryCount := retryCount st; errStats := errStats st; hal := hal st
     |}.

Definition set_rxBuffer (v : list Z) (st : Engine) : Engine :=
  {| mdbConfig := mdbConfig st; mdbSession := mdbSession st; messageQueue := messageQueue st;
     errorLog := errorLog st; errorLogIndex := errorLogIndex st; lastPollTime := lastPollTime st;
     txBuffer := txBuffer st; rxBuffer := v; lastCommand := lastCommand st; lastCommandLength :=
     lastCommandLength st; retryCount := retryCount st; errStats := errStats st; hal := hal st
     |}.

Definition set_lastCommand (v : list Z) (st : Engine) : Engine :=
  {| mdbConfig := mdbConfig st; mdbSession := mdbSession st; messageQueue := messageQueue st;
     errorLog := errorLog st; errorLogIndex := errorLogIndex st; lastPollTime := lastPollTime st;
     txBuffer := txBuffer st; rxBuffer := rxBuffer st; lastCommand := v; lastCommandLength :=
     lastCommandLength st; retryCount := retryCount st; errStats := errStats st; hal := hal st
     |}.

Definition set_lastCommandLength (v : Z) (st : Engine) : Engine :=
  {| mdbConfig := mdbConfig st; mdbSession := mdbSession st; messageQueue := messageQueue st;
     errorLog := errorLog st; errorLogIndex := errorLogIndex st; lastPollTime := lastPollTime st;
     txBuffer := txBuffer st; rxBuffer := rxBuffer st; lastCommand := lastCommand st;
     lastCommandLength := v; retryCount := retryCount st; errStats := errStats st; hal := hal st
     |}.

Definition set_retryCount (v : Z) (st : Engine) : Engine :=
  {| mdbConfig := mdbConfig st; mdbSession := mdbSession st; messageQueue := messageQueue st;
     errorLog := errorLog st; errorLogIndex := errorLogIndex st; lastPollTime := lastPollTime st;
     txBuffer := txBuffer st; rxBuffer := rxBuffer st; lastCommand := lastCommand st;
     lastCommandLength := lastCommandLength st; retryCount := v; errStats := errStats st; hal :=
     hal st |}.

Definition set_errStats (v : ErrorStats) (st : Engine) : Engine :=
  {| mdbConfig := mdbConfig st; mdbSession := mdbSession st; messageQueue := messageQueue st;
     errorLog := errorLog st; errorLogIndex := errorLogIndex st; lastPollTime := lastPollTime st;
     txBuffer := txBuffer st; rxBuffer := rxBuffer st; lastCommand := lastCommand st;
     lastCommandLength := lastCommandLength st; retryCount := retryCount st; errStats := v; hal
     := hal st |}.

Definition set_hal (v : World) (st : Engine) : Engine :=
  {| mdbConfig := mdbConfig st; mdbSession := mdbSession st; messageQueue := messageQueue st;
     errorLog := errorLog st; errorLogIndex := errorLogIndex st; lastPollTime := lastPollTime st;
     txBuffer := txBuffer st; rxBuffer := rxBuffer st; lastCommand := lastCommand st;
     lastCommandLength := lastCommandLength st; retryCount := retryCount st; errStats := errStats
     st; hal := v |}.

Definition set_state (s : MDB_State_t) (se : MDB_Session_t) : MDB_Session_t :=
  {| state := s; availableFunds := availableFunds se; vendAmount := vendAmount se;
     itemNumber := itemNumber se; multivend := multivend se; refundable := refundable se;
     sessionTimeout := sessionTimeout se; transType := transType se |}.

Definition set_tick (t : Z) (w : World) : World :=
  {| tick := t; rxq := rxq w; txq := txq w; trace := trace w |}.
Definition set_rxq (q : list (option Z)) (w : World) : World :=
  {| tick := tick w; rxq := q; txq := txq w; trace := trace w |}.
Definition set_txq (q : list bool) (w : World) : World :=
  {| tick := tick w; rxq := rxq w; txq := q; trace := trace w |}.
Definition emit (ev : Event) (w : World) : World :=
  {| tick := tick w; rxq := rxq w; txq := txq w; trace := trace w ++ [ev] |}.

(** ** State passing *)

Definition M (A : Type) : Type := Engine -> A * Engine.

Definition ret {A : Type} (a : A) : M A := fun st => (a, st).
Definition bind {A B : Type} (m : M A) (k : A -> M B) : M B :=
  fun st => let (a, st1) := m st in k a st1.
Definition get {A : Type} (f : Engine -> A) : M A := fun st => (f st, st).
Definition modify (f : Engine -> Engine) : M unit := fun st => (tt, f st).

Declare Scope mdb_scope.
Delimit Scope mdb_scope with mdb.
Notation "'do' x <- c ;; k" := (bind c (fun x => k))
  (at level 10, x name, c at level 99, k at level 200) : mdb_scope.
Notation "'do' ' p <- c ;; k" := (bind c (fun x => match x with p => k end))
  (at level 10, p pattern, c at level 99, k at level 200) : mdb_scope.
Notation "c ;; k" := (bind c (fun _ => k))
  (at level 100, k at level 200, right associativity) : mdb_scope.
Local Open Scope mdb_scope.

Definition session_state (st : Engine) : MDB_State_t := state (mdbSession st).
Definition events (st : Engine) : list Event := trace (hal st).

(** ** HAL collaborators

    The tick only moves while the engine blocks: a receive that does not
    return [HAL_OK] has used up its timeout, [HAL_Delay] its argument; a
    receive that returns [HAL_OK] and a transmit are taken to return within
    the same tick.  [HAL_UART_Receive] hands back the word received; its
    caller stores it in the slot the C code passes as [pData]. *)

Definition HAL_GetTick : M Z := get (fun st => tick (hal st)).

Definition elapse (ms : Z) : M unit :=
  modify (fun st => set_hal (set_tick (u32 (tick (hal st) + ms)) (hal st)) st).

Definition HAL_Delay (ms : Z) : M unit := elapse ms.

Definition HAL_UART_Receive (timeout : Z) : M (option Z) :=
  fun st =>
    match rxq (hal st) with
    | Some w :: q => (Some w, set_hal (set_rxq q (hal st)) st)
    | None :: q => (None, snd (elapse timeout (set_hal (set_rxq q (hal st)) st)))
    | [] => (None, snd (elapse timeout st))
    end.

Definition HAL_UART_Transmit (bytes : list Z) (timeout : Z) : M bool :=
  fun st =>
    let ok := match txq (hal st) with b :: _ => b | [] => true end in
    (ok, set_hal (emit (EvTransmit bytes ok) (set_txq (List.tl (txq (hal st))) (hal st))) st).

(** ** Helpers of the repository whose definitions are not in the sources *)

(** Modelled from the spec: [MDB_LogMessage] is declared in MDB.h and
    defined nowhere.  The log sink is an external collaborator "accepting a
    severity level and a formatted message": the call is recorded on the
    trace with its level, format string and integer arguments. *)
Definition MDB_LogMessage (level : MDB_LogLevel_t) (format : string) (args : list Z) : M unit :=
  modify (fun st => set_hal (emit (EvLogMessage level format args) (hal st)) st).

(** Modelled from the spec: [MDB_LogError] is declared in MDB.h ("Logging
    Functions") and defined nowhere.  It reports the error kind to the log
    sink; the call is recorded on the trace. *)
Definition MDB_LogError (e : MDB_Error_t) : M unit :=
  modify (fun st => set_hal (emit (EvLogError e) (hal st)) st).

(** Modelled from the spec: [CalculateChecksum] is declared in Mdb.c and
    defined nowhere.  "computeChecksum(bytes) -> byte: sum of all bytes
    modulo 256". *)
Definition CalculateChecksum (bytes : list Z) (len : Z) : Z :=
  u8 (foldr Z.add 0 (map u8 (take (Z.to_nat len) bytes))).

(** ** Transport and framing (Mdb.c, lines 199-260) *)

Definition SendCommand (bytes : list Z) (len : Z) : M bool :=
  if len >? MDB_MAX_MESSAGE_LENGTH - 1 then
    MDB_LogError MDB_ERR_PARAMETER ;;
    ret false
  else
    modify (fun st => set_lastCommand (memcpy (lastCommand st) bytes len) st) ;;
    modify (set_lastCommandLength len) ;;
    modify (fun st => set_txBuffer (memcpy (txBuffer st) bytes len) st) ;;
    modify (fun st => set_txBuffer (wr8 (txBuffer st) len (CalculateChecksum bytes len)) st) ;;
    do frame <- get (fun st => take (Z.to_nat (len + 1)) (txBuffer st)) ;;
    do ok <- HAL_UART_Transmit frame 100 ;;
    if negb ok then
      MDB_LogError MDB_ERR_COMMUNICATION ;;
      ret false
    else ret true.

(** [WaitForResponse] is only ever called on [rxBuffer], which stands for
    its [response] argument.  The result pairs the returned flag with the
    value left in [*length] (0 when the function never wrote it).

    The inner [while]: as long as the byte stored last has bit 0x100 clear,
    read one more byte.  [fuel] bounds the iterations; [None] is running out
    of it. *)
Fixpoint WaitForResponse_more (fuel : nat) (len : Z) : M (option (bool * Z)) :=
  match fuel with
  | O => ret None
  | S fuel' =>
      do b <- get (fun st => rd8 (rxBuffer st) (len - 1)) ;;
      if Z.land b 0x100 =? 0 then
        do r <- HAL_UART_Receive MDB_INTERBYTE_TIMEOUT ;;
        match r with
        | None =>
            MDB_LogError MDB_ERR_COMMUNICATION ;;
            ret (Some (false, len))
        | Some w =>
            modify (fun st => set_rxBuffer (wr8 (rxBuffer st) len w) st) ;;
            let len' := u8 (len + 1) in
            if len' >=? MDB_MAX_MESSAGE_LENGTH then
              MDB_LogError MDB_ERR_PARAMETER ;;
              ret (Some (false, len'))
            else WaitForResponse_more fuel' len'
        end
      else ret (Some (true, len))
  end.

(** "Validate checksum if more than just ACK/NAK". *)
Definition WaitForResponse_check (len : Z) : M bool :=
  if len >? 1 then
    do buf <- get rxBuffer ;;
    let checksum := CalculateChecksum buf (len - 1) in
    if negb (checksum =? rd8 buf (len - 1)) then
      MDB_LogError MDB_ERR_CHECKSUM ;;
      ret false
    else ret true
  else ret true.

(** The outer [while]: poll for a first byte until the response timeout
    has elapsed on the tick. *)
Fixpoint WaitForResponse_loop (fuel : nat) (startTime : Z) : M (option (bool * Z)) :=
  match fuel with
  | O => ret None
  | S fuel' =>
      do now <- HAL_GetTick ;;
      if u32 (now - startTime) <? MDB_RESPONSE_TIMEOUT then
        do r <- HAL_UART_Receive 1 ;;
        match r with
        | Some w =>
            modify (fun st => set_rxBuffer (wr8 (rxBuffer st) 0 w) st) ;;
            do m <- WaitForResponse_more (Z.to_nat MDB_MAX_MESSAGE_LENGTH) 1 ;;
            match m with
            | None => ret None
            | Some (false, len) => ret (Some (false, len))
            | Some (true, len) =>
                do ok <- WaitForResponse_check len ;;
                ret (Some (ok, len))
            end
        | None => WaitForResponse_loop fuel' startTime
        end
      else
        MDB_LogError MDB_ERR_TIMEOUT ;;
        ret (Some (false, 0))
  end.

(** Every failed poll costs one tick, so [MDB_RESPONSE_TIMEOUT + 1] rounds
    are enough (lemma [WaitForResponse_loop_returns]). *)
Definition WaitForResponse_fuel : nat := Z.to_nat (MDB_RESPONSE_TIMEOUT + 1).

Definition WaitForResponse : M (bool * Z) :=
  do startTime <- HAL_GetTick ;;
  do r <- WaitForResponse_loop WaitForResponse_fuel startTime ;;
  ret (match r with Some res => res | None => (false, 0) end).

(** ** Reset handshake (Mdb.c, lines 85-110) *)

(** Modelled from the spec: [MDB_SetState] is declared in MDB.h ("State
    Management") and defined nowhere.  A transition "state -> X" stores the
    new state in the session. *)
Definition MDB_SetState (newState : MDB_State_t) : M unit :=
  modify (fun st => set_mdbSession (set_state newState (mdbSession st)) st).

Definition MDB_Reset : M bool :=
  MDB_LogMessage LOG_INFO "Performing reset..." [] ;;
  do sent <- SendCommand [MDB_CMD_RESET] 1 ;;
  if negb sent then
    MDB_LogError MDB_ERR_COMMUNICATION ;;
    ret false
  else
    do ' (got, respLen) <- WaitForResponse ;;
    if negb got then
      MDB_LogError MDB_ERR_TIMEOUT ;;
      ret false
    else
      do first <- get (fun st => rd8 (rxBuffer st) 0) ;;
      if negb (first =? 0x00) then
        MDB_LogError MDB_ERR_SEQUENCE ;;
        ret false
      else
        MDB_SetState MDB_STATE_INACTIVE ;;
        MDB_LogMessage LOG_INFO "Reset complete" [] ;;
        ret true.

(** ** What the sources use and never declare or define

    The command codes of the frames the device sends
    ([MDBRxCashless...]), [ParseConfiguration] and the five [Handle...]
    functions of the dispatcher are used in Mdb.c; no source file gives
    them a value or a body and the spec does not fix one.  They are
    parameters of the development.  The sub-command bytes that tell
    READER ENABLE from READER DISABLE, and END SESSION from the other
    VEND commands, are not in MDB.h either. *)
Record Absent : Type := mkAbsent {
  MDBRxCashlessJustReset : Z;
  MDBRxCashlessBeginSession : Z;
  MDBRxCashlessVendApproved : Z;
  MDBRxCashlessVendDenied : Z;
  MDBRxCashlessEndSession : Z;
  ParseConfiguration : list Z -> Z -> M bool;
  HandleJustReset : M bool;
  HandleBeginSession : list Z -> Z -> M bool;
  HandleVendApproved : list Z -> Z -> M bool;
  HandleVendDenied : M bool;
  HandleEndSession : M bool;
  READER_DISABLE : Z;
  READER_ENABLE : Z;
  END_SESSION : Z
}.

Definition zero_config : MDB_Config_t := mkConfig 0 0 0 0 0 0 0.
Definition zero_session : MDB_Session_t :=
  mkSession MDB_STATE_INACTIVE 0 0 0 false false 0 TRANS_PAID_VEND.
Definition zero_message : MDB_Message_t := mkMessage (replicate 36 0) 0 0.
Definition zero_queue : MDB_MessageQueue_t := mkQueue (replicate 10 zero_message) 0 0 0.
Definition zero_errorLog : MDB_ErrorLog_t :=
  mkErrorLog 0 MDB_ERR_NONE MDB_STATE_INACTIVE 0 0.

Section WithAbsent.

Variable A : Absent.

(** *** Session operations called by the recovery manager *)

(** Modelled from the spec: [MDB_EnableReader] is declared in MDB.h and
    defined nowhere.  "EnableReader() (API) while Disabled -> send READER
    ENABLE, state -> Enabled; illegal from any other state (State error)".
    As everywhere in Mdb.c, a failed send returns false at once. *)
Definition MDB_EnableReader : M bool :=
  do s <- get session_state ;;
  if MDB_State_eqb s MDB_STATE_DISABLED then
    do sent <- SendCommand [MDB_CMD_READER; READER_ENABLE A] 2 ;;
    if negb sent then ret false
    else
      MDB_SetState MDB_STATE_ENABLED ;;
      ret true
  else
    MDB_LogError MDB_ERR_STATE ;;
    ret false.

(** Modelled from the spec: [MDB_DisableReader] is declared in MDB.h and
    defined nowhere.  "DisableReader() (API) from Enabled or deeper -> send
    READER DISABLE, state -> Disabled"; elsewhere the call is "not valid for
    the current state" and "rejected with a ... State error". *)
Definition MDB_DisableReader : M bool :=
  do s <- get session_state ;;
  if state_ord s >=? state_ord MDB_STATE_ENABLED then
    do sent <- SendCommand [MDB_CMD_READER; READER_DISABLE A] 2 ;;
    if negb sent then ret false
    else
      MDB_SetState MDB_STATE_DISABLED ;;
      ret true
  else
    MDB_LogError MDB_ERR_STATE ;;
    ret false.

(** Modelled from the spec: [MDB_SessionComplete] is declared in MDB.h and
    defined nowhere.  "SessionComplete() (API or timeout) -> send END
    SESSION, state -> Enabled, Session fields cleared". *)
Definition MDB_SessionComplete : M bool :=
  do sent <- SendCommand [MDB_CMD_VEND; END_SESSION A] 2 ;;
  if negb sent then ret false
  else
    modify (set_mdbSession (set_state MDB_STATE_ENABLED zero_session)) ;;
    ret true.

(** Modelled from the spec: [MDB_VendFailure] is declared in MDB.h and
    defined nowhere.  The recovery table has "Funds: if in Vend, force vend
    failure" and a failed vend takes the session "while Vend -> record
    failure, state -> SessionIdle".  The record goes to the transaction log,
    which no function of the sources reads; only the transition is kept. *)
Definition MDB_VendFailure : M bool :=
  do s <- get session_state ;;
  if MDB_State_eqb s MDB_STATE_VEND then
    MDB_SetState MDB_STATE_SESSION_IDLE ;;
    ret true
  else
    MDB_LogError MDB_ERR_STATE ;;
    ret false.

(** Modelled from the spec: [MDB_DumpLogs] is declared in MDB.h and defined
    nowhere.  It is "a full dump of transaction and error logs" to the log
    sink; the call is recorded on the trace. *)
Definition MDB_DumpLogs : M unit :=
  modify (fun st => set_hal (emit EvDumpLogs (hal st)) st).

(** ** Initialisation (Mdb.c, lines 38-83) *)

Definition MDB_Initialize : M bool :=
  modify (set_mdbConfig zero_config) ;;
  modify (set_mdbSession zero_session) ;;
  modify (set_messageQueue zero_queue) ;;
  MDB_LogMessage LOG_INFO "Initializing MDB interface..." [] ;;
  modify (fun st => set_mdbSession (set_state MDB_STATE_INACTIVE (mdbSession st)) st) ;;
  do reset <- MDB_Reset ;;
  if negb reset then
    MDB_LogMessage LOG_ERROR "Reset failed" [] ;;
    ret false
  else
    do sent <- SendCommand [MDB_CMD_SETUP; 0x00] 2 ;;
    if negb sent then
      MDB_LogMessage LOG_ERROR "Setup command failed" [] ;;
      ret false
    else
      do ' (got, respLen) <- WaitForResponse ;;
      if negb got then
        MDB_LogMessage LOG_ERROR "No response to setup command" [] ;;
        ret false
      else
        do buf <- get rxBuffer ;;
        do parsed <- ParseConfiguration A buf respLen ;;
        if negb parsed then
          MDB_LogMessage LOG_ERROR "Failed to parse configuration" [] ;;
          ret false
        else
          do enabled <- MDB_EnableReader ;;
          if negb enabled then
            MDB_LogMessage LOG_ERROR "Failed to enable reader" [] ;;
            ret false
          else
            MDB_LogMessage LOG_INFO "MDB initialization complete" [] ;;
            ret true.

(** ** Message dispatch (Mdb.c, lines 112-157)

    [msg] is [None] for the null pointer. *)
Definition MDB_ProcessMessage (msg : option (list Z)) (len : Z) : M bool :=
  if (len =? 0) || (if msg is None then true else false) then
    MDB_LogError MDB_ERR_PARAMETER ;;
    ret false
  else
    let command := rd8 (default [] msg) 0 in
    MDB_LogMessage LOG_DEBUG "Processing message: command=0x%02X" [command] ;;
    do success <-
      (if command =? MDBRxCashlessJustReset A then HandleJustReset A
       else if command =? MDBRxCashlessBeginSession A then
         HandleBeginSession A (default [] msg) len
       else if command =? MDBRxCashlessVendApproved A then
         HandleVendApproved A (default [] msg) len
       else if command =? MDBRxCashlessVendDenied A then HandleVendDenied A
       else if command =? MDBRxCashlessEndSession A then HandleEndSession A
       else
         MDB_LogMessage LOG_WARNING "Unknown command received: 0x%02X" [command] ;;
         ret false) ;;
    (if negb success then MDB_LogError MDB_ERR_SEQUENCE else ret tt) ;;
    ret success.

(** ** Message queue *)

(** Modelled from the spec: the dequeue operation behind
    [MDB_ProcessMessageQueue] is not in the sources.  "dequeue() ->
    Option<Message>: FIFO; empty queue is not an error"; the queue is the
    "circular buffer of up to 10 Messages ... tracked by head index, tail
    index, and count" of [MDB_MessageQueue_t]. *)
Definition dequeue : M (option MDB_Message_t) :=
  do q <- get messageQueue ;;
  if count q =? 0 then ret None
  else
    modify (set_messageQueue
              {| messages := messages q;
                 head := (head q + 1) mod MDB_QUEUE_SIZE;
                 tail := tail q;
                 count := count q - 1 |}) ;;
    ret (Some (nth (Z.to_nat (head q)) (messages q) zero_message)).

(** Modelled from the spec: the loop of [MDB_ProcessMessageQueue], absent
    from the sources like the function itself.  It takes up to [n] frames
    off the queue, "feeding each frame to the State Machine's message
    handler". *)
Fixpoint processAll (n : nat) : M unit :=
  match n with
  | O => ret tt
  | S n' =>
      do next <- dequeue ;;
      match next with
      | None => ret tt
      | Some m =>
          MDB_ProcessMessage (Some (data m)) (length_ m) ;;
          processAll n'
      end
  end.

(** Modelled from the spec: [MDB_ProcessMessageQueue] is declared in MDB.h
    and defined nowhere.  "processAll(): drains the queue in arrival order,
    feeding each frame to the State Machine's message handler": every frame
    queued at the call is dequeued and handed to [MDB_ProcessMessage]. *)
Definition MDB_ProcessMessageQueue : M bool :=
  do n <- get (fun st => count (messageQueue st)) ;;
  processAll (Z.to_nat n) ;;
  ret true.

(** ** Error recovery (Mdb.c, lines 262-388) *)

Definition set_lastErrorTime (t : Z) (s : ErrorStats) : ErrorStats :=
  {| lastErrorTime := t; rapidErrorCount := rapidErrorCount s;
     seriousErrorCount := seriousErrorCount s |}.
Definition set_rapidErrorCount (c : Z) (s : ErrorStats) : ErrorStats :=
  {| lastErrorTime := lastErrorTime s; rapidErrorCount := c;
     seriousErrorCount := seriousErrorCount s |}.
Definition set_seriousErrorCount (c : Z) (s : ErrorStats) : ErrorStats :=
  {| lastErrorTime := lastErrorTime s; rapidErrorCount := rapidErrorCount s;
     seriousErrorCount := c |}.

(** The [switch(error)]. *)
Definition HandleError_recover (e : MDB_Error_t) : M unit :=
  match e with
  | MDB_ERR_NAK =>
      do tries <- get retryCount ;;
      if tries <? 3 then
        modify (fun st => set_retryCount (u8 (retryCount st + 1)) st) ;;
        do attempt <- get retryCount ;;
        MDB_LogMessage LOG_WARNING "Retrying command, attempt %d" [attempt] ;;
        do n <- get lastCommandLength ;;
        if n >? 0 then
          do cmd <- get lastCommand ;;
          SendCommand cmd n ;;
          ret tt
        else ret tt
      else
        MDB_LogMessage LOG_ERROR "Max retries exceeded" [] ;;
        modify (set_retryCount 0) ;;
        MDB_Reset ;;
        ret tt
  | MDB_ERR_TIMEOUT =>
      MDB_LogMessage LOG_ERROR "Communication timeout" [] ;;
      do s <- get session_state ;;
      if negb (MDB_State_eqb s MDB_STATE_INACTIVE) then
        MDB_Reset ;;
        ret tt
      else ret tt
  | MDB_ERR_CHECKSUM =>
      MDB_LogMessage LOG_ERROR "Checksum error" [] ;;
      SendCommand [MDB_RET] 1 ;;
      ret tt
  | MDB_ERR_STATE =>
      MDB_LogMessage LOG_ERROR "Invalid state transition" [] ;;
      do s <- get session_state ;;
      if state_ord s >? state_ord MDB_STATE_ENABLED then
        MDB_SessionComplete ;;
        ret tt
      else ret tt
  | MDB_ERR_SEQUENCE =>
      MDB_LogMessage LOG_ERROR "Command sequence error" [] ;;
      do s <- get session_state ;;
      if state_ord s >? state_ord MDB_STATE_ENABLED then
        MDB_SessionComplete ;;
        ret tt
      else
        MDB_Reset ;;
        ret tt
  | MDB_ERR_FUNDS =>
      MDB_LogMessage LOG_ERROR "Insufficient funds" [] ;;
      do s <- get session_state ;;
      if MDB_State_eqb s MDB_STATE_VEND then
        MDB_VendFailure ;;
        ret tt
      else ret tt
  | MDB_ERR_HARDWARE =>
      MDB_LogMessage LOG_ERROR "Hardware error detected" [] ;;
      MDB_DisableReader ;;
      HAL_Delay 100 ;;
      MDB_Reset ;;
      ret tt
  | MDB_ERR_COMMUNICATION =>
      MDB_LogMessage LOG_ERROR "Communication error" [] ;;
      MDB_DisableReader ;;
      HAL_Delay 100 ;;
      MDB_Reset ;;
      HAL_Delay 100 ;;
      MDB_EnableReader ;;
      ret tt
  | MDB_ERR_NONE | MDB_ERR_PARAMETER =>
      MDB_LogMessage LOG_ERROR "Unknown error: %d" [error_ord e] ;;
      MDB_Reset ;;
      ret tt
  end.

(** "Update error statistics". *)
Definition HandleError_statistics (currentTime : Z) : M unit :=
  do last <- get (fun st => lastErrorTime (errStats st)) ;;
  (if u32 (currentTime - last) <? 5000 then
     modify (fun st =>
       set_errStats (set_rapidErrorCount (u8 (rapidErrorCount (errStats st) + 1))
                       (errStats st)) st) ;;
     do rapid <- get (fun st => rapidErrorCount (errStats st)) ;;
     if rapid >? 5 then
       MDB_LogMessage LOG_ERROR "Too many errors, disabling reader" [] ;;
       MDB_DisableReader ;;
       modify (fun st => set_errStats (set_rapidErrorCount 0 (errStats st)) st)
     else ret tt
   else
     modify (fun st => set_errStats (set_rapidErrorCount 0 (errStats st)) st)) ;;
  modify (fun st => set_errStats (set_lastErrorTime currentTime (errStats st)) st).

(** "Log extended error information" and "Add to error log array". *)
Definition HandleError_log (e : MDB_Error_t) (currentTime : Z) : M unit :=
  do errorEntry <- get (fun st =>
    {| timestamp := currentTime;
       error := e;
       state_ := session_state st;
       lastCommand_ := rd8 (lastCommand st) 0;
       lastResponse := rd8 (rxBuffer st) 0 |}) ;;
  modify (fun st =>
    set_errorLog (<[Z.to_nat (errorLogIndex st) := errorEntry]> (errorLog st)) st) ;;
  modify (fun st =>
    set_errorLogIndex (u8 ((errorLogIndex st + 1) mod MDB_ERROR_LOG_SIZE)) st).

(** "If we have serious errors, consider dumping logs". *)
Definition HandleError_serious (e : MDB_Error_t) : M unit :=
  match e with
  | MDB_ERR_HARDWARE | MDB_ERR_COMMUNICATION =>
      modify (fun st =>
        set_errStats (set_seriousErrorCount (u8 (seriousErrorCount (errStats st) + 1))
                        (errStats st)) st) ;;
      do serious <- get (fun st => seriousErrorCount (errStats st)) ;;
      if serious >=? 3 then
        MDB_DumpLogs ;;
        modify (fun st => set_errStats (set_seriousErrorCount 0 (errStats st)) st)
      else ret tt
  | _ => ret tt
  end.

Definition MDB_HandleError (e : MDB_Error_t) : M unit :=
  MDB_LogError e ;;
  HandleError_recover e ;;
  do currentTime <- HAL_GetTick ;;
  HandleError_statistics currentTime ;;
  HandleError_log e currentTime ;;
  HandleError_serious e.

(** ** Poll loop (Mdb.c, lines 159-197) *)

Definition MDB_Poll : M unit :=
  do currentTime <- HAL_GetTick ;;
  do last <- get lastPollTime ;;
  if u32 (currentTime - last) <? MDB_POLL_INTERVAL then ret tt
  else
    modify (set_lastPollTime currentTime) ;;
    MDB_ProcessMessageQueue ;;
    do sent <- SendCommand [MDB_CMD_POLL] 1 ;;
    if negb sent then MDB_HandleError MDB_ERR_COMMUNICATION
    else
      do ' (got, respLen) <- WaitForResponse ;;
      if negb got then ret tt
      else
        (if respLen >? 0 then
           do buf <- get rxBuffer ;;
           MDB_ProcessMessage (Some buf) respLen ;;
           ret tt
         else ret tt) ;;
        do s <- get session_state ;;
        if MDB_State_eqb s MDB_STATE_SESSION_IDLE then
          do started <- get (fun st => sessionTimeout (mdbSession st)) ;;
          if u32 (currentTime - started) >? 30000 then
            MDB_LogMessage LOG_WARNING "Session timeout" [] ;;
            MDB_SessionComplete ;;
            ret tt
          else ret tt
        else ret tt.

End WithAbsent.

(** The statics as C initialises them, over a given environment. *)
Definition boot (w : World) : Engine :=
  {| mdbConfig := zero_config;
     mdbSession := zero_session;
     messageQueue := zero_queue;
     errorLog := replicate 50 zero_errorLog;
     errorLogIndex := 0;
     lastPollTime := 0;
     txBuffer := replicate 36 0;
     rxBuffer := replicate 36 0;
     lastCommand := replicate 36 0;
     lastCommandLength := 0;
     retryCount := 0;
     errStats := mkErrorStats 0 0 0;
     hal := w |}.

(** * Observations

    The vocabulary of the statements below: what a run of the engine shows on
    its trace and in its statics. *)

(** A receive loop came back with a frame. *)
Definition reports_frame (r : option (bool * Z)) : bool :=
  match r with
  | Some (true, _) => true
  | _ => false
  end.

(** [keeps f] relates two states that agree on the observation [f];
    [keeps_op f m] says that running [m] never changes it. *)
Definition keeps {T : Type} (f : Engine -> T) (st st' : Engine) : Prop := f st' = f st.

Definition keeps_op {T R : Type} (f : Engine -> T) (m : M R) : Prop :=
  forall st, keeps f st (snd (m st)).

(** An observation is [TransportBlind] when it does not depend on the
    buffers of the transport or on the environment, [SessionBlind] when it
    does not depend on the session either, [RecoveryBlind] when it ignores
    the retry counter as well. *)
Class TransportBlind {T : Type} (f : Engine -> T) : Prop := {
  blind_txBuffer : forall v st, f (set_txBuffer v st) = f st;
  blind_rxBuffer : forall v st, f (set_rxBuffer v st) = f st;
  blind_lastCommand : forall v st, f (set_lastCommand v st) = f st;
  blind_lastCommandLength : forall v st, f (set_lastCommandLength v st) = f st;
  blind_hal : forall v st, f (set_hal v st) = f st
}.

Class SessionBlind {T : Type} (f : Engine -> T) : Prop := {
  blind_transport :: TransportBlind f;
  blind_mdbSession : forall v st, f (set_mdbSession v st) = f st
}.

Class RecoveryBlind {T : Type} (f : Engine -> T) : Prop := {
  blind_session :: SessionBlind f;
  blind_retryCount : forall v st, f (set_retryCount v st) = f st
}.

(** The line the handler logs when the burst detector disables the
    reader, right before it calls [MDB_DisableReader]. *)
Definition is_burst_alarm (ev : Event) : bool :=
  match ev with
  | EvLogMessage LOG_ERROR format _ => String.eqb format "Too many errors, disabling reader"
  | _ => false
  end.

Definition no_alarm (evs : list Event) : bool := forallb (fun ev => negb (is_burst_alarm ev)) evs.

(** [st'] has the events of [st] followed by new ones, none of them the
    burst alarm. *)
Definition quiet (st st' : Engine) : Prop :=
  exists evs, events st' = events st ++ evs /\ no_alarm evs = true.

Definition quiet_op {R : Type} (m : M R) : Prop := forall st, quiet st (snd (m st)).

(** The status the next [HAL_UART_Transmit] will return. *)
Definition tx_status (st : Engine) : bool :=
  match txq (hal st) with
  | b :: _ => b
  | [] => true
  end.

(** What a run from [st] to [st'] added to the trace. *)
Definition new_events (st st' : Engine) : list Event :=
  drop (length (events st)) (events st').

(** [MDB_Reset] announces itself: this is the first thing it does, and no
    other function logs that line. *)
Definition is_reset_start (ev : Event) : bool :=
  match ev with
  | EvLogMessage LOG_INFO format _ => String.eqb format "Performing reset..."
  | _ => false
  end.

(** The burst detector on its own: the counter after an error seen at
    [currentTime], and whether the reader is disabled. *)
Definition burst_next (s : ErrorStats) (currentTime : Z) : Z * bool :=
  if u32 (currentTime - lastErrorTime s) <? 5000 then
    if u8 (rapidErrorCount s + 1) >? 5 then (0, true)
    else (u8 (rapidErrorCount s + 1), false)
  else (0, false).

(** A command has been recorded for a retry, in buffers of their declared
    size. *)
Definition cmd_recorded (st : Engine) : Prop :=
  0 < lastCommandLength st <= MDB_MAX_MESSAGE_LENGTH - 1 /\
  length (lastCommand st) = Z.to_nat MDB_MAX_MESSAGE_LENGTH /\
  length (txBuffer st) = Z.to_nat MDB_MAX_MESSAGE_LENGTH.

(** The error log has its declared size and the index is inside it. *)
Definition log_sized (st : Engine) : Prop :=
  length (errorLog st) = Z.to_nat MDB_ERROR_LOG_SIZE /\
  0 <= errorLogIndex st < MDB_ERROR_LOG_SIZE.

(** The frames waiting in the queue, oldest first. *)
Definition queued (q : MDB_MessageQueue_t) : list MDB_Message_t :=
  map (fun i => nth (Z.to_nat ((head q + Z.of_nat i) mod MDB_QUEUE_SIZE))
                    (messages q) zero_message)
      (seq 0 (Z.to_nat (count q))).

(** The frame handlers leave the queue to the queue operations. *)
Definition handlers_keep_queue (A : Absent) : Prop :=
  keeps_op messageQueue (HandleJustReset A) /\
  (forall bytes len, keeps_op messageQueue (HandleBeginSession A bytes len)) /\
  (forall bytes len, keeps_op messageQueue (HandleVendApproved A bytes len)) /\
  keeps_op messageQueue (HandleVendDenied A) /\
  keeps_op messageQueue (HandleEndSession A).

Section Observers.

Variable A : Absent.

(** The engine as the handler finds it when it samples the tick: the
    error has been reported and its recovery action has run. *)
Definition recovered (e : MDB_Error_t) (st : Engine) : Engine :=
  snd (HandleError_recover A e (snd (MDB_LogError e st))).

(** The time the handler takes for the time of the error. *)
Definition error_time (e : MDB_Error_t) (st : Engine) : Z := tick (hal (recovered e st)).

(** Did this call of the handler raise the burst alarm
    ("Too many errors, disabling reader")? *)
Definition burst_alarmed (e : MDB_Error_t) (st : Engine) : bool :=
  existsb is_burst_alarm (new_events st (snd (MDB_HandleError A e st))).

(** Did this call of the handler run [MDB_Reset]? *)
Definition reset_performed (e : MDB_Error_t) (st : Engine) : bool :=
  existsb is_reset_start (new_events st (snd (MDB_HandleError A e st))).




(** Errors handled one after the other. *)
Fixpoint handle_all (es : list MDB_Error_t) (st : Engine) : Engine :=
  match es with
  | [] => st
  | e :: rest => handle_all rest (snd (MDB_HandleError A e st))
  end.

(** The engine after handling one NAK. *)
Definition nak (st : Engine) : Engine := snd (MDB_HandleError A MDB_ERR_NAK st).

(** Handling a NAK in [st] resent the recorded command, as attempt number
    [attempt]: the recovery action logged the retry and put the recorded
    bytes with their checksum on the wire, once, and did nothing else. *)
Definition resent (st : Engine) (attempt : Z) : Prop :=
  let n := lastCommandLength st in
  let frame := take (Z.to_nat n) (lastCommand st) ++ [CalculateChecksum (lastCommand st) n] in
  retryCount (nak st) = attempt /\
  events (recovered MDB_ERR_NAK st)
  = events st ++ [EvLogError MDB_ERR_NAK;
                  EvLogMessage LOG_WARNING "Retrying command, attempt %d" [attempt];
                  EvTransmit frame (tx_status st)]
              ++ (if tx_status st then [] else [EvLogError MDB_ERR_COMMUNICATION]) /\
  exists rest, events (nak st) = events (recovered MDB_ERR_NAK st) ++ rest.

(** Handling a NAK in [st] gave up retrying: the recovery action cleared
    the retry counter and ran [MDB_Reset], whose RESET command is the first
    thing put on the wire. *)
Definition reset_instead (st : Engine) : Prop :=
  retryCount (nak st) = 0 /\
  recovered MDB_ERR_NAK st
  = snd (MDB_Reset (set_retryCount 0
                      (snd (MDB_LogMessage LOG_ERROR "Max retries exceeded" []
                              (snd (MDB_LogError MDB_ERR_NAK st)))))) /\
  exists rest,
    events (nak st)
    = events st ++ [EvLogError MDB_ERR_NAK;
                    EvLogMessage LOG_ERROR "Max retries exceeded" [];
                    EvLogMessage LOG_INFO "Performing reset..." [];
                    EvTransmit [MDB_CMD_RESET; 0x10] (tx_status st)] ++ rest.

(** Take the oldest frame off the queue and hand it to the message
    handler. *)
Definition feed (st : Engine) (m : MDB_Message_t) : Engine :=
  snd (MDB_ProcessMessage A (Some (data m)) (length_ m) (snd (dequeue st))).

End Observers.

(** An instance of the absent parts to run the engine on: the command
    codes of an MDB cashless device, handlers that accept every frame and a
    parser that accepts every configuration, none of them touching the
    engine. *)
Definition sample : Absent :=
  {| MDBRxCashlessJustReset := 0x00;
     MDBRxCashlessBeginSession := 0x03;
     MDBRxCashlessVendApproved := 0x05;
     MDBRxCashlessVendDenied := 0x06;
     MDBRxCashlessEndSession := 0x07;
     ParseConfiguration := fun _ _ => ret true;
     HandleJustReset := ret true;
     HandleBeginSession := fun _ _ => ret true;
     HandleVendApproved := fun _ _ => ret true;
     HandleVendDenied := ret true;
     HandleEndSession := ret true;
     READER_DISABLE := 0x00;
     READER_ENABLE := 0x01;
     END_SESSION := 0x04 |}.

(** * Further observations

    The vocabulary of the statements about the rest of the code. *)

(** The three errors [WaitForResponse] can report. *)
Definition is_wait_error (e : MDB_Error_t) : bool :=
  match e with
  | MDB_ERR_TIMEOUT | MDB_ERR_COMMUNICATION | MDB_ERR_PARAMETER => true
  | _ => false
  end.

(** [st'] differs from [st] in the receive buffer and the environment at
    most. *)
Definition received (st st' : Engine) : Prop :=
  exists (buf : list Z) (w : World), st' = set_rxBuffer buf (set_hal w st).

Definition receives {R : Type} (m : M R) : Prop := forall st, received st (snd (m st)).

(** The engine with the environment moved on: the tick at [t], and [q]
    left to receive. *)
Definition moved (t : Z) (q : list (option Z)) (st : Engine) : Engine :=
  set_hal (set_tick t (set_rxq q (hal st))) st.

(** The tick after [n] receive attempts that each ran into a timeout of
    one millisecond. *)
Definition tick_after (n : nat) (t : Z) : Z := Nat.iter n (fun t' => u32 (t' + 1)) t.

(** [store_at buf i ws]: the words [ws] written to the slots [i], [i+1], ...
    of [buf], as the receive loop does. *)
Fixpoint store_at (buf : list Z) (i : Z) (ws : list Z) : list Z :=
  match ws with
  | [] => buf
  | w :: rest => store_at (wr8 buf i w) (i + 1) rest
  end.

(** The next [n] receive attempts fail: each finds a failure queued, or
    the queue exhausted. *)
Definition silent (n : nat) (q : list (option Z)) : Prop :=
  Forall (fun r => r = None) (take n q).

(** The two error kinds the handler counts as serious. *)
Definition is_serious (e : MDB_Error_t) : bool :=
  match e with
  | MDB_ERR_HARDWARE | MDB_ERR_COMMUNICATION => true
  | _ => false
  end.

(** The counters of the recovery manager are within the bounds its tests
    keep them in. *)
Definition counters_bounded (st : Engine) : Prop :=
  0 <= retryCount st <= 3 /\
  0 <= rapidErrorCount (errStats st) <= 5 /\
  0 <= seriousErrorCount (errStats st) <= 2.

(** [free p st st']: [st'] has the events of [st] followed by new ones,
    none of which [p] recognises; [hits p st st']: followed by new ones, one
    of which [p] recognises. *)
Definition free (p : Event -> bool) (st st' : Engine) : Prop :=
  exists evs, events st' = events st ++ evs /\ existsb p evs = false.

Definition free_op {R : Type} (p : Event -> bool) (m : M R) : Prop :=
  forall st, free p st (snd (m st)).

Definition hits (p : Event -> bool) (st st' : Engine) : Prop :=
  exists evs, events st' = events st ++ evs /\ existsb p evs = true.

(** No event at all. *)
Definition no_event (ev : Event) : bool := false.

(** The call of [MDB_DumpLogs]. *)
Definition is_dump (ev : Event) : bool :=
  match ev with
  | EvDumpLogs => true
  | _ => false
  end.

(** Did this call of the handler dump the logs? *)
Definition dumped (A : Absent) (e : MDB_Error_t) (st : Engine) : bool :=
  existsb is_dump (new_events st (snd (MDB_HandleError A e st))).

(** The rows of the [switch] of [MDB_HandleError] that end in a call of
    [MDB_Reset], with the tests that guard them. *)
Definition resets (e : MDB_Error_t) (st : Engine) : bool :=
  match e with
  | MDB_ERR_NAK => negb (retryCount st <? 3)
  | MDB_ERR_TIMEOUT => negb (MDB_State_eqb (session_state st) MDB_STATE_INACTIVE)
  | MDB_ERR_SEQUENCE => negb (state_ord (session_state st) >? state_ord MDB_STATE_ENABLED)
  | MDB_ERR_CHECKSUM | MDB_ERR_STATE | MDB_ERR_FUNDS => false
  | MDB_ERR_HARDWARE | MDB_ERR_COMMUNICATION | MDB_ERR_NONE | MDB_ERR_PARAMETER => true
  end.

(** ** Error statistics (Mdb.c, lines 392-401)

    The counting loop of [MDB_DumpErrorStats]: [errorCounts], indexed by
    error kind, and [totalErrors], over the entries of the error log whose
    timestamp is not zero.  Both are [uint32_t].  The loop that follows it
    prints each count with a percentage computed in [float]; it is not
    modelled. *)
Definition MDB_DumpErrorStats_step (acc : list Z * Z) (entry : MDB_ErrorLog_t) : list Z * Z :=
  if negb (timestamp entry =? 0) then
    let i := Z.to_nat (error_ord (error entry)) in
    (<[i := u32 (nth i (fst acc) 0 + 1)]> (fst acc), u32 (snd acc + 1))
  else acc.

Definition MDB_DumpErrorStats_counts (log : list MDB_ErrorLog_t) : list Z * Z :=
  foldl MDB_DumpErrorStats_step
        (replicate (Z.to_nat (error_ord MDB_ERR_HARDWARE + 1)) 0, 0)
        (take (Z.to_nat MDB_ERROR_LOG_SIZE) log).

(** The number of entries of a log that carry a timestamp. *)
Definition stamped (log : list MDB_ErrorLog_t) : Z :=
  foldr (fun entry n => (if timestamp entry =? 0 then 0 else 1) + n) 0 log.

(** * Properties *)

(** ** Machine arithmetic *)

Lemma u8_range (z : Z) : 0 <= u8 z < 256.
Proof. unfold u8. apply Z.mod_pos_bound. lia. Qed.

Lemma u8_small (z : Z) : 0 <= z < 256 -> u8 z = z.
Proof. intros H. unfold u8. apply Z.mod_small. exact H. Qed.

Lemma u32_small (z : Z) : 0 <= z < 2 ^ 32 -> u32 z = z.
Proof. intros H. unfold u32. apply Z.mod_small. exact H. Qed.

(** ** State passing *)

Lemma bind_snd {R S : Type} (m : M R) (k : R -> M S) (st : Engine) :
  snd (bind m k st) = snd (k (fst (m st)) (snd (m st))).
Proof. unfold bind. destruct (m st). reflexivity. Qed.

Lemma bind_get {R S : Type} (f : Engine -> R) (k : R -> M S) (st : Engine) :
  bind (get f) k st = k (f st) st.
Proof. reflexivity. Qed.

Lemma bind_modify {S : Type} (g : Engine -> Engine) (k : unit -> M S) (st : Engine) :
  bind (modify g) k st = k tt (g st).
Proof. reflexivity. Qed.

Lemma bind_ret_tt {R : Type} (m : M R) (st : Engine) :
  snd (bind m (fun _ => ret tt) st) = snd (m st).
Proof. unfold bind. destruct (m st). reflexivity. Qed.

(** ** The mode bit *)

(** A [uint8_t] has no bit 0x100: the test of the inner loop of
    [WaitForResponse] sees 0 whatever the slot holds. *)
Lemma mode_bit_never_set (buf : list Z) (i : Z) : Z.land (rd8 buf i) 0x100 = 0.
Proof.
  unfold rd8, u8.
  change 256 with (2 ^ 8).
  rewrite <- Z.land_ones by lia.
  rewrite <- Z.land_assoc.
  change (Z.land (Z.ones 8) 256) with 0.
  apply Z.land_0_r.
Qed.

(** ** [WaitForResponse] cannot report a frame *)

Lemma WaitForResponse_more_fails (fuel : nat) :
  forall (len : Z) (st : Engine),
    reports_frame (fst (WaitForResponse_more fuel len st)) = false.
Proof.
  induction fuel as [| fuel IH]; intros len st; [reflexivity |].
  cbn [WaitForResponse_more]. unfold bind, get.
  rewrite mode_bit_never_set. cbn [Z.eqb].
  destruct (HAL_UART_Receive MDB_INTERBYTE_TIMEOUT st) as [[w |] st1]; [| reflexivity].
  unfold modify. destruct (u8 (len + 1) >=? MDB_MAX_MESSAGE_LENGTH); [reflexivity |].
  apply IH.
Qed.

Lemma WaitForResponse_loop_fails (fuel : nat) :
  forall (startTime : Z) (st : Engine),
    reports_frame (fst (WaitForResponse_loop fuel startTime st)) = false.
Proof.
  induction fuel as [| fuel IH]; intros startTime st; [reflexivity |].
  cbn [WaitForResponse_loop]. unfold bind, HAL_GetTick, get.
  destruct (u32 (tick (hal st) - startTime) <? MDB_RESPONSE_TIMEOUT); [| reflexivity].
  destruct (HAL_UART_Receive 1 st) as [[w |] st1]; [| apply IH].
  unfold modify.
  match goal with
  | |- context [WaitForResponse_more ?f ?l ?s] =>
      pose proof (WaitForResponse_more_fails f l s) as Hmore;
      destruct (WaitForResponse_more f l s) as [[[[|] len] |] st2]
  end; try reflexivity.
  discriminate Hmore.
Qed.

(** Whatever the peripheral sends and whenever, the flag returned by
    [WaitForResponse] is false. *)
Lemma WaitForResponse_never_succeeds (st : Engine) :
  fst (fst (WaitForResponse st)) = false.
Proof.
  unfold WaitForResponse, bind, HAL_GetTick, get, ret.
  pose proof (WaitForResponse_loop_fails WaitForResponse_fuel (tick (hal st)) st) as H.
  destruct (WaitForResponse_loop WaitForResponse_fuel (tick (hal st)) st)
    as [[[[|] len] |] st1]; try reflexivity.
  discriminate H.
Qed.

(** ** The loops of [WaitForResponse] end within their fuel *)

Lemma WaitForResponse_more_returns (fuel : nat) :
  forall (len : Z) (st : Engine),
    1 <= len < MDB_MAX_MESSAGE_LENGTH ->
    MDB_MAX_MESSAGE_LENGTH - len <= Z.of_nat fuel ->
    fst (WaitForResponse_more fuel len st) <> None.
Proof.
  unfold MDB_MAX_MESSAGE_LENGTH.
  induction fuel as [| fuel IH]; intros len st Hlen Hfuel; [lia |].
  cbn [WaitForResponse_more]. unfold bind, get.
  rewrite mode_bit_never_set. cbn [Z.eqb].
  destruct (HAL_UART_Receive MDB_INTERBYTE_TIMEOUT st) as [[w |] st1]; [| discriminate].
  unfold modify. rewrite (u8_small (len + 1)) by lia.
  unfold MDB_MAX_MESSAGE_LENGTH.
  destruct (len + 1 >=? 36) eqn:Hfull; [discriminate |].
  apply IH; lia.
Qed.

Lemma HAL_UART_Receive_timeout (timeout : Z) (st st1 : Engine) :
  HAL_UART_Receive timeout st = (None, st1) ->
  tick (hal st1) = u32 (tick (hal st) + timeout).
Proof.
  unfold HAL_UART_Receive.
  destruct (rxq (hal st)) as [| [w |] q]; intros [= <-]; reflexivity.
Qed.

Lemma u32_succ (t startTime : Z) :
  u32 (t - startTime) < MDB_RESPONSE_TIMEOUT ->
  u32 (u32 (t + 1) - startTime) = u32 (t - startTime) + 1.
Proof.
  unfold u32, MDB_RESPONSE_TIMEOUT. intros H.
  rewrite Zminus_mod_idemp_l.
  replace (t + 1 - startTime) with ((t - startTime) + 1) by lia.
  rewrite <- Z.add_mod_idemp_l by lia.
  apply Z.mod_small.
  pose proof (Z.mod_pos_bound (t - startTime) (2 ^ 32) ltac:(lia)). lia.
Qed.

Lemma WaitForResponse_loop_returns (fuel : nat) :
  forall (startTime : Z) (st : Engine),
    Z.max 0 (MDB_RESPONSE_TIMEOUT - u32 (tick (hal st) - startTime)) < Z.of_nat fuel ->
    fst (WaitForResponse_loop fuel startTime st) <> None.
Proof.
  induction fuel as [| fuel IH]; intros startTime st Hfuel; [lia |].
  cbn [WaitForResponse_loop]. unfold bind, HAL_GetTick, get.
  destruct (u32 (tick (hal st) - startTime) <? MDB_RESPONSE_TIMEOUT) eqn:Hin;
    [| discriminate].
  apply Z.ltb_lt in Hin.
  destruct (HAL_UART_Receive 1 st) as [[w |] st1] eqn:Hrx.
  - unfold modify.
    match goal with
    | |- context [WaitForResponse_more ?f ?l ?s] =>
        pose proof (WaitForResponse_more_returns f l s
                      ltac:(unfold MDB_MAX_MESSAGE_LENGTH; lia)
                      ltac:(unfold MDB_MAX_MESSAGE_LENGTH; lia)) as Hmore;
        destruct (WaitForResponse_more f l s) as [[[[|] len] |] st2]
    end; cbn [fst] in *; try discriminate; try congruence.
    unfold ret. destruct (WaitForResponse_check len st2). discriminate.
  - apply IH.
    rewrite (HAL_UART_Receive_timeout _ _ _ Hrx), u32_succ by exact Hin.
    unfold MDB_RESPONSE_TIMEOUT in *. lia.
Qed.

(** [WaitForResponse] always comes back with the result of its loop: the
    fall-back for exhausted fuel is never used. *)
Lemma WaitForResponse_returns (st : Engine) :
  fst (WaitForResponse_loop WaitForResponse_fuel (tick (hal st)) st) <> None.
Proof.
  apply WaitForResponse_loop_returns.
  rewrite Z.sub_diag. unfold WaitForResponse_fuel, MDB_RESPONSE_TIMEOUT, u32.
  rewrite Z.mod_0_l by lia. lia.
Qed.

(** ** Framing: what the transport and the session operations leave alone

    [keeps f] relates two states that agree on the observation [f].  An
    observation is [TransportBlind] when it does not depend on the buffers
    of the transport or on the environment, [SessionBlind] when it does not
    depend on the session either. *)

#[local] Ltac blind := repeat (constructor; intros); reflexivity.

#[export] Instance retryCount_blind : SessionBlind retryCount.
Proof. blind. Qed.
#[export] Instance errStats_blind : SessionBlind errStats.
Proof. blind. Qed.
#[export] Instance errorLog_blind : SessionBlind errorLog.
Proof. blind. Qed.
#[export] Instance errorLogIndex_blind : SessionBlind errorLogIndex.
Proof. blind. Qed.
#[export] Instance messageQueue_blind : SessionBlind messageQueue.
Proof. blind. Qed.
#[export] Instance lastPollTime_blind : SessionBlind lastPollTime.
Proof. blind. Qed.
#[export] Instance mdbSession_blind : TransportBlind mdbSession.
Proof. blind. Qed.
#[export] Instance session_state_blind : TransportBlind session_state.
Proof. blind. Qed.

Lemma keeps_ret {T R : Type} (f : Engine -> T) (r : R) : keeps_op f (ret r).
Proof. intros st. reflexivity. Qed.

Lemma keeps_get {T R : Type} (f : Engine -> T) (g : Engine -> R) : keeps_op f (get g).
Proof. intros st. reflexivity. Qed.

Lemma keeps_modify {T : Type} (f : Engine -> T) (g : Engine -> Engine) :
  (forall st, f (g st) = f st) -> keeps_op f (modify g).
Proof. intros H st. apply H. Qed.

Lemma keeps_bind {T R S : Type} (f : Engine -> T) (m : M R) (k : R -> M S) :
  keeps_op f m -> (forall r, keeps_op f (k r)) -> keeps_op f (bind m k).
Proof.
  intros Hm Hk st. unfold bind, keeps.
  specialize (Hm st). destruct (m st) as [r st1].
  rewrite (Hk r st1). exact Hm.
Qed.

Create HintDb frame discriminated.

#[local] Ltac blind_field :=
  first [ apply blind_txBuffer | apply blind_rxBuffer | apply blind_lastCommand
        | apply blind_lastCommandLength | apply blind_hal | apply blind_mdbSession
        | apply blind_retryCount ].

#[local] Ltac keeps_step :=
  lazymatch goal with
  | |- keeps_op _ (bind _ _) => apply keeps_bind; [| intros ?]
  | |- keeps_op _ (ret _) => apply keeps_ret
  | |- keeps_op _ (get _) => apply keeps_get
  | |- keeps_op _ (modify _) => apply keeps_modify; intros; blind_field
  | |- keeps_op _ (if ?b then _ else _) => destruct b
  | |- keeps_op _ (match ?x with _ => _ end) => destruct x
  | |- keeps_op _ _ => solve [eauto with frame typeclass_instances]
  end.

#[local] Ltac keeps_auto := repeat keeps_step.

Section TransportFrame.

Context {T : Type} (f : Engine -> T) `{!TransportBlind f}.

Lemma MDB_LogMessage_keeps level format args : keeps_op f (MDB_LogMessage level format args).
Proof. unfold MDB_LogMessage. keeps_auto. Qed.

Lemma MDB_LogError_keeps e : keeps_op f (MDB_LogError e).
Proof. unfold MDB_LogError. keeps_auto. Qed.

Lemma HAL_GetTick_keeps : keeps_op f HAL_GetTick.
Proof. unfold HAL_GetTick. keeps_auto. Qed.

Lemma elapse_keeps ms : keeps_op f (elapse ms).
Proof. unfold elapse. keeps_auto. Qed.

Lemma HAL_Delay_keeps ms : keeps_op f (HAL_Delay ms).
Proof. apply elapse_keeps. Qed.

Lemma HAL_UART_Receive_keeps timeout : keeps_op f (HAL_UART_Receive timeout).
Proof.
  intros st. unfold HAL_UART_Receive, keeps, elapse, modify.
  destruct (rxq (hal st)) as [| [w |] q]; cbn [snd]; rewrite ?blind_hal; reflexivity.
Qed.

Lemma HAL_UART_Transmit_keeps bytes timeout : keeps_op f (HAL_UART_Transmit bytes timeout).
Proof. intros st. apply blind_hal. Qed.

#[local] Hint Resolve MDB_LogMessage_keeps MDB_LogError_keeps HAL_GetTick_keeps
  HAL_Delay_keeps HAL_UART_Receive_keeps HAL_UART_Transmit_keeps : frame.

Lemma SendCommand_keeps bytes len : keeps_op f (SendCommand bytes len).
Proof. unfold SendCommand. keeps_auto. Qed.

Lemma WaitForResponse_more_keeps fuel : forall len, keeps_op f (WaitForResponse_more fuel len).
Proof.
  induction fuel as [| fuel IH]; intros len; cbn [WaitForResponse_more]; keeps_auto.
Qed.

Lemma WaitForResponse_check_keeps len : keeps_op f (WaitForResponse_check len).
Proof. unfold WaitForResponse_check. keeps_auto. Qed.

#[local] Hint Resolve SendCommand_keeps WaitForResponse_more_keeps
  WaitForResponse_check_keeps : frame.

Lemma WaitForResponse_loop_keeps fuel :
  forall startTime, keeps_op f (WaitForResponse_loop fuel startTime).
Proof.
  induction fuel as [| fuel IH]; intros startTime; cbn [WaitForResponse_loop]; keeps_auto.
Qed.

#[local] Hint Resolve WaitForResponse_loop_keeps : frame.

Lemma WaitForResponse_keeps : keeps_op f WaitForResponse.
Proof. unfold WaitForResponse. keeps_auto. Qed.

(** The reset handshake never gets past its wait for JUST RESET, so it
    keeps even the session. *)
Lemma MDB_Reset_keeps : keeps_op f MDB_Reset.
Proof.
  unfold MDB_Reset.
  apply keeps_bind; [auto with frame | intros _].
  apply keeps_bind; [auto with frame | intros sent].
  destruct sent; cbn [negb]; [| keeps_auto].
  intros st. unfold bind, keeps.
  pose proof (WaitForResponse_never_succeeds st) as Hfail.
  pose proof (WaitForResponse_keeps st) as Hkeep.
  destruct (WaitForResponse st) as [[got respLen] st1].
  cbn in Hfail. subst got. cbn [negb snd] in *.
  rewrite <- Hkeep. apply (keeps_bind f); [auto with frame | intros _; apply keeps_ret].
Qed.

End TransportFrame.

#[export] Hint Resolve MDB_LogMessage_keeps MDB_LogError_keeps HAL_GetTick_keeps
  HAL_Delay_keeps HAL_UART_Receive_keeps HAL_UART_Transmit_keeps SendCommand_keeps
  WaitForResponse_keeps MDB_Reset_keeps : frame.

Lemma MDB_Reset_fails (st : Engine) : fst (MDB_Reset st) = false.
Proof.
  unfold MDB_Reset, bind, MDB_LogMessage, modify.
  match goal with |- context [SendCommand ?b ?n ?s] => destruct (SendCommand b n s) as [[|] st1] end;
    cbn [negb]; [| reflexivity].
  pose proof (WaitForResponse_never_succeeds st1) as Hfail.
  destruct (WaitForResponse st1) as [[got respLen] st2].
  cbn in Hfail. subst got. reflexivity.
Qed.

(** ** The trace only grows

    [is_burst_alarm] recognises the message that announces the
    burst-triggered disabling of the reader; [quiet st st'] says that [st']
    has the events of [st] followed by new ones, none of them that alarm. *)

Lemma quiet_refl (st : Engine) : quiet st st.
Proof. exists []. rewrite app_nil_r. split; reflexivity. Qed.

Lemma quiet_trans (st1 st2 st3 : Engine) : quiet st1 st2 -> quiet st2 st3 -> quiet st1 st3.
Proof.
  intros (evs1 & H1 & A1) (evs2 & H2 & A2). exists (evs1 ++ evs2). split.
  - rewrite H2, H1, app_assoc. reflexivity.
  - unfold no_alarm in *. rewrite forallb_app, A1, A2. reflexivity.
Qed.

Lemma quiet_same_events (st st' : Engine) : events st' = events st -> quiet st st'.
Proof. intros H. exists []. rewrite app_nil_r. split; [exact H | reflexivity]. Qed.

Lemma quiet_emit (ev : Event) (w : World) (st : Engine) :
  is_burst_alarm ev = false -> trace w = events st -> quiet st (set_hal (emit ev w) st).
Proof.
  intros Hev Hw. exists [ev]. split.
  - cbn. rewrite Hw. reflexivity.
  - cbn. rewrite Hev. reflexivity.
Qed.

Lemma quiet_ret {R : Type} (r : R) : quiet_op (ret r).
Proof. intros st. apply quiet_refl. Qed.

Lemma quiet_get {R : Type} (g : Engine -> R) : quiet_op (get g).
Proof. intros st. apply quiet_refl. Qed.

Lemma quiet_modify (g : Engine -> Engine) : (forall st, quiet st (g st)) -> quiet_op (modify g).
Proof. intros H st. apply H. Qed.

Lemma quiet_bind {R S : Type} (m : M R) (k : R -> M S) :
  quiet_op m -> (forall r, quiet_op (k r)) -> quiet_op (bind m k).
Proof.
  intros Hm Hk st. unfold bind.
  specialize (Hm st). destruct (m st) as [r st1].
  eapply quiet_trans; [exact Hm | apply Hk].
Qed.

Create HintDb quiet discriminated.

#[local] Ltac quiet_step :=
  lazymatch goal with
  | |- quiet_op (bind _ _) => apply quiet_bind; [| intros ?]
  | |- quiet_op (ret _) => apply quiet_ret
  | |- quiet_op (get _) => apply quiet_get
  | |- quiet_op (modify _) =>
      apply quiet_modify; intros;
      first [ apply quiet_same_events; reflexivity
            | apply quiet_emit; reflexivity ]
  | |- quiet_op (if ?b then _ else _) => destruct b
  | |- quiet_op (match ?x with _ => _ end) => destruct x
  | |- quiet_op _ => solve [eauto with quiet]
  end.

#[local] Ltac quiet_auto := repeat quiet_step.

Lemma MDB_LogError_quiet e : quiet_op (MDB_LogError e).
Proof. unfold MDB_LogError. quiet_auto. Qed.

Lemma HAL_GetTick_quiet : quiet_op HAL_GetTick.
Proof. unfold HAL_GetTick. quiet_auto. Qed.

Lemma HAL_Delay_quiet ms : quiet_op (HAL_Delay ms).
Proof. unfold HAL_Delay, elapse. quiet_auto. Qed.

Lemma HAL_UART_Receive_quiet timeout : quiet_op (HAL_UART_Receive timeout).
Proof.
  intros st. apply quiet_same_events. unfold HAL_UART_Receive.
  destruct (rxq (hal st)) as [| [w |] q]; reflexivity.
Qed.

Lemma HAL_UART_Transmit_quiet bytes timeout : quiet_op (HAL_UART_Transmit bytes timeout).
Proof. intros st. apply quiet_emit; reflexivity. Qed.

#[export] Hint Resolve MDB_LogError_quiet HAL_GetTick_quiet HAL_Delay_quiet
  HAL_UART_Receive_quiet HAL_UART_Transmit_quiet : quiet.

Lemma SendCommand_quiet bytes len : quiet_op (SendCommand bytes len).
Proof. unfold SendCommand. quiet_auto. Qed.

Lemma WaitForResponse_more_quiet fuel : forall len, quiet_op (WaitForResponse_more fuel len).
Proof.
  induction fuel as [| fuel IH]; intros len; cbn [WaitForResponse_more]; quiet_auto.
Qed.

Lemma WaitForResponse_check_quiet len : quiet_op (WaitForResponse_check len).
Proof. unfold WaitForResponse_check. quiet_auto. Qed.

#[export] Hint Resolve SendCommand_quiet WaitForResponse_more_quiet
  WaitForResponse_check_quiet : quiet.

Lemma WaitForResponse_loop_quiet fuel :
  forall startTime, quiet_op (WaitForResponse_loop fuel startTime).
Proof.
  induction fuel as [| fuel IH]; intros startTime; cbn [WaitForResponse_loop]; quiet_auto.
Qed.

#[export] Hint Resolve WaitForResponse_loop_quiet : quiet.

Lemma WaitForResponse_quiet : quiet_op WaitForResponse.
Proof. unfold WaitForResponse. quiet_auto. Qed.

#[export] Hint Resolve WaitForResponse_quiet : quiet.

Lemma MDB_Reset_quiet : quiet_op MDB_Reset.
Proof.
  unfold MDB_Reset, MDB_LogMessage, MDB_SetState. quiet_auto.
Qed.

#[export] Hint Resolve MDB_Reset_quiet : quiet.

(** ** What a command puts on the wire *)

Lemma take_wr8_frame (tx bytes : list Z) (len c : Z) :
  0 <= len ->
  (Z.to_nat len <= length bytes)%nat -> (Z.to_nat len < length tx)%nat -> 0 <= c < 256 ->
  take (S (Z.to_nat len)) (wr8 (take (Z.to_nat len) bytes ++ drop (Z.to_nat len) tx) len c)
  = take (Z.to_nat len) bytes ++ [c].
Proof.
  intros Hpos Hb Ht Hc. unfold wr8. rewrite (u8_small c Hc).
  set (n := Z.to_nat len) in *.
  assert (Hlen : length (take n bytes) = n) by (rewrite length_take; lia).
  rewrite <- (Nat.add_0_r n) at 2.
  rewrite <- Hlen at 2.
  rewrite insert_app_r.
  destruct (drop n tx) as [| x rest] eqn:Hdrop.
  - apply (f_equal length) in Hdrop. rewrite length_drop in Hdrop. cbn in Hdrop. lia.
  - cbn [insert list_insert].
    replace (S n) with (length (take n bytes) + 1)%nat by lia.
    rewrite take_app_add'; [reflexivity | reflexivity].
Qed.

Lemma SendCommand_rejects (bytes : list Z) (len : Z) (st : Engine) :
  MDB_MAX_MESSAGE_LENGTH - 1 < len ->
  SendCommand bytes len st = (false, snd (MDB_LogError MDB_ERR_PARAMETER st)).
Proof.
  intros H. unfold SendCommand.
  destruct (len >? MDB_MAX_MESSAGE_LENGTH - 1) eqn:E; [reflexivity | lia].
Qed.

Lemma SendCommand_accepts (bytes : list Z) (len : Z) (st : Engine) :
  0 <= len <= MDB_MAX_MESSAGE_LENGTH - 1 ->
  (Z.to_nat len <= length bytes)%nat ->
  (Z.to_nat len < length (txBuffer st))%nat ->
  let frame := take (Z.to_nat len) bytes ++ [CalculateChecksum bytes len] in
  let st' := snd (SendCommand bytes len st) in
  fst (SendCommand bytes len st) = tx_status st /\
  events st' = events st ++ EvTransmit frame (tx_status st)
                         :: (if tx_status st then [] else [EvLogError MDB_ERR_COMMUNICATION]) /\
  lastCommand st' = memcpy (lastCommand st) bytes len /\
  lastCommandLength st' = len.
Proof.
  intros Hlen Hbytes Htx. cbn zeta. unfold SendCommand.
  destruct (len >? MDB_MAX_MESSAGE_LENGTH - 1) eqn:E; [lia |].
  unfold bind, modify, get, HAL_UART_Transmit, tx_status, memcpy. cbn [fst snd].
  cbn [hal txBuffer set_lastCommand set_lastCommandLength set_txBuffer].
  replace (Z.to_nat (len + 1)) with (S (Z.to_nat len)) by lia.
  rewrite take_wr8_frame; [| lia | lia | lia | apply u8_range].
  destruct (txq (hal st)) as [| [|] q]; cbn; rewrite <- ?app_assoc; repeat split; reflexivity.
Qed.

(** ** Framing of the recovery actions *)

#[export] Instance errStats_recovery : RecoveryBlind errStats.
Proof. blind. Qed.
#[export] Instance errorLog_recovery : RecoveryBlind errorLog.
Proof. blind. Qed.
#[export] Instance errorLogIndex_recovery : RecoveryBlind errorLogIndex.
Proof. blind. Qed.
#[export] Instance messageQueue_recovery : RecoveryBlind messageQueue.
Proof. blind. Qed.
#[export] Instance lastPollTime_recovery : RecoveryBlind lastPollTime.
Proof. blind. Qed.

Section RecoveryFrame.

Variable A : Absent.

Section Keeps.

Context {T : Type} (f : Engine -> T) `{!SessionBlind f}.

Lemma MDB_SetState_keeps s : keeps_op f (MDB_SetState s).
Proof. unfold MDB_SetState. keeps_auto. Qed.

#[local] Hint Resolve MDB_SetState_keeps : frame.

Lemma MDB_EnableReader_keeps : keeps_op f (MDB_EnableReader A).
Proof. unfold MDB_EnableReader. keeps_auto. Qed.

Lemma MDB_DisableReader_keeps : keeps_op f (MDB_DisableReader A).
Proof. unfold MDB_DisableReader. keeps_auto. Qed.

Lemma MDB_SessionComplete_keeps : keeps_op f (MDB_SessionComplete A).
Proof. unfold MDB_SessionComplete. keeps_auto. Qed.

Lemma MDB_VendFailure_keeps : keeps_op f MDB_VendFailure.
Proof. unfold MDB_VendFailure. keeps_auto. Qed.

Lemma MDB_DumpLogs_keeps : keeps_op f MDB_DumpLogs.
Proof. unfold MDB_DumpLogs. keeps_auto. Qed.

End Keeps.

#[local] Hint Resolve MDB_SetState_keeps MDB_EnableReader_keeps MDB_DisableReader_keeps
  MDB_SessionComplete_keeps MDB_VendFailure_keeps MDB_DumpLogs_keeps : frame.

Lemma HandleError_recover_keeps {T : Type} (f : Engine -> T) `{!RecoveryBlind f} e :
  keeps_op f (HandleError_recover A e).
Proof.
  destruct e; cbn [HandleError_recover]; keeps_auto.
Qed.

Lemma MDB_LogMessage_quiet level format args :
  is_burst_alarm (EvLogMessage level format args) = false ->
  quiet_op (MDB_LogMessage level format args).
Proof. intros H st. apply quiet_emit; [exact H | reflexivity]. Qed.

Lemma MDB_SetState_quiet s : quiet_op (MDB_SetState s).
Proof. unfold MDB_SetState. quiet_auto. Qed.

#[local] Hint Resolve MDB_SetState_quiet : quiet.

Lemma MDB_EnableReader_quiet : quiet_op (MDB_EnableReader A).
Proof. unfold MDB_EnableReader. quiet_auto. Qed.

Lemma MDB_DisableReader_quiet : quiet_op (MDB_DisableReader A).
Proof. unfold MDB_DisableReader. quiet_auto. Qed.

Lemma MDB_SessionComplete_quiet : quiet_op (MDB_SessionComplete A).
Proof. unfold MDB_SessionComplete. quiet_auto. Qed.

Lemma MDB_VendFailure_quiet : quiet_op MDB_VendFailure.
Proof. unfold MDB_VendFailure. quiet_auto. Qed.

Lemma MDB_DumpLogs_quiet : quiet_op MDB_DumpLogs.
Proof. unfold MDB_DumpLogs. quiet_auto. Qed.

#[local] Hint Resolve MDB_EnableReader_quiet MDB_DisableReader_quiet MDB_SessionComplete_quiet
  MDB_VendFailure_quiet MDB_DumpLogs_quiet : quiet.

Lemma HandleError_recover_quiet e : quiet_op (HandleError_recover A e).
Proof.
  destruct e; cbn [HandleError_recover]; unfold MDB_LogMessage; quiet_auto.
Qed.

End RecoveryFrame.

#[export] Hint Resolve MDB_SetState_keeps MDB_EnableReader_keeps MDB_DisableReader_keeps
  MDB_SessionComplete_keeps MDB_VendFailure_keeps MDB_DumpLogs_keeps
  HandleError_recover_keeps : frame.
#[export] Hint Resolve MDB_SetState_quiet MDB_EnableReader_quiet MDB_DisableReader_quiet
  MDB_SessionComplete_quiet MDB_VendFailure_quiet MDB_DumpLogs_quiet
  HandleError_recover_quiet : quiet.

(** ** One call of the error handler *)

Lemma new_events_app (st st' : Engine) (evs : list Event) :
  events st' = events st ++ evs -> new_events st st' = evs.
Proof. intros H. unfold new_events. rewrite H. apply drop_app_length. Qed.

Lemma no_alarm_existsb (evs : list Event) :
  no_alarm evs = true -> existsb is_burst_alarm evs = false.
Proof.
  unfold no_alarm. induction evs as [| ev evs IH]; cbn; [reflexivity |].
  destruct (is_burst_alarm ev); cbn; [discriminate | exact IH].
Qed.

Section Handler.

Variable A : Absent.

Lemma recovered_quiet e st : quiet st (recovered A e st).
Proof.
  unfold recovered. eapply quiet_trans; [apply MDB_LogError_quiet |].
  apply HandleError_recover_quiet.
Qed.

Lemma recovered_keeps {T : Type} (f : Engine -> T) `{!RecoveryBlind f} e st :
  f (recovered A e st) = f st.
Proof.
  unfold recovered.
  rewrite (HandleError_recover_keeps A f e (snd (MDB_LogError e st))).
  apply (MDB_LogError_keeps f e st).
Qed.

Lemma HandleError_statistics_spec (t : Z) (st : Engine) :
  let st' := snd (HandleError_statistics A t st) in
  errStats st' = {| lastErrorTime := t;
                    rapidErrorCount := fst (burst_next (errStats st) t);
                    seriousErrorCount := seriousErrorCount (errStats st) |} /\
  errorLog st' = errorLog st /\
  errorLogIndex st' = errorLogIndex st /\
  retryCount st' = retryCount st /\
  exists evs, events st' = events st ++ evs /\
              existsb is_burst_alarm evs = snd (burst_next (errStats st) t).
Proof.
  cbn zeta. unfold HandleError_statistics, burst_next, bind, get, modify. cbn [fst snd].
  cbn [errStats set_errStats lastErrorTime rapidErrorCount set_rapidErrorCount].
  destruct (u32 (t - lastErrorTime (errStats st)) <? 5000).
  - destruct (u8 (rapidErrorCount (errStats st) + 1) >? 5).
    + unfold MDB_LogMessage, modify. cbn [fst snd].
      match goal with
      | |- context [MDB_DisableReader A ?s] =>
          pose proof (MDB_DisableReader_keeps A errStats s) as Hstats;
          pose proof (MDB_DisableReader_keeps A errorLog s) as Hlog;
          pose proof (MDB_DisableReader_keeps A errorLogIndex s) as Hidx;
          pose proof (MDB_DisableReader_keeps A retryCount s) as Hretry;
          destruct (MDB_DisableReader_quiet A s) as (evs & Hevs & Hquiet);
          destruct (MDB_DisableReader A s) as [disabled st1]
      end.
      unfold keeps, events in *. cbn [fst snd] in *. cbn in *.
      rewrite Hstats, Hlog, Hidx, Hretry. repeat split.
      eexists. split.
      * rewrite Hevs. rewrite <- app_assoc. reflexivity.
      * cbn. reflexivity.
    + cbn. repeat split. exists []. rewrite app_nil_r. split; reflexivity.
  - cbn. repeat split. exists []. rewrite app_nil_r. split; reflexivity.
Qed.

(** The alarm is the mark of the burst-triggered disabling: when the
    detector fires, the statistics step logs the alarm and calls
    [MDB_DisableReader]; when it does not, the step touches nothing but its
    own counters. *)
Lemma HandleError_statistics_cases (t : Z) (st : Engine) :
  snd (HandleError_statistics A t st) =
  if snd (burst_next (errStats st) t) then
    let counted :=
      set_errStats (set_rapidErrorCount (u8 (rapidErrorCount (errStats st) + 1))
                      (errStats st)) st in
    let alarmed :=
      snd (MDB_LogMessage LOG_ERROR "Too many errors, disabling reader" [] counted) in
    let disabled := snd (MDB_DisableReader A alarmed) in
    let cleared := set_errStats (set_rapidErrorCount 0 (errStats disabled)) disabled in
    set_errStats (set_lastErrorTime t (errStats cleared)) cleared
  else
    let counted :=
      set_errStats (set_rapidErrorCount (fst (burst_next (errStats st) t)) (errStats st)) st in
    set_errStats (set_lastErrorTime t (errStats counted)) counted.
Proof.
  unfold HandleError_statistics, burst_next.
  rewrite bind_get, bind_snd.
  destruct (u32 (t - lastErrorTime (errStats st)) <? 5000).
  - rewrite bind_modify, bind_get.
    cbn [errStats set_errStats rapidErrorCount set_rapidErrorCount].
    destruct (u8 (rapidErrorCount (errStats st) + 1) >? 5); cbn [fst snd].
    + rewrite bind_snd, bind_snd. reflexivity.
    + reflexivity.
  - reflexivity.
Qed.

Lemma HandleError_log_spec (e : MDB_Error_t) (t : Z) (st : Engine) :
  let st' := snd (HandleError_log e t st) in
  errorLog st' =
    <[Z.to_nat (errorLogIndex st) :=
        {| timestamp := t; error := e; state_ := session_state st;
           lastCommand_ := rd8 (lastCommand st) 0;
           lastResponse := rd8 (rxBuffer st) 0 |}]> (errorLog st) /\
  errorLogIndex st' = u8 ((errorLogIndex st + 1) mod MDB_ERROR_LOG_SIZE) /\
  errStats st' = errStats st /\ retryCount st' = retryCount st /\
  events st' = events st /\ mdbSession st' = mdbSession st /\
  lastCommand st' = lastCommand st /\ rxBuffer st' = rxBuffer st.
Proof. cbn. repeat split. Qed.

Lemma HandleError_serious_spec (e : MDB_Error_t) (st : Engine) :
  let st' := snd (HandleError_serious e st) in
  lastErrorTime (errStats st') = lastErrorTime (errStats st) /\
  rapidErrorCount (errStats st') = rapidErrorCount (errStats st) /\
  errorLog st' = errorLog st /\ errorLogIndex st' = errorLogIndex st /\
  retryCount st' = retryCount st /\ mdbSession st' = mdbSession st /\
  lastCommand st' = lastCommand st /\ rxBuffer st' = rxBuffer st /\
  quiet st st'.
Proof.
  cbn zeta.
  assert (Hsame : forall s : Engine, events s = events st -> quiet st s)
    by (intros s Hs; apply quiet_same_events; exact Hs).
  destruct e; cbn; repeat split; try (apply quiet_refl);
    unfold bind, modify, get; cbn;
    destruct (u8 (seriousErrorCount (errStats st) + 1) >=? 3); cbn;
    repeat split; try (apply quiet_refl);
    try (apply quiet_emit; reflexivity); apply Hsame; reflexivity.
Qed.

(** The handler, phase by phase. *)
Lemma MDB_HandleError_phases (e : MDB_Error_t) (st : Engine) :
  snd (MDB_HandleError A e st) =
  snd (HandleError_serious e
         (snd (HandleError_log e (error_time A e st)
                 (snd (HandleError_statistics A (error_time A e st) (recovered A e st)))))).
Proof.
  unfold MDB_HandleError, error_time, recovered.
  rewrite !bind_snd. reflexivity.
Qed.

Lemma MDB_HandleError_stats (e : MDB_Error_t) (st : Engine) :
  let st' := snd (MDB_HandleError A e st) in
  lastErrorTime (errStats st') = error_time A e st /\
  rapidErrorCount (errStats st') = fst (burst_next (errStats st) (error_time A e st)) /\
  burst_alarmed A e st = snd (burst_next (errStats st) (error_time A e st)).
Proof.
  cbn zeta. unfold burst_alarmed. rewrite MDB_HandleError_phases.
  set (t := error_time A e st). set (st1 := recovered A e st).
  destruct (HandleError_statistics_spec t st1) as (Hs2 & _ & _ & _ & evs2 & Hev2 & Hal2).
  set (st2 := snd (HandleError_statistics A t st1)) in *.
  destruct (HandleError_log_spec e t st2) as (_ & _ & Hs3 & _ & Hev3 & _).
  set (st3 := snd (HandleError_log e t st2)) in *.
  destruct (HandleError_serious_spec e st3)
    as (Hlast & Hrapid & _ & _ & _ & _ & _ & _ & evs4 & Hev4 & Hal4).
  set (st4 := snd (HandleError_serious e st3)) in *.
  destruct (recovered_quiet e st) as (evs1 & Hev1 & Hal1). fold st1 in Hev1.
  assert (Hstats1 : errStats st1 = errStats st) by apply (recovered_keeps errStats).
  rewrite Hlast, Hrapid, Hs3, Hs2, Hstats1. cbn [lastErrorTime rapidErrorCount].
  repeat split.
  rewrite (new_events_app st st4 (evs1 ++ evs2 ++ evs4)).
  - rewrite !existsb_app, (no_alarm_existsb _ Hal1), (no_alarm_existsb _ Hal4), Hal2.
    rewrite Hstats1. cbn. apply orb_false_r.
  - rewrite Hev4, Hev3, Hev2, Hev1, <- !app_assoc. reflexivity.
Qed.

Lemma MDB_HandleError_log (e : MDB_Error_t) (st : Engine) :
  let st' := snd (MDB_HandleError A e st) in
  errorLog st' =
    <[Z.to_nat (errorLogIndex st) :=
        {| timestamp := error_time A e st; error := e; state_ := session_state st';
           lastCommand_ := rd8 (lastCommand st') 0;
           lastResponse := rd8 (rxBuffer st') 0 |}]> (errorLog st) /\
  errorLogIndex st' = u8 ((errorLogIndex st + 1) mod MDB_ERROR_LOG_SIZE).
Proof.
  cbn zeta. rewrite MDB_HandleError_phases.
  set (t := error_time A e st). set (st1 := recovered A e st).
  destruct (HandleError_statistics_spec t st1) as (_ & Hlog2 & Hidx2 & _).
  set (st2 := snd (HandleError_statistics A t st1)) in *.
  destruct (HandleError_log_spec e t st2) as (Hlog3 & Hidx3 & _ & _ & _ & Hse3 & Hcmd3 & Hrx3).
  set (st3 := snd (HandleError_log e t st2)) in *.
  destruct (HandleError_serious_spec e st3)
    as (_ & _ & Hlog4 & Hidx4 & _ & Hse4 & Hcmd4 & Hrx4 & _).
  set (st4 := snd (HandleError_serious e st3)) in *.
  assert (Hlog1 : errorLog st1 = errorLog st) by apply (recovered_keeps errorLog).
  assert (Hidx1 : errorLogIndex st1 = errorLogIndex st) by apply (recovered_keeps errorLogIndex).
  unfold session_state. rewrite Hlog4, Hidx4, Hse4, Hcmd4, Hrx4, Hlog3, Hidx3, Hse3, Hcmd3, Hrx3.
  rewrite Hlog2, Hidx2, Hlog1, Hidx1. split; reflexivity.
Qed.

Lemma MDB_HandleError_after_recovery (e : MDB_Error_t) (st : Engine) :
  let st' := snd (MDB_HandleError A e st) in
  retryCount st' = retryCount (recovered A e st) /\
  exists evs, events st' = events (recovered A e st) ++ evs.
Proof.
  cbn zeta. rewrite MDB_HandleError_phases.
  set (t := error_time A e st). set (st1 := recovered A e st).
  destruct (HandleError_statistics_spec t st1) as (_ & _ & _ & Hr2 & evs2 & Hev2 & _).
  set (st2 := snd (HandleError_statistics A t st1)) in *.
  destruct (HandleError_log_spec e t st2) as (_ & _ & _ & Hr3 & Hev3 & _).
  set (st3 := snd (HandleError_log e t st2)) in *.
  destruct (HandleError_serious_spec e st3)
    as (_ & _ & _ & _ & Hr4 & _ & _ & _ & evs4 & Hev4 & _).
  split; [congruence |].
  exists (evs2 ++ evs4). rewrite Hev4, Hev3, Hev2, <- app_assoc. reflexivity.
Qed.

End Handler.

(** * The claims *)

(** ** Framing *)

(** C1.  Evaluating [WaitForResponse] on a single received word followed
    by silence, whatever the word (ACK 0x00 with the mode bit, 0x100,
    included): the word is stored in an 8-bit slot, the test for bit 0x100
    fails, the next read times out, and the function logs a Communication
    error and returns false with [*length = 1].  No one-byte frame is ever
    reported. *)
Theorem WaitForResponse_single_byte_fails (w : Z) (st : Engine) :
  rxq (hal st) = [Some w] ->
  fst (WaitForResponse st) = (false, 1) /\
  events (snd (WaitForResponse st)) = events st ++ [EvLogError MDB_ERR_COMMUNICATION].
Proof.
  intros Hrx.
  set (st1 := set_rxBuffer (wr8 (rxBuffer st) 0 w) (set_hal (set_rxq [] (hal st)) st)).
  assert (Hfirst : HAL_UART_Receive 1 st = (Some w, set_hal (set_rxq [] (hal st)) st))
    by (unfold HAL_UART_Receive; rewrite Hrx; reflexivity).
  assert (Hmore : WaitForResponse_more (Z.to_nat MDB_MAX_MESSAGE_LENGTH) 1 st1
                  = (Some (false, 1), snd (MDB_LogError MDB_ERR_COMMUNICATION
                                             (snd (elapse MDB_INTERBYTE_TIMEOUT st1))))).
  { change (Z.to_nat MDB_MAX_MESSAGE_LENGTH) with 36%nat.
    cbn [WaitForResponse_more]. unfold bind at 1. unfold get at 1.
    rewrite mode_bit_never_set. cbn [Z.eqb].
    unfold bind at 1. unfold HAL_UART_Receive at 1. reflexivity. }
  assert (Hall : WaitForResponse st
                 = ((false, 1), snd (MDB_LogError MDB_ERR_COMMUNICATION
                                       (snd (elapse MDB_INTERBYTE_TIMEOUT st1))))).
  { unfold WaitForResponse. change WaitForResponse_fuel with 6%nat.
    cbn [WaitForResponse_loop].
    unfold bind at 1. unfold HAL_GetTick at 1. unfold get at 1.
    unfold bind at 1. unfold bind at 1. unfold HAL_GetTick at 1. unfold get at 1.
    rewrite Z.sub_diag. change (u32 0 <? MDB_RESPONSE_TIMEOUT) with true. cbn match.
    unfold bind at 1. rewrite Hfirst.
    unfold bind at 1. unfold modify at 1.
    unfold bind at 1. cbn [rxBuffer set_hal]. fold st1. rewrite Hmore.
    reflexivity. }
  rewrite Hall. split; reflexivity.
Qed.

Lemma WaitForResponse_single_byte_fails_witness :
  fst (WaitForResponse (boot (mkWorld 0 [Some 0x100] [] []))) = (false, 1) /\
  events (snd (WaitForResponse (boot (mkWorld 0 [Some 0x100] [] []))))
  = [EvLogError MDB_ERR_COMMUNICATION].
Proof.
  apply (WaitForResponse_single_byte_fails 0x100 (boot (mkWorld 0 [Some 0x100] [] []))).
  reflexivity.
Defined.

(** C7.  [SendCommand] on a payload of [len] bytes: longer than 35, it
    reports a Parameter error and returns false, nothing is transmitted and
    nothing else changes; otherwise the payload and its length replace the
    command recorded for a retry (the retry counter is left as it is), the
    frame put on the wire is the payload followed by its checksum
    ([len + 1] bytes), the result is the status of the write, and a failed
    write is reported as a Communication error. *)
Theorem SendCommand_contract (bytes : list Z) (len : Z) (st : Engine) :
  0 <= len ->
  (Z.to_nat len <= length bytes)%nat ->
  length (txBuffer st) = Z.to_nat MDB_MAX_MESSAGE_LENGTH ->
  let payload := take (Z.to_nat len) bytes in
  let st' := snd (SendCommand bytes len st) in
  if len >? MDB_MAX_MESSAGE_LENGTH - 1 then
    SendCommand bytes len st = (false, snd (MDB_LogError MDB_ERR_PARAMETER st)) /\
    events st' = events st ++ [EvLogError MDB_ERR_PARAMETER]
  else
    take (Z.to_nat len) (lastCommand st') = payload /\
    lastCommandLength st' = len /\
    events st' = events st ++ EvTransmit (payload ++ [CalculateChecksum bytes len]) (tx_status st)
                   :: (if tx_status st then [] else [EvLogError MDB_ERR_COMMUNICATION]) /\
    Z.of_nat (length (payload ++ [CalculateChecksum bytes len])) = len + 1 /\
    fst (SendCommand bytes len st) = tx_status st /\
    retryCount st' = retryCount st.
Proof.
  intros Hpos Hbytes Htx. cbn zeta.
  destruct (len >? MDB_MAX_MESSAGE_LENGTH - 1) eqn:Hlen.
  - rewrite SendCommand_rejects by lia. split; reflexivity.
  - unfold MDB_MAX_MESSAGE_LENGTH in *.
    destruct (SendCommand_accepts bytes len st) as (Hok & Hev & Hcmd & Hn);
      [unfold MDB_MAX_MESSAGE_LENGTH; lia | lia | lia |].
    rewrite Hcmd, Hn, Hev, Hok. unfold memcpy.
    repeat split.
    + rewrite take_app_length'; [reflexivity | rewrite length_take; lia].
    + rewrite length_app, length_take. cbn [length]. lia.
    + apply (SendCommand_keeps retryCount).
Qed.

Lemma SendCommand_contract_witness :
  let st := boot (mkWorld 0 [] [false] []) in
  let st' := snd (SendCommand [MDB_CMD_POLL] 1 st) in
  take 1 (lastCommand st') = [MDB_CMD_POLL] /\
  lastCommandLength st' = 1 /\
  events st' = [EvTransmit [MDB_CMD_POLL; 0x12] false; EvLogError MDB_ERR_COMMUNICATION] /\
  fst (SendCommand [MDB_CMD_POLL] 1 st) = false.
Proof.
  pose proof (SendCommand_contract [MDB_CMD_POLL] 1 (boot (mkWorld 0 [] [false] []))
                ltac:(lia) ltac:(cbn; lia) ltac:(reflexivity)) as H.
  cbn zeta in H. change (1 >? MDB_MAX_MESSAGE_LENGTH - 1) with false in H.
  destruct H as (Hcmd & Hlen & Hev & _ & Hok & _).
  cbn zeta. repeat split; assumption.
Defined.

(** ** Initialisation *)


(** ** Message dispatch *)

(** C9.  Called with a null message or with length zero,
    [MDB_ProcessMessage] reports a Parameter error and returns false; the
    resulting state is the given one with that report on the trace, so no
    handler ran and the session is as it was. *)
Theorem MDB_ProcessMessage_rejects_empty (A : Absent) (msg : option (list Z)) (len : Z)
    (st : Engine) :
  len = 0 \/ msg = None ->
  MDB_ProcessMessage A msg len st = (false, snd (MDB_LogError MDB_ERR_PARAMETER st)) /\
  events (snd (MDB_ProcessMessage A msg len st)) = events st ++ [EvLogError MDB_ERR_PARAMETER] /\
  mdbSession (snd (MDB_ProcessMessage A msg len st)) = mdbSession st.
Proof.
  intros H. unfold MDB_ProcessMessage.
  assert (Hguard : (len =? 0) || (if msg is None then true else false) = true).
  { destruct H as [-> | ->]; [reflexivity | apply orb_true_r]. }
  rewrite Hguard. repeat split.
Qed.

Lemma MDB_ProcessMessage_rejects_empty_witness :
  MDB_ProcessMessage sample None 3 (boot (mkWorld 0 [] [] []))
  = (false, snd (MDB_LogError MDB_ERR_PARAMETER (boot (mkWorld 0 [] [] [])))) /\
  MDB_ProcessMessage sample (Some [MDB_ACK]) 0 (boot (mkWorld 0 [] [] []))
  = (false, snd (MDB_LogError MDB_ERR_PARAMETER (boot (mkWorld 0 [] [] [])))).
Proof.
  split.
  - apply (MDB_ProcessMessage_rejects_empty sample None 3 (boot (mkWorld 0 [] [] []))).
    right. reflexivity.
  - apply (MDB_ProcessMessage_rejects_empty sample (Some [MDB_ACK]) 0
             (boot (mkWorld 0 [] [] []))).
    left. reflexivity.
Defined.

(** C10.  A message whose first byte is none of the five handled command
    codes: [MDB_ProcessMessage] returns false, the trace gains the debug
    line, the "unknown command" warning and the report of a Sequence error,
    and nothing else changes, the session included. *)
Theorem MDB_ProcessMessage_unknown_command (A : Absent) (bytes : list Z) (len : Z)
    (st : Engine) :
  len <> 0 ->
  rd8 bytes 0 <> MDBRxCashlessJustReset A ->
  rd8 bytes 0 <> MDBRxCashlessBeginSession A ->
  rd8 bytes 0 <> MDBRxCashlessVendApproved A ->
  rd8 bytes 0 <> MDBRxCashlessVendDenied A ->
  rd8 bytes 0 <> MDBRxCashlessEndSession A ->
  let st' := snd (MDB_ProcessMessage A (Some bytes) len st) in
  fst (MDB_ProcessMessage A (Some bytes) len st) = false /\
  events st' = events st ++
    [EvLogMessage LOG_DEBUG "Processing message: command=0x%02X" [rd8 bytes 0];
     EvLogMessage LOG_WARNING "Unknown command received: 0x%02X" [rd8 bytes 0];
     EvLogError MDB_ERR_SEQUENCE] /\
  mdbSession st' = mdbSession st /\
  st' = set_hal (hal st') st.
Proof.
  intros Hlen H1 H2 H3 H4 H5. cbn zeta. unfold MDB_ProcessMessage.
  apply Z.eqb_neq in Hlen, H1, H2, H3, H4, H5.
  rewrite Hlen. cbn [orb default from_option id].
  unfold bind, MDB_LogMessage, MDB_LogError, modify, ret.
  rewrite H1, H2, H3, H4, H5. cbn.
  rewrite <- !app_assoc. destruct st. repeat split.
Qed.

Lemma MDB_ProcessMessage_unknown_command_witness :
  fst (MDB_ProcessMessage sample (Some [0x42; 0x42]) 2 (boot (mkWorld 0 [] [] []))) = false /\
  events (snd (MDB_ProcessMessage sample (Some [0x42; 0x42]) 2 (boot (mkWorld 0 [] [] []))))
  = [EvLogMessage LOG_DEBUG "Processing message: command=0x%02X" [0x42];
     EvLogMessage LOG_WARNING "Unknown command received: 0x%02X" [0x42];
     EvLogError MDB_ERR_SEQUENCE].
Proof.
  destruct (MDB_ProcessMessage_unknown_command sample [0x42; 0x42] 2
              (boot (mkWorld 0 [] [] []))
              ltac:(lia) ltac:(vm_compute; lia) ltac:(vm_compute; lia) ltac:(vm_compute; lia)
              ltac:(vm_compute; lia) ltac:(vm_compute; lia)) as (Hret & Hev & _).
  split; assumption.
Defined.

(** ** Recovery from a timeout *)

Lemma MDB_Reset_starts (st : Engine) :
  exists rest,
    events (snd (MDB_Reset st))
    = events st ++ EvLogMessage LOG_INFO "Performing reset..." [] :: rest.
Proof.
  unfold MDB_Reset. rewrite bind_snd. cbv beta.
  set (st1 := snd (MDB_LogMessage LOG_INFO "Performing reset..." [] st)).
  match goal with
  | |- context [snd (?m st1)] =>
      assert (Hq : quiet_op m) by (unfold MDB_LogMessage, MDB_SetState; quiet_auto)
  end.
  destruct (Hq st1) as (rest & Hrest & _). exists rest.
  rewrite Hrest. unfold st1. cbn. rewrite <- app_assoc. reflexivity.
Qed.

Lemma MDB_DisableReader_inactive (A : Absent) (st : Engine) :
  session_state st = MDB_STATE_INACTIVE ->
  MDB_DisableReader A st = (false, snd (MDB_LogError MDB_ERR_STATE st)).
Proof.
  intros H. unfold MDB_DisableReader, bind, get. rewrite H. reflexivity.
Qed.

Lemma HandleError_statistics_inactive (A : Absent) (t : Z) (st : Engine) :
  session_state st = MDB_STATE_INACTIVE ->
  existsb is_reset_start (new_events st (snd (HandleError_statistics A t st))) = false.
Proof.
  intros H. unfold HandleError_statistics, bind, get, modify. cbv beta iota.
  destruct (u32 (t - lastErrorTime (errStats st)) <? 5000).
  - cbn [errStats set_errStats rapidErrorCount set_rapidErrorCount].
    destruct (u8 (rapidErrorCount (errStats st) + 1) >? 5).
    + unfold MDB_LogMessage, modify. cbv beta iota.
      rewrite MDB_DisableReader_inactive by exact H.
      erewrite new_events_app; [| cbn; rewrite <- app_assoc; reflexivity]. reflexivity.
    + erewrite new_events_app; [| cbn; symmetry; apply app_nil_r]. reflexivity.
  - erewrite new_events_app; [| cbn; symmetry; apply app_nil_r]. reflexivity.
Qed.

Lemma recovered_timeout (A : Absent) (st : Engine) :
  exists st1 : Engine,
    session_state st1 = session_state st /\
    events st1 = events st ++ [EvLogError MDB_ERR_TIMEOUT;
                               EvLogMessage LOG_ERROR "Communication timeout" []] /\
    recovered A MDB_ERR_TIMEOUT st
    = if MDB_State_eqb (session_state st) MDB_STATE_INACTIVE
      then st1 else snd (MDB_Reset st1).
Proof.
  exists (snd (MDB_LogMessage LOG_ERROR "Communication timeout" []
                 (snd (MDB_LogError MDB_ERR_TIMEOUT st)))).
  split; [| split].
  - rewrite (MDB_LogMessage_keeps session_state), (MDB_LogError_keeps session_state).
    reflexivity.
  - unfold MDB_LogMessage, MDB_LogError, modify, events. cbn [snd hal set_hal emit trace].
    rewrite <- app_assoc. reflexivity.
  - unfold recovered. cbn [HandleError_recover]. rewrite bind_snd. cbv beta.
    rewrite bind_get.
    rewrite (MDB_LogMessage_keeps session_state), (MDB_LogError_keeps session_state).
    destruct (MDB_State_eqb (session_state st) MDB_STATE_INACTIVE); cbn [negb].
    + reflexivity.
    + apply bind_ret_tt.
Qed.

(** C6.  Handling a Timeout error runs [MDB_Reset] exactly when the session
    is not in [MDB_STATE_INACTIVE] at the call.  The reset is recognised on
    the trace by the line [MDB_Reset] logs before anything else. *)
Theorem timeout_resets_unless_inactive (A : Absent) (st : Engine) :
  reset_performed A MDB_ERR_TIMEOUT st
  = negb (MDB_State_eqb (session_state st) MDB_STATE_INACTIVE).
Proof.
  unfold reset_performed.
  destruct (recovered_timeout A st) as (st1 & Hstate1 & Hev1 & Hrec).
  destruct (MDB_State_eqb (session_state st) MDB_STATE_INACTIVE) eqn:Hstate; cbn [negb].
  - assert (Hin : session_state st1 = MDB_STATE_INACTIVE).
    { rewrite Hstate1. unfold MDB_State_eqb in Hstate. apply Z.eqb_eq in Hstate.
      destruct (session_state st); cbn in Hstate; try lia; reflexivity. }
    rewrite MDB_HandleError_phases, Hrec.
    generalize (error_time A MDB_ERR_TIMEOUT st). intros t.
    pose proof (HandleError_statistics_inactive A t st1 Hin) as Hstat.
    destruct (HandleError_statistics_spec A t st1) as (_ & _ & _ & _ & evs & Hev2 & _).
    destruct (HandleError_log_spec MDB_ERR_TIMEOUT t (snd (HandleError_statistics A t st1)))
      as (_ & _ & _ & _ & Hev3 & _).
    assert (Hser : forall s : Engine, snd (HandleError_serious MDB_ERR_TIMEOUT s) = s)
      by reflexivity.
    rewrite Hser.
    rewrite (new_events_app _ _ evs) in Hstat by exact Hev2.
    rewrite (new_events_app _ _ ([EvLogError MDB_ERR_TIMEOUT;
                                  EvLogMessage LOG_ERROR "Communication timeout" []] ++ evs))
      by (rewrite Hev3, Hev2, Hev1, <- app_assoc; reflexivity).
    rewrite existsb_app, Hstat. reflexivity.
  - destruct (MDB_HandleError_after_recovery A MDB_ERR_TIMEOUT st) as (_ & evs & Hev).
    destruct (MDB_Reset_starts st1) as (rest & Hreset).
    rewrite (new_events_app _ _ ([EvLogError MDB_ERR_TIMEOUT;
                                  EvLogMessage LOG_ERROR "Communication timeout" [];
                                  EvLogMessage LOG_INFO "Performing reset..." []]
                                   ++ rest ++ evs))
      by (rewrite Hev, Hrec, Hreset, Hev1, <- !app_assoc; reflexivity).
    reflexivity.
Qed.

(** ** Burst detection *)

Section Bursts.

Variable A : Absent.




End Bursts.


(** ** The error log *)

Section ErrorLog.

Variable A : Absent.

Lemma MDB_HandleError_log_sized (e : MDB_Error_t) (st : Engine) :
  log_sized st ->
  log_sized (snd (MDB_HandleError A e st)) /\
  errorLogIndex (snd (MDB_HandleError A e st)) = (errorLogIndex st + 1) mod MDB_ERROR_LOG_SIZE.
Proof.
  intros [Hlen Hidx]. destruct (MDB_HandleError_log A e st) as (Hlog & Hnext).
  cbn zeta in *. unfold log_sized, MDB_ERROR_LOG_SIZE in *.
  pose proof (Z.mod_pos_bound (errorLogIndex st + 1) 50 ltac:(lia)) as Hmod.
  rewrite u8_small in Hnext by lia.
  rewrite Hlog, Hnext, length_insert. repeat split; lia.
Qed.

Lemma handle_all_index (es : list MDB_Error_t) :
  forall st : Engine,
    log_sized st ->
    errorLogIndex (handle_all A es st)
    = (errorLogIndex st + Z.of_nat (length es)) mod MDB_ERROR_LOG_SIZE.
Proof.
  induction es as [| e es IH]; intros st Hst.
  - cbn [handle_all length]. destruct Hst as [_ Hidx].
    rewrite Z.add_0_r, Z.mod_small; [reflexivity | exact Hidx].
  - cbn [handle_all length].
    destruct (MDB_HandleError_log_sized e st Hst) as (Hst' & Hnext).
    rewrite IH by exact Hst'. rewrite Hnext.
    unfold MDB_ERROR_LOG_SIZE. rewrite Z.add_mod_idemp_l by lia.
    f_equal. lia.
Qed.

(** C5, amended.  Every call of the handler, for every error kind, writes
    exactly one entry of the error log, in the slot at the index, and moves
    the index on by one modulo 50.  The entry holds the tick the handler
    sampled, the error kind, the first byte of the recorded last command,
    the first byte of the receive buffer, and the session state as it is
    when the entry is written, that is after the recovery action for this
    error has run.  The index stays below 50 and is back on the same slot
    after 50 calls, whose entry the next call overwrites. *)
Theorem error_log_entry (e : MDB_Error_t) (st : Engine) :
  length (errorLog st) = Z.to_nat MDB_ERROR_LOG_SIZE ->
  0 <= errorLogIndex st < MDB_ERROR_LOG_SIZE ->
  let st' := snd (MDB_HandleError A e st) in
  let slot := Z.to_nat (errorLogIndex st) in
  errorLog st' !! slot
  = Some {| timestamp := error_time A e st;
            error := e;
            state_ := session_state st';
            lastCommand_ := rd8 (lastCommand st') 0;
            lastResponse := rd8 (rxBuffer st') 0 |} /\
  (forall j : nat, j <> slot -> errorLog st' !! j = errorLog st !! j) /\
  length (errorLog st') = Z.to_nat MDB_ERROR_LOG_SIZE /\
  errorLogIndex st' = (errorLogIndex st + 1) mod MDB_ERROR_LOG_SIZE /\
  0 <= errorLogIndex st' < MDB_ERROR_LOG_SIZE /\
  (forall es : list MDB_Error_t,
      length es = Z.to_nat MDB_ERROR_LOG_SIZE ->
      errorLogIndex (handle_all A es st) = errorLogIndex st).
Proof.
  intros Hlen Hidx. cbn zeta.
  destruct (MDB_HandleError_log A e st) as (Hlog & _). cbn zeta in Hlog.
  destruct (MDB_HandleError_log_sized e st (conj Hlen Hidx)) as ((Hlen' & Hidx') & Hnext).
  split; [| split; [| split; [| split; [| split]]]].
  - rewrite Hlog. apply list_lookup_insert_eq. unfold MDB_ERROR_LOG_SIZE in *. lia.
  - intros j Hj. rewrite Hlog. apply list_lookup_insert_ne. congruence.
  - exact Hlen'.
  - exact Hnext.
  - exact Hidx'.
  - intros es Hes. rewrite handle_all_index by (split; assumption).
    rewrite Hes. unfold MDB_ERROR_LOG_SIZE in *.
    change (Z.of_nat (Z.to_nat 50)) with (1 * 50).
    rewrite Z.mod_add by lia. apply Z.mod_small. lia.
Qed.

End ErrorLog.

Lemma error_log_entry_witness :
  let st := set_mdbSession (set_state MDB_STATE_ENABLED zero_session)
              (boot (mkWorld 0 [] [] [])) in
  let st' := snd (MDB_HandleError sample MDB_ERR_HARDWARE st) in
  errorLog st' !! 0%nat
  = Some {| timestamp := 105; error := MDB_ERR_HARDWARE; state_ := MDB_STATE_DISABLED;
            lastCommand_ := MDB_CMD_RESET; lastResponse := 0 |} /\
  errorLogIndex st' = 1.
Proof.
  cbn zeta.
  destruct (error_log_entry sample MDB_ERR_HARDWARE
              (set_mdbSession (set_state MDB_STATE_ENABLED zero_session)
                 (boot (mkWorld 0 [] [] [])))
              ltac:(reflexivity) ltac:(unfold MDB_ERROR_LOG_SIZE; cbn; lia))
    as (Hentry & _ & _ & Hnext & _).
  split.
  - etransitivity; [exact Hentry |]. vm_compute. reflexivity.
  - etransitivity; [exact Hnext |]. reflexivity.
Defined.

(** C5 as stated fails: a Hardware error arrives while the session is
    Enabled; the recovery disables the reader before the entry is built, and
    the entry records [MDB_STATE_DISABLED], not the state at the time of the
    error. *)
Lemma error_log_state_counterexample :
  let st := set_mdbSession (set_state MDB_STATE_ENABLED zero_session)
              (boot (mkWorld 0 [] [] [])) in
  let st' := snd (MDB_HandleError sample MDB_ERR_HARDWARE st) in
  session_state st = MDB_STATE_ENABLED /\
  state_ <$> errorLog st' !! Z.to_nat (errorLogIndex st) = Some MDB_STATE_DISABLED /\
  state_ <$> errorLog st' !! Z.to_nat (errorLogIndex st) <> Some (session_state st).
Proof.
  cbn zeta. split; [reflexivity |]. split; [vm_compute; reflexivity |].
  vm_compute. discriminate.
Qed.

(** ** Retries after a NAK *)

Lemma SendCommand_recorded (bytes : list Z) (len : Z) (st : Engine) :
  0 < len <= MDB_MAX_MESSAGE_LENGTH - 1 ->
  (Z.to_nat len <= length bytes)%nat ->
  length (lastCommand st) = Z.to_nat MDB_MAX_MESSAGE_LENGTH ->
  length (txBuffer st) = Z.to_nat MDB_MAX_MESSAGE_LENGTH ->
  cmd_recorded (snd (SendCommand bytes len st)).
Proof.
  unfold cmd_recorded, MDB_MAX_MESSAGE_LENGTH. intros Hlen Hbytes Hcmd Htx.
  unfold SendCommand. destruct (len >? MDB_MAX_MESSAGE_LENGTH - 1) eqn:E;
    [unfold MDB_MAX_MESSAGE_LENGTH in E; lia |].
  unfold bind, modify, get, HAL_UART_Transmit, MDB_LogError, modify, ret, memcpy, wr8.
  cbv beta iota.
  match goal with
  | |- context [if negb ?b then _ else _] => destruct b
  end; cbn [negb fst snd lastCommandLength lastCommand txBuffer set_hal set_txBuffer
            set_lastCommandLength set_lastCommand];
    rewrite length_insert, !length_app, !length_take, !length_drop; lia.
Qed.

Section Retries.

Variable A : Absent.

Lemma MDB_DisableReader_recorded (st : Engine) :
  cmd_recorded st -> cmd_recorded (snd (MDB_DisableReader A st)).
Proof.
  intros (Hlen & Hcmd & Htx). unfold MDB_DisableReader, bind, get.
  destruct (state_ord (session_state st) >=? state_ord MDB_STATE_ENABLED).
  - pose proof (SendCommand_recorded [MDB_CMD_READER; READER_DISABLE A] 2 st
                  ltac:(unfold MDB_MAX_MESSAGE_LENGTH; lia) ltac:(cbn; lia) Hcmd Htx) as H.
    destruct (SendCommand [MDB_CMD_READER; READER_DISABLE A] 2 st) as [[|] st1];
      cbn [negb fst snd] in *; exact H.
  - exact (conj Hlen (conj Hcmd Htx)).
Qed.

Lemma HandleError_statistics_recorded (t : Z) (st : Engine) :
  cmd_recorded st -> cmd_recorded (snd (HandleError_statistics A t st)).
Proof.
  intros H. unfold HandleError_statistics, bind, get, modify. cbv beta iota.
  destruct (u32 (t - lastErrorTime (errStats st)) <? 5000); [| exact H].
  cbn [errStats set_errStats rapidErrorCount set_rapidErrorCount].
  destruct (u8 (rapidErrorCount (errStats st) + 1) >? 5); [| exact H].
  unfold MDB_LogMessage, modify. cbv beta iota.
  match goal with
  | |- context [MDB_DisableReader A ?s] =>
      pose proof (MDB_DisableReader_recorded s H) as Hd;
      destruct (MDB_DisableReader A s) as [disabled st1]
  end.
  exact Hd.
Qed.

Lemma nak_resend (st : Engine) :
  cmd_recorded st -> 0 <= retryCount st < 3 ->
  resent A st (retryCount st + 1) /\ cmd_recorded (nak A st).
Proof.
  intros (Hlen & Hcmd & Htx) Hretry.
  set (st2 := snd (MDB_LogMessage LOG_WARNING "Retrying command, attempt %d"
                     [retryCount st + 1]
                     (set_retryCount (retryCount st + 1)
                        (snd (MDB_LogError MDB_ERR_NAK st))))).
  assert (Hrec : recovered A MDB_ERR_NAK st
                 = snd (SendCommand (lastCommand st) (lastCommandLength st) st2)).
  { unfold recovered. cbn [HandleError_recover]. unfold bind at 1. unfold get at 1.
    change (retryCount (snd (MDB_LogError MDB_ERR_NAK st))) with (retryCount st).
    destruct (retryCount st <? 3) eqn:E; [| lia].
    unfold bind at 1. unfold modify at 1. unfold bind at 1. unfold get at 1.
    cbn [retryCount set_retryCount]. 
    change (retryCount (snd (MDB_LogError MDB_ERR_NAK st))) with (retryCount st).
    rewrite (u8_small (retryCount st + 1)) by lia.
    rewrite bind_snd. cbv beta. fold st2.
    unfold bind at 1. unfold get at 1.
    change (lastCommandLength st2) with (lastCommandLength st).
    destruct (lastCommandLength st >? 0) eqn:E0; [| lia].
    unfold bind at 1. unfold get at 1.
    change (lastCommand st2) with (lastCommand st).
    rewrite bind_snd. reflexivity. }
  unfold MDB_MAX_MESSAGE_LENGTH in *.
  destruct (SendCommand_accepts (lastCommand st) (lastCommandLength st) st2)
    as (_ & Hev & _ & _);
    [unfold MDB_MAX_MESSAGE_LENGTH; lia | lia
    | change (txBuffer st2) with (txBuffer st); lia |].
  assert (Hrecorded : cmd_recorded (recovered A MDB_ERR_NAK st)).
  { rewrite Hrec. apply SendCommand_recorded;
      [unfold MDB_MAX_MESSAGE_LENGTH; lia | lia | exact Hcmd | exact Htx]. }
  destruct (MDB_HandleError_after_recovery A MDB_ERR_NAK st) as (Hr & rest & Hrest).
  split; [split; [| split] |].
  - unfold nak. rewrite Hr, Hrec.
    rewrite (SendCommand_keeps retryCount). reflexivity.
  - rewrite Hrec, Hev. change (tx_status st2) with (tx_status st).
    unfold st2. cbn. rewrite <- !app_assoc. reflexivity.
  - exists rest. exact Hrest.
  - unfold nak. rewrite MDB_HandleError_phases.
    apply HandleError_statistics_recorded. exact Hrecorded.
Qed.

Lemma MDB_Reset_transmits (st : Engine) :
  length (txBuffer st) = Z.to_nat MDB_MAX_MESSAGE_LENGTH ->
  exists rest,
    events (snd (MDB_Reset st))
    = events st ++ [EvLogMessage LOG_INFO "Performing reset..." [];
                    EvTransmit [MDB_CMD_RESET; 0x10] (tx_status st)] ++ rest.
Proof.
  intros Htx. unfold MDB_Reset. rewrite bind_snd. cbv beta.
  set (st1 := snd (MDB_LogMessage LOG_INFO "Performing reset..." [] st)).
  rewrite bind_snd.
  destruct (SendCommand_accepts [MDB_CMD_RESET] 1 st1) as (_ & Hev & _);
    [unfold MDB_MAX_MESSAGE_LENGTH; lia | cbn; lia
    | change (txBuffer st1) with (txBuffer st); rewrite Htx;
      unfold MDB_MAX_MESSAGE_LENGTH; lia |].
  set (st2 := snd (SendCommand [MDB_CMD_RESET] 1 st1)) in *.
  cbv beta. destruct (fst (SendCommand [MDB_CMD_RESET] 1 st1)); cbn [negb];
    match goal with
    | |- context [snd (?m st2)] =>
        assert (Hq : quiet_op m) by (unfold MDB_LogMessage, MDB_SetState; quiet_auto)
    end;
    destruct (Hq st2) as (rest & Hrest & _);
    exists ((if tx_status st then [] else [EvLogError MDB_ERR_COMMUNICATION]) ++ rest);
    rewrite Hrest, Hev; change (tx_status st1) with (tx_status st);
    change (take (Z.to_nat 1) [MDB_CMD_RESET] ++ [CalculateChecksum [MDB_CMD_RESET] 1])
      with [MDB_CMD_RESET; 0x10];
    unfold st1; cbn; rewrite <- !app_assoc; cbn; reflexivity.
Qed.

Lemma nak_reset (st : Engine) :
  length (txBuffer st) = Z.to_nat MDB_MAX_MESSAGE_LENGTH ->
  3 <= retryCount st ->
  reset_instead A st.
Proof.
  intros Htx Hretry.
  set (st1 := set_retryCount 0
                (snd (MDB_LogMessage LOG_ERROR "Max retries exceeded" []
                        (snd (MDB_LogError MDB_ERR_NAK st))))).
  assert (Hrec : recovered A MDB_ERR_NAK st = snd (MDB_Reset st1)).
  { unfold recovered. cbn [HandleError_recover]. unfold bind at 1. unfold get at 1.
    change (retryCount (snd (MDB_LogError MDB_ERR_NAK st))) with (retryCount st).
    destruct (retryCount st <? 3) eqn:E; [lia |].
    rewrite bind_snd. cbv beta. rewrite bind_modify. apply bind_ret_tt. }
  destruct (MDB_HandleError_after_recovery A MDB_ERR_NAK st) as (Hr & rest & Hrest).
  destruct (MDB_Reset_transmits st1 Htx) as (rest1 & Hreset).
  split; [| split].
  - unfold nak. rewrite Hr, Hrec. rewrite (MDB_Reset_keeps retryCount). reflexivity.
  - exact Hrec.
  - exists (rest1 ++ rest). unfold nak. rewrite Hrest, Hrec, Hreset.
    change (tx_status st1) with (tx_status st).
    unfold st1. cbn. rewrite <- !app_assoc. reflexivity.
Qed.

(** C2.  Four NAKs handled in a row, starting with the retry counter at 0
    and a command on record: the first three each resend the recorded last
    command and bring the counter to 1, 2 and 3; the fourth resends nothing,
    puts the counter back to 0 and runs the reset handshake. *)
Theorem nak_retry_cap (st : Engine) :
  cmd_recorded st ->
  retryCount st = 0 ->
  resent A st 1 /\
  resent A (nak A st) 2 /\
  resent A (nak A (nak A st)) 3 /\
  reset_instead A (nak A (nak A (nak A st))).
Proof.
  intros Hcmd Hzero.
  destruct (nak_resend st Hcmd ltac:(lia)) as (H1 & Hcmd1).
  rewrite Hzero in H1. change (0 + 1) with 1 in H1.
  assert (Hr1 : retryCount (nak A st) = 1) by apply H1.
  destruct (nak_resend (nak A st) Hcmd1 ltac:(lia)) as (H2 & Hcmd2).
  rewrite Hr1 in H2. change (1 + 1) with 2 in H2.
  assert (Hr2 : retryCount (nak A (nak A st)) = 2) by apply H2.
  destruct (nak_resend (nak A (nak A st)) Hcmd2 ltac:(lia)) as (H3 & Hcmd3).
  rewrite Hr2 in H3. change (2 + 1) with 3 in H3.
  assert (Hr3 : retryCount (nak A (nak A (nak A st))) = 3) by apply H3.
  split; [exact H1 | split; [exact H2 | split; [exact H3 |]]].
  apply nak_reset; [apply Hcmd3 | lia].
Qed.

End Retries.

Lemma nak_retry_cap_witness :
  let st := snd (SendCommand [MDB_CMD_VEND; 0x00; 0x05] 3 (boot (mkWorld 0 [] [] []))) in
  resent sample st 1 /\
  resent sample (nak sample st) 2 /\
  resent sample (nak sample (nak sample st)) 3 /\
  reset_instead sample (nak sample (nak sample (nak sample st))).
Proof.
  cbn zeta. apply (nak_retry_cap sample).
  - unfold cmd_recorded, MDB_MAX_MESSAGE_LENGTH. vm_compute. repeat split; discriminate.
  - reflexivity.
Defined.

(** ** The poll loop *)

Section Poll.

Variable A : Absent.

Lemma MDB_ProcessMessage_keeps_queue (msg : option (list Z)) (len : Z) :
  handlers_keep_queue A -> keeps_op messageQueue (MDB_ProcessMessage A msg len).
Proof.
  intros (H1 & H2 & H3 & H4 & H5). unfold MDB_ProcessMessage.
  destruct ((len =? 0) || (if msg is None then true else false)); [keeps_auto |].
  cbv zeta.
  apply keeps_bind; [solve [eauto with frame typeclass_instances] | intros _].
  apply keeps_bind; [| intros success; keeps_auto].
  repeat match goal with
         | |- keeps_op _ (if ?b then _ else _) => destruct b
         end; auto; keeps_auto.
Qed.

Lemma processAll_drains (n : nat) :
  handlers_keep_queue A ->
  forall st : Engine,
    count (messageQueue st) = Z.of_nat n ->
    0 <= head (messageQueue st) < MDB_QUEUE_SIZE ->
    snd (processAll A n st) = foldl (feed A) st (queued (messageQueue st)) /\
    count (messageQueue (snd (processAll A n st))) = 0.
Proof.
  intros Hkeep. induction n as [| n IH]; intros st Hcount Hhead.
  - unfold queued. rewrite Hcount. cbn. split; [reflexivity | exact Hcount].
  - cbn [processAll]. rewrite bind_snd.
    assert (Hdeq : dequeue st
                   = (Some (nth (Z.to_nat (head (messageQueue st)))
                                (messages (messageQueue st)) zero_message),
                      set_messageQueue
                        {| messages := messages (messageQueue st);
                           head := (head (messageQueue st) + 1) mod MDB_QUEUE_SIZE;
                           tail := tail (messageQueue st);
                           count := count (messageQueue st) - 1 |} st)).
    { unfold dequeue. rewrite bind_get.
      destruct (count (messageQueue st) =? 0) eqn:E; [lia |].
      rewrite bind_modify. reflexivity. }
    rewrite Hdeq. cbn [fst snd]. rewrite bind_snd.
    set (m := nth (Z.to_nat (head (messageQueue st))) (messages (messageQueue st))
                  zero_message) in *.
    set (st1 := set_messageQueue _ st) in *.
    assert (Hfeed : snd (MDB_ProcessMessage A (Some (data m)) (length_ m) st1) = feed A st m).
    { unfold feed. rewrite Hdeq. reflexivity. }
    rewrite Hfeed.
    assert (Hq : messageQueue (feed A st m) = messageQueue st1).
    { rewrite <- Hfeed. apply (MDB_ProcessMessage_keeps_queue _ _ Hkeep st1). }
    unfold MDB_QUEUE_SIZE in *.
    destruct (IH (feed A st m)) as (Hfold & Hzero).
    + rewrite Hq. cbn. lia.
    + rewrite Hq. cbn. apply Z.mod_pos_bound. lia.
    + split; [| exact Hzero].
      rewrite Hfold, Hq. unfold queued at 2. rewrite Hcount.
      rewrite Nat2Z.id. cbn [seq map foldl].
      unfold MDB_QUEUE_SIZE. change (Z.of_nat 0) with 0.
      rewrite Z.add_0_r, Z.mod_small by lia. fold m.
      f_equal. unfold queued, MDB_QUEUE_SIZE.
      cbn [count head messages st1 messageQueue set_messageQueue].
      rewrite Hcount. replace (Z.to_nat (Z.of_nat (S n) - 1)) with n by lia.
      rewrite <- seq_shift, map_map. apply map_ext. intros i.
      rewrite Z.add_mod_idemp_l by lia. do 3 f_equal. lia.
Qed.

Lemma SendCommand_first_byte (b : Z) (bytes : list Z) (len : Z) (st : Engine) :
  0 < len <= MDB_MAX_MESSAGE_LENGTH - 1 ->
  exists (more : list Z) (ok : bool) (rest : list Event),
    events (snd (SendCommand (b :: bytes) len st))
    = events st ++ EvTransmit (b :: more) ok :: rest.
Proof.
  intros Hlen. unfold SendCommand.
  destruct (len >? MDB_MAX_MESSAGE_LENGTH - 1) eqn:E; [lia |].
  unfold bind, modify, get, HAL_UART_Transmit, MDB_LogError, modify, ret, memcpy, wr8.
  cbv beta iota.
  cbn [txBuffer set_txBuffer set_lastCommandLength set_lastCommand hal set_hal].
  replace (Z.to_nat (len + 1)) with (S (Z.to_nat len)) by lia.
  replace (Z.to_nat len) with (S (Z.to_nat (len - 1))) by lia.
  cbn [take firstn app insert list_insert].
  match goal with
  | |- context [if negb ?b then _ else _] => destruct b
  end; cbn [negb snd events hal set_hal trace emit fst]; do 3 eexists;
    rewrite <- ?app_assoc; reflexivity.
Qed.

Lemma MDB_HandleError_grows (e : MDB_Error_t) (st : Engine) :
  exists evs, events (snd (MDB_HandleError A e st)) = events st ++ evs.
Proof.
  destruct (MDB_HandleError_after_recovery A e st) as (_ & evs & Hev).
  destruct (recovered_quiet A e st) as (evs0 & Hev0 & _).
  exists (evs0 ++ evs). rewrite Hev, Hev0, <- app_assoc. reflexivity.
Qed.

Lemma MDB_Poll_not_due (st : Engine) :
  u32 (tick (hal st) - lastPollTime st) < MDB_POLL_INTERVAL ->
  MDB_Poll A st = (tt, st).
Proof.
  intros Hearly. apply Z.ltb_lt in Hearly.
  unfold MDB_Poll, HAL_GetTick. rewrite !bind_get, Hearly. reflexivity.
Qed.

Lemma MDB_Poll_due (st : Engine) :
  MDB_POLL_INTERVAL <= u32 (tick (hal st) - lastPollTime st) ->
  let drained := snd (MDB_ProcessMessageQueue A (set_lastPollTime (tick (hal st)) st)) in
  exists (more : list Z) (ok : bool) (rest : list Event),
    events (snd (MDB_Poll A st))
    = events drained ++ EvTransmit (MDB_CMD_POLL :: more) ok :: rest.
Proof.
  intros Hdue. apply Z.ltb_ge in Hdue. cbn zeta.
  unfold MDB_Poll, HAL_GetTick. rewrite !bind_get, Hdue, bind_modify, bind_snd. cbv beta.
  set (drained := snd (MDB_ProcessMessageQueue A (set_lastPollTime (tick (hal st)) st))).
  rewrite bind_snd.
  destruct (SendCommand_first_byte MDB_CMD_POLL [] 1 drained
              ltac:(unfold MDB_MAX_MESSAGE_LENGTH; lia)) as (more & ok & rest & Hsend).
  set (st2 := snd (SendCommand [MDB_CMD_POLL] 1 drained)) in *.
  destruct (fst (SendCommand [MDB_CMD_POLL] 1 drained)); cbn [negb].
  - rewrite bind_snd.
    pose proof (WaitForResponse_never_succeeds st2) as Hfail.
    destruct (WaitForResponse_quiet st2) as (evs & Hev & _).
    destruct (fst (WaitForResponse st2)) as [got respLen]. cbn [fst] in Hfail. subst got.
    cbn [negb]. unfold ret. cbn [snd].
    exists more, ok, (rest ++ evs). rewrite Hev, Hsend, <- app_assoc. reflexivity.
  - destruct (MDB_HandleError_grows MDB_ERR_COMMUNICATION st2) as (evs & Hev).
    exists more, ok, (rest ++ evs). rewrite Hev, Hsend, <- app_assoc. reflexivity.
Qed.

End Poll.

Lemma MDB_ProcessMessageQueue_drains (A : Absent) (st : Engine) :
  handlers_keep_queue A ->
  0 <= head (messageQueue st) < MDB_QUEUE_SIZE ->
  0 <= count (messageQueue st) ->
  snd (MDB_ProcessMessageQueue A st) = foldl (feed A) st (queued (messageQueue st)) /\
  count (messageQueue (snd (MDB_ProcessMessageQueue A st))) = 0.
Proof.
  intros Hkeep Hhead Hcount.
  unfold MDB_ProcessMessageQueue. rewrite bind_get, bind_snd. unfold ret. cbn [snd].
  apply processAll_drains; [exact Hkeep | lia | exact Hhead].
Qed.

(** C8.  A call of [MDB_Poll] less than 200 ms after the last accepted
    poll returns at once and leaves the engine as it is: nothing is sent,
    nothing changes.  A call that is due first records the poll time, then
    hands every queued frame, oldest first, to [MDB_ProcessMessage], which
    empties the queue, and only then puts the POLL command on the wire:
    everything the queued frames caused is on the trace before it. *)
Theorem poll_cadence_and_order (A : Absent) (early due : Engine) :
  u32 (tick (hal early) - lastPollTime early) < MDB_POLL_INTERVAL ->
  MDB_POLL_INTERVAL <= u32 (tick (hal due) - lastPollTime due) ->
  handlers_keep_queue A ->
  0 <= head (messageQueue due) < MDB_QUEUE_SIZE ->
  0 <= count (messageQueue due) ->
  MDB_Poll A early = (tt, early) /\
  let accepted := set_lastPollTime (tick (hal due)) due in
  let drained := foldl (feed A) accepted (queued (messageQueue due)) in
  snd (MDB_ProcessMessageQueue A accepted) = drained /\
  count (messageQueue drained) = 0 /\
  exists (more : list Z) (ok : bool) (rest : list Event),
    events (snd (MDB_Poll A due))
    = events drained ++ EvTransmit (MDB_CMD_POLL :: more) ok :: rest.
Proof.
  intros Hearly Hdue Hkeep Hhead Hcount.
  split; [apply MDB_Poll_not_due; exact Hearly |].
  cbn zeta.
  destruct (MDB_ProcessMessageQueue_drains A (set_lastPollTime (tick (hal due)) due)
              Hkeep Hhead Hcount) as (Hdrain & Hzero).
  change (messageQueue (set_lastPollTime (tick (hal due)) due))
    with (messageQueue due) in Hdrain.
  rewrite <- Hdrain. split; [reflexivity |]. split; [exact Hzero |].
  apply MDB_Poll_due. exact Hdue.
Qed.

Lemma sample_handlers_keep_queue : handlers_keep_queue sample.
Proof. repeat split. Qed.

Lemma poll_cadence_and_order_witness :
  let frame := fun b : Z => mkMessage [b; b] 2 0 in
  let waiting := mkQueue (frame 0x42 :: frame 0x06 :: replicate 8 zero_message) 0 2 2 in
  let early := boot (mkWorld 100 [] [] []) in
  let due := set_messageQueue waiting (boot (mkWorld 300 [] [] [])) in
  MDB_Poll sample early = (tt, early) /\
  count (messageQueue (snd (MDB_ProcessMessageQueue sample (set_lastPollTime 300 due)))) = 0 /\
  exists (more : list Z) (ok : bool) (rest : list Event),
    events (snd (MDB_Poll sample due))
    = [EvLogMessage LOG_DEBUG "Processing message: command=0x%02X" [0x42];
       EvLogMessage LOG_WARNING "Unknown command received: 0x%02X" [0x42];
       EvLogError MDB_ERR_SEQUENCE;
       EvLogMessage LOG_DEBUG "Processing message: command=0x%02X" [0x06]]
      ++ EvTransmit (MDB_CMD_POLL :: more) ok :: rest.
Proof.
  cbn zeta.
  destruct (poll_cadence_and_order sample
              (boot (mkWorld 100 [] [] []))
              (set_messageQueue
                 (mkQueue (mkMessage [0x42; 0x42] 2 0 :: mkMessage [0x06; 0x06] 2 0
                             :: replicate 8 zero_message) 0 2 2)
                 (boot (mkWorld 300 [] [] [])))
              ltac:(vm_compute; reflexivity) ltac:(vm_compute; discriminate)
              sample_handlers_keep_queue
              ltac:(vm_compute; split; [discriminate | reflexivity])
              ltac:(vm_compute; discriminate))
    as (Hearly & Hdrain & Hzero & more & ok & rest & Hev).
  split; [exact Hearly |]. split.
  - etransitivity; [| exact Hzero]. rewrite <- Hdrain. reflexivity.
  - exists more, ok, rest. etransitivity; [exact Hev |]. f_equal.
Defined.

(** * Beyond the claims *)

(** ** What [WaitForResponse] changes *)

Lemma received_refl (st : Engine) : received st st.
Proof. exists (rxBuffer st), (hal st). destruct st. reflexivity. Qed.

Lemma received_trans (st1 st2 st3 : Engine) :
  received st1 st2 -> received st2 st3 -> received st1 st3.
Proof. intros (b1 & w1 & ->) (b2 & w2 & ->). exists b2, w2. reflexivity. Qed.

Lemma receives_ret {R : Type} (r : R) : receives (ret r).
Proof. intros st. apply received_refl. Qed.

Lemma receives_get {R : Type} (g : Engine -> R) : receives (get g).
Proof. intros st. apply received_refl. Qed.

Lemma receives_bind {R S : Type} (m : M R) (k : R -> M S) :
  receives m -> (forall r, receives (k r)) -> receives (bind m k).
Proof.
  intros Hm Hk st. rewrite bind_snd.
  eapply received_trans; [apply Hm | apply Hk].
Qed.

Lemma receives_set_hal (g : Engine -> World) :
  receives (modify (fun st => set_hal (g st) st)).
Proof. intros st. exists (rxBuffer st), (g st). destruct st. reflexivity. Qed.

Lemma receives_set_rxBuffer (g : Engine -> list Z) :
  receives (modify (fun st => set_rxBuffer (g st) st)).
Proof. intros st. exists (g st), (hal st). destruct st. reflexivity. Qed.

Lemma MDB_LogError_receives e : receives (MDB_LogError e).
Proof. apply receives_set_hal. Qed.

Lemma HAL_UART_Receive_receives timeout : receives (HAL_UART_Receive timeout).
Proof.
  intros st. destruct st as [c se mq el ei lp tx rx lc ln rc es w].
  unfold HAL_UART_Receive, elapse, modify. cbn [hal].
  destruct (rxq w) as [| [x |] q] eqn:Hq; cbn [snd].
  - exists rx, (set_tick (u32 (tick w + timeout)) w). reflexivity.
  - exists rx, (set_rxq q w). reflexivity.
  - exists rx, (set_tick (u32 (tick w + timeout)) (set_rxq q w)). reflexivity.
Qed.

#[local] Ltac receives_step :=
  lazymatch goal with
  | |- receives (bind _ _) => apply receives_bind; [| intros ?]
  | |- receives (ret _) => apply receives_ret
  | |- receives (get _) => apply receives_get
  | |- receives (HAL_GetTick) => apply receives_get
  | |- receives (MDB_LogError _) => apply MDB_LogError_receives
  | |- receives (HAL_UART_Receive _) => apply HAL_UART_Receive_receives
  | |- receives (modify (fun st => set_rxBuffer _ st)) => apply receives_set_rxBuffer
  | |- receives (if ?b then _ else _) => destruct b
  | |- receives (match ?x with _ => _ end) => destruct x
  | |- receives _ => solve [auto]
  end.

Lemma WaitForResponse_more_receives fuel : forall len, receives (WaitForResponse_more fuel len).
Proof.
  induction fuel as [| fuel IH]; intros len; cbn [WaitForResponse_more];
    repeat receives_step.
Qed.

Lemma WaitForResponse_check_receives len : receives (WaitForResponse_check len).
Proof. unfold WaitForResponse_check. repeat receives_step. Qed.

Lemma WaitForResponse_loop_receives fuel :
  forall startTime, receives (WaitForResponse_loop fuel startTime).
Proof.
  pose proof WaitForResponse_more_receives. pose proof WaitForResponse_check_receives.
  induction fuel as [| fuel IH]; intros startTime; cbn [WaitForResponse_loop];
    repeat receives_step.
Qed.

Lemma WaitForResponse_receives : receives WaitForResponse.
Proof.
  pose proof WaitForResponse_loop_receives.
  unfold WaitForResponse. repeat receives_step.
Qed.

(** ** The loops of [WaitForResponse], one round at a time *)

Lemma WaitForResponse_more_step (fuel : nat) (len : Z) (st : Engine) :
  WaitForResponse_more (S fuel) len st =
  match HAL_UART_Receive MDB_INTERBYTE_TIMEOUT st with
  | (Some w, st1) =>
      if u8 (len + 1) >=? MDB_MAX_MESSAGE_LENGTH then
        (Some (false, u8 (len + 1)),
         snd (MDB_LogError MDB_ERR_PARAMETER (set_rxBuffer (wr8 (rxBuffer st1) len w) st1)))
      else
        WaitForResponse_more fuel (u8 (len + 1)) (set_rxBuffer (wr8 (rxBuffer st1) len w) st1)
  | (None, st1) => (Some (false, len), snd (MDB_LogError MDB_ERR_COMMUNICATION st1))
  end.
Proof.
  cbn [WaitForResponse_more]. rewrite bind_get, mode_bit_never_set. cbn [Z.eqb].
  unfold bind at 1.
  destruct (HAL_UART_Receive MDB_INTERBYTE_TIMEOUT st) as [[w |] st1]; [| reflexivity].
  rewrite bind_modify.
  destruct (u8 (len + 1) >=? MDB_MAX_MESSAGE_LENGTH); reflexivity.
Qed.

Lemma WaitForResponse_loop_step (fuel : nat) (startTime : Z) (st : Engine) :
  WaitForResponse_loop (S fuel) startTime st =
  if u32 (tick (hal st) - startTime) <? MDB_RESPONSE_TIMEOUT then
    match HAL_UART_Receive 1 st with
    | (Some w, st1) =>
        match WaitForResponse_more (Z.to_nat MDB_MAX_MESSAGE_LENGTH) 1
                (set_rxBuffer (wr8 (rxBuffer st1) 0 w) st1) with
        | (Some (false, len), st2) => (Some (false, len), st2)
        | (Some (true, len), st2) =>
            (Some (fst (WaitForResponse_check len st2), len),
             snd (WaitForResponse_check len st2))
        | (None, st2) => (None, st2)
        end
    | (None, st1) => WaitForResponse_loop fuel startTime st1
    end
  else (Some (false, 0), snd (MDB_LogError MDB_ERR_TIMEOUT st)).
Proof.
  cbn [WaitForResponse_loop]. unfold HAL_GetTick. rewrite bind_get.
  destruct (u32 (tick (hal st) - startTime) <? MDB_RESPONSE_TIMEOUT); [| reflexivity].
  unfold bind at 1.
  destruct (HAL_UART_Receive 1 st) as [[w |] st1]; [| reflexivity].
  rewrite bind_modify. unfold bind at 1.
  destruct (WaitForResponse_more _ _ _) as [[[[|] len] |] st2]; try reflexivity.
  unfold bind, ret. destruct (WaitForResponse_check len st2). reflexivity.
Qed.

(** ** What [WaitForResponse] reports *)

Lemma HAL_UART_Receive_events (timeout : Z) (st : Engine) :
  events (snd (HAL_UART_Receive timeout st)) = events st.
Proof.
  unfold HAL_UART_Receive. destruct (rxq (hal st)) as [| [w |] q]; reflexivity.
Qed.

Lemma WaitForResponse_more_reports (fuel : nat) :
  forall (len : Z) (st : Engine),
    fst (WaitForResponse_more fuel len st) <> None ->
    exists e, is_wait_error e = true /\
              events (snd (WaitForResponse_more fuel len st)) = events st ++ [EvLogError e].
Proof.
  induction fuel as [| fuel IH]; intros len st; [intros H; now elim H |].
  rewrite WaitForResponse_more_step.
  pose proof (HAL_UART_Receive_events MDB_INTERBYTE_TIMEOUT st) as Hrx.
  destruct (HAL_UART_Receive MDB_INTERBYTE_TIMEOUT st) as [[w |] st1]; cbn [snd] in Hrx.
  - destruct (u8 (len + 1) >=? MDB_MAX_MESSAGE_LENGTH).
    + intros _. exists MDB_ERR_PARAMETER. split; [reflexivity |].
      cbn [snd]. unfold MDB_LogError, modify, events in *. cbn. rewrite Hrx. reflexivity.
    + intros Hsome. destruct (IH _ _ Hsome) as (e & He & Hev).
      exists e. split; [exact He |]. rewrite Hev. f_equal. exact Hrx.
  - intros _. exists MDB_ERR_COMMUNICATION. split; [reflexivity |].
    cbn [snd]. unfold MDB_LogError, modify, events in *. cbn. rewrite Hrx. reflexivity.
Qed.

Lemma WaitForResponse_loop_reports (fuel : nat) :
  forall (startTime : Z) (st : Engine),
    fst (WaitForResponse_loop fuel startTime st) <> None ->
    exists e, is_wait_error e = true /\
              events (snd (WaitForResponse_loop fuel startTime st))
              = events st ++ [EvLogError e].
Proof.
  induction fuel as [| fuel IH]; intros startTime st; [intros H; now elim H |].
  rewrite WaitForResponse_loop_step.
  destruct (u32 (tick (hal st) - startTime) <? MDB_RESPONSE_TIMEOUT).
  - pose proof (HAL_UART_Receive_events 1 st) as Hrx.
    destruct (HAL_UART_Receive 1 st) as [[w |] st1]; cbn [snd] in Hrx.
    + set (st1' := set_rxBuffer (wr8 (rxBuffer st1) 0 w) st1).
      pose proof (WaitForResponse_more_fails (Z.to_nat MDB_MAX_MESSAGE_LENGTH) 1 st1') as Hfail.
      pose proof (WaitForResponse_more_reports (Z.to_nat MDB_MAX_MESSAGE_LENGTH) 1 st1') as Hrep.
      destruct (WaitForResponse_more (Z.to_nat MDB_MAX_MESSAGE_LENGTH) 1 st1')
        as [[[[|] len] |] st2]; cbn [fst snd] in *.
      * discriminate Hfail.
      * intros _. destruct Hrep as (e & He & Hev); [discriminate |].
        exists e. split; [exact He |]. rewrite Hev. f_equal. exact Hrx.
      * intros H. now elim H.
    + intros Hsome. destruct (IH _ _ Hsome) as (e & He & Hev).
      exists e. split; [exact He |]. rewrite Hev. f_equal. exact Hrx.
  - intros _. exists MDB_ERR_TIMEOUT. split; reflexivity.
Qed.

Lemma WaitForResponse_reports (st : Engine) :
  exists (e : MDB_Error_t) (len : Z) (buf : list Z) (w : World),
    is_wait_error e = true /\
    WaitForResponse st = ((false, len), set_rxBuffer buf (set_hal w st)) /\
    trace w = events st ++ [EvLogError e].
Proof.
  pose proof (WaitForResponse_never_succeeds st) as Hflag.
  destruct (WaitForResponse_receives st) as (buf & w & Hst).
  assert (Hrep : exists e, is_wait_error e = true /\
                           events (snd (WaitForResponse st)) = events st ++ [EvLogError e]).
  { unfold WaitForResponse, HAL_GetTick. rewrite bind_get, bind_snd.
    destruct (WaitForResponse_loop_reports WaitForResponse_fuel (tick (hal st)) st
                (WaitForResponse_returns st)) as (e & He & Hev).
    exists e. split; [exact He | exact Hev]. }
  destruct Hrep as (e & He & Hev).
  destruct (WaitForResponse st) as [[got len] st']. cbn [fst snd] in *. subst got st'.
  exists e, len, buf, w. split; [exact He |]. split; [reflexivity |]. exact Hev.
Qed.

(** X1.  [WaitForResponse], on every engine state and in every environment: the
    flag it returns is false; the trace gains exactly one report, of a Timeout,
    Communication or Parameter error, so the checksum test is never reached; and
    nothing changes but the receive buffer and the environment. *)
Theorem WaitForResponse_outcome (st : Engine) :
  fst (fst (WaitForResponse st)) = false /\
  (exists e, is_wait_error e = true /\
             events (snd (WaitForResponse st)) = events st ++ [EvLogError e]) /\
  received st (snd (WaitForResponse st)).
Proof.
  destruct (WaitForResponse_reports st) as (e & len & buf & w & He & Hwait & Htrace).
  rewrite Hwait. cbn [fst snd]. split; [reflexivity |]. split.
  - exists e. split; [exact He | exact Htrace].
  - exists buf, w. reflexivity.
Qed.

(** ** What [WaitForResponse] does with what arrives *)

Lemma moved_same (st : Engine) : moved (tick (hal st)) (rxq (hal st)) st = st.
Proof. destruct st as [c se mq el ei lp tx rx lc ln rc es [t q tq tr]]. reflexivity. Qed.

Lemma moved_tick (t : Z) (q : list (option Z)) (st : Engine) : tick (hal (moved t q st)) = t.
Proof. reflexivity. Qed.

Lemma moved_rxq (t : Z) (q : list (option Z)) (st : Engine) : rxq (hal (moved t q st)) = q.
Proof. reflexivity. Qed.

Lemma HAL_UART_Receive_word (timeout w : Z) (q : list (option Z)) (st : Engine) :
  rxq (hal st) = Some w :: q ->
  HAL_UART_Receive timeout st = (Some w, moved (tick (hal st)) q st).
Proof. intros H. unfold HAL_UART_Receive. rewrite H. reflexivity. Qed.

Lemma HAL_UART_Receive_silent (timeout : Z) (st : Engine) :
  silent 1 (rxq (hal st)) ->
  HAL_UART_Receive timeout st
  = (None, moved (u32 (tick (hal st) + timeout)) (drop 1 (rxq (hal st))) st).
Proof.
  destruct st as [c se mq el ei lp tx rx lc ln rc es [t q tq tr]].
  unfold silent, HAL_UART_Receive. cbn [hal rxq].
  destruct q as [| [w |] q]; intros H; [reflexivity | | reflexivity].
  apply Forall_cons in H. destruct H as [H _]. discriminate H.
Qed.

Lemma silent_S (n : nat) (q : list (option Z)) :
  silent (S n) q -> silent 1 q /\ silent n (drop 1 q).
Proof.
  unfold silent. destruct q as [| r q]; cbn [take drop].
  - intros _. split; [constructor |]. rewrite take_nil. constructor.
  - intros H. apply Forall_cons in H. destruct H as [Hr Hq].
    split; [| exact Hq]. rewrite take_0. constructor; [exact Hr | constructor].
Qed.

Lemma silent_replicate (n : nat) (q : list (option Z)) : silent n (replicate n None ++ q).
Proof.
  unfold silent. rewrite take_app_length' by (symmetry; apply length_replicate).
  apply Forall_replicate. reflexivity.
Qed.

Lemma tick_after_S (n : nat) (t : Z) : tick_after (S n) t = tick_after n (u32 (t + 1)).
Proof. unfold tick_after. exact (Nat.iter_succ_r n (fun t' => u32 (t' + 1)) t). Qed.

Lemma tick_after_elapsed (n : nat) (t : Z) : u32 (tick_after n t - t) = u32 (Z.of_nat n).
Proof.
  induction n as [| n IH].
  - cbn. rewrite Z.sub_diag. reflexivity.
  - change (tick_after (S n) t) with (u32 (tick_after n t + 1)).
    unfold u32 in *. rewrite Zminus_mod_idemp_l.
    replace (tick_after n t + 1 - t) with ((tick_after n t - t) + 1) by lia.
    rewrite <- Z.add_mod_idemp_l, IH, Z.add_mod_idemp_l by lia.
    f_equal. lia.
Qed.

Lemma tick_after_within (n : nat) (t : Z) :
  (n <= 5)%nat -> u32 (tick_after n t - t) = Z.of_nat n.
Proof. intros H. rewrite tick_after_elapsed. apply u32_small. lia. Qed.

Lemma WaitForResponse_loop_skips (j : nat) :
  forall (fuel : nat) (startTime : Z) (st : Engine),
    silent j (rxq (hal st)) ->
    (forall k, (k < j)%nat ->
               u32 (tick_after k (tick (hal st)) - startTime) < MDB_RESPONSE_TIMEOUT) ->
    WaitForResponse_loop (j + fuel) startTime st
    = WaitForResponse_loop fuel startTime
        (moved (tick_after j (tick (hal st))) (drop j (rxq (hal st))) st).
Proof.
  induction j as [| j IH]; intros fuel startTime st Hsilent Hin.
  - cbn [Nat.add drop]. change (tick_after 0 (tick (hal st))) with (tick (hal st)).
    rewrite moved_same. reflexivity.
  - cbn [Nat.add]. rewrite WaitForResponse_loop_step.
    pose proof (Hin 0%nat ltac:(lia)) as Hnow. cbn in Hnow.
    apply Z.ltb_lt in Hnow. rewrite Hnow.
    apply silent_S in Hsilent. destruct Hsilent as [Hone Hrest].
    rewrite (HAL_UART_Receive_silent 1 st Hone).
    rewrite IH.
    + rewrite tick_after_S. cbn [moved hal set_hal tick set_tick rxq set_rxq].
      rewrite drop_drop. reflexivity.
    + exact Hrest.
    + intros k Hk. cbn [moved hal set_hal tick set_tick]. rewrite <- tick_after_S.
      apply Hin. lia.
Qed.

Lemma WaitForResponse_more_words (ws : list Z) :
  forall (fuel : nat) (len : Z) (tail : list (option Z)) (st : Engine),
    rxq (hal st) = map Some ws ++ tail ->
    silent 1 tail ->
    1 <= len ->
    len + Z.of_nat (length ws) < MDB_MAX_MESSAGE_LENGTH ->
    (length ws < fuel)%nat ->
    WaitForResponse_more fuel len st
    = (Some (false, len + Z.of_nat (length ws)),
       snd (MDB_LogError MDB_ERR_COMMUNICATION
              (set_rxBuffer (store_at (rxBuffer st) len ws)
                 (moved (u32 (tick (hal st) + 1)) (drop 1 tail) st)))).
Proof.
  unfold MDB_MAX_MESSAGE_LENGTH.
  induction ws as [| w ws IH]; intros fuel len tail st Hq Hsilent Hlen Hroom Hfuel;
    (destruct fuel as [| fuel]; [cbn [length] in Hfuel; lia |]);
    rewrite WaitForResponse_more_step.
  - cbn [map app] in Hq. rewrite <- Hq in *.
    rewrite (HAL_UART_Receive_silent MDB_INTERBYTE_TIMEOUT st Hsilent).
    cbn [length store_at]. rewrite Z.add_0_r.
    destruct st as [c se mq el ei lp tx rx lc ln rc es h]. reflexivity.
  - cbn [map app] in Hq. rewrite (HAL_UART_Receive_word _ _ _ _ Hq).
    cbn [length] in Hroom, Hfuel.
    rewrite (u8_small (len + 1)) by lia.
    destruct (len + 1 >=? MDB_MAX_MESSAGE_LENGTH) eqn:Hfull;
      [unfold MDB_MAX_MESSAGE_LENGTH in Hfull; lia |].
    rewrite (IH fuel (len + 1) tail); [| reflexivity | exact Hsilent | lia | lia | lia].
    cbn [length store_at].
    replace (len + 1 + Z.of_nat (length ws)) with (len + Z.of_nat (S (length ws))) by lia.
    reflexivity.
Qed.

Lemma WaitForResponse_more_full (ws : list Z) :
  forall (fuel : nat) (len : Z) (q : list (option Z)) (st : Engine),
    rxq (hal st) = map Some ws ++ q ->
    1 <= len ->
    ws <> [] ->
    len + Z.of_nat (length ws) = MDB_MAX_MESSAGE_LENGTH ->
    (length ws <= fuel)%nat ->
    WaitForResponse_more fuel len st
    = (Some (false, MDB_MAX_MESSAGE_LENGTH),
       snd (MDB_LogError MDB_ERR_PARAMETER
              (set_rxBuffer (store_at (rxBuffer st) len ws) (moved (tick (hal st)) q st)))).
Proof.
  unfold MDB_MAX_MESSAGE_LENGTH.
  induction ws as [| w ws IH]; intros fuel len q st Hq Hlen Hne Hroom Hfuel;
    [congruence |].
  destruct fuel as [| fuel]; [cbn [length] in Hfuel; lia |].
  rewrite WaitForResponse_more_step.
  cbn [map app] in Hq. rewrite (HAL_UART_Receive_word _ _ _ _ Hq).
  cbn [length] in Hroom, Hfuel.
  rewrite (u8_small (len + 1)) by lia.
  destruct ws as [| w' ws].
  - cbn [length] in Hroom. replace (len + 1) with 36 by lia.
    change (36 >=? MDB_MAX_MESSAGE_LENGTH) with true. cbv iota.
    cbn [map app store_at]. reflexivity.
  - destruct (len + 1 >=? MDB_MAX_MESSAGE_LENGTH) eqn:Hfull;
      [unfold MDB_MAX_MESSAGE_LENGTH in Hfull; cbn [length] in Hroom; lia |].
    rewrite (IH fuel (len + 1) q); [| reflexivity | lia | discriminate | lia | lia].
    reflexivity.
Qed.

Lemma WaitForResponse_unfold (st : Engine) :
  WaitForResponse st
  = (match fst (WaitForResponse_loop WaitForResponse_fuel (tick (hal st)) st) with
     | Some res => res
     | None => (false, 0)
     end,
     snd (WaitForResponse_loop WaitForResponse_fuel (tick (hal st)) st)).
Proof.
  unfold WaitForResponse, HAL_GetTick. rewrite bind_get. unfold bind, ret.
  destruct (WaitForResponse_loop WaitForResponse_fuel (tick (hal st)) st). reflexivity.
Qed.

Lemma WaitForResponse_polls (j : nat) (st : Engine) :
  (j <= 5)%nat ->
  silent j (rxq (hal st)) ->
  WaitForResponse_loop WaitForResponse_fuel (tick (hal st)) st
  = WaitForResponse_loop (WaitForResponse_fuel - j) (tick (hal st))
      (moved (tick_after j (tick (hal st))) (drop j (rxq (hal st))) st).
Proof.
  intros Hj Hsilent.
  replace WaitForResponse_fuel with (j + (WaitForResponse_fuel - j))%nat at 1
    by (unfold WaitForResponse_fuel, MDB_RESPONSE_TIMEOUT; lia).
  apply WaitForResponse_loop_skips; [exact Hsilent |].
  intros k Hk. rewrite tick_after_within by lia. unfold MDB_RESPONSE_TIMEOUT. lia.
Qed.

(** X2.  Nothing arrives during the five polls of the response window (each
    finds a failure, or the line idle for good):  [WaitForResponse] gives up
    after five milliseconds with a Timeout report, false and length 0; the
    receive buffer is as it was. *)
Theorem WaitForResponse_silence (st : Engine) :
  silent 5 (rxq (hal st)) ->
  WaitForResponse st
  = ((false, 0),
     snd (MDB_LogError MDB_ERR_TIMEOUT
            (moved (tick_after 5 (tick (hal st))) (drop 5 (rxq (hal st))) st))).
Proof.
  intros Hsilent. rewrite WaitForResponse_unfold.
  rewrite (WaitForResponse_polls 5 st) by (lia || exact Hsilent).
  change (WaitForResponse_fuel - 5)%nat with 1%nat.
  rewrite WaitForResponse_loop_step.
  cbn [moved hal set_hal tick set_tick].
  rewrite tick_after_within by lia. reflexivity.
Qed.

Lemma WaitForResponse_silence_witness :
  WaitForResponse (boot (mkWorld 7 [None; None; None] [] []))
  = ((false, 0),
     snd (MDB_LogError MDB_ERR_TIMEOUT (boot (mkWorld 12 [] [] [])))).
Proof.
  apply (WaitForResponse_silence (boot (mkWorld 7 [None; None; None] [] []))).
  vm_compute. repeat constructor.
Defined.

(** X3.  A frame that stops short.  After [j] failed polls (fewer than five),
    between 1 and 35 words arrive and then nothing within the inter-byte
    timeout: every word is stored in the buffer from slot 0 on, cut to its low
    eight bits; the failure is reported as a Communication error; the flag is
    false and the length is the number of words received.  This is what a
    complete frame of the peripheral, ACK and NAK included, comes to. *)
Theorem WaitForResponse_partial_frame (j : nat) (w : Z) (ws : list Z)
    (tail : list (option Z)) (st : Engine) :
  (j < 5)%nat ->
  (length ws < 35)%nat ->
  rxq (hal st) = replicate j None ++ map Some (w :: ws) ++ tail ->
  silent 1 tail ->
  WaitForResponse st
  = ((false, Z.of_nat (length (w :: ws))),
     snd (MDB_LogError MDB_ERR_COMMUNICATION
            (set_rxBuffer (store_at (rxBuffer st) 0 (w :: ws))
               (moved (tick_after (S j) (tick (hal st))) (drop 1 tail) st)))).
Proof.
  intros Hj Hws Hq Hsilent. rewrite WaitForResponse_unfold.
  rewrite (WaitForResponse_polls j st) by (lia || rewrite Hq; apply silent_replicate).
  destruct (WaitForResponse_fuel - j)%nat as [| fuel] eqn:Hfuel;
    [unfold WaitForResponse_fuel, MDB_RESPONSE_TIMEOUT in Hfuel; lia |].
  rewrite WaitForResponse_loop_step.
  rewrite moved_tick, tick_after_within by lia.
  destruct (Z.of_nat j <? MDB_RESPONSE_TIMEOUT) eqn:Hin;
    [| unfold MDB_RESPONSE_TIMEOUT in Hin; lia].
  rewrite Hq, drop_app_length' by (symmetry; apply length_replicate).
  cbn [map app].
  rewrite (HAL_UART_Receive_word 1 w (map Some ws ++ tail)) by apply moved_rxq.
  rewrite (WaitForResponse_more_words ws _ 1 tail);
    [| reflexivity | exact Hsilent | lia | unfold MDB_MAX_MESSAGE_LENGTH; lia
     | unfold MDB_MAX_MESSAGE_LENGTH; lia].
  cbn [fst snd length store_at].
  replace (1 + Z.of_nat (length ws)) with (Z.of_nat (S (length ws))) by lia.
  destruct st as [c se mq el ei lp tx rx lc ln rc es h]. reflexivity.
Qed.

Lemma WaitForResponse_partial_frame_witness :
  WaitForResponse (boot (mkWorld 7 [None; Some 0x103; Some 0x42] [] []))
  = ((false, 2),
     snd (MDB_LogError MDB_ERR_COMMUNICATION
            (set_rxBuffer (0x03 :: 0x42 :: replicate 34 0) (boot (mkWorld 9 [] [] []))))).
Proof.
  apply (WaitForResponse_partial_frame 1 0x103 [0x42] []
           (boot (mkWorld 7 [None; Some 0x103; Some 0x42] [] [])));
    [lia | cbn; lia | reflexivity | constructor].
Defined.

(** X4.  A frame that does not end.  After [j] failed polls (fewer than five),
    36 words arrive back to back: the 36th fills the last slot of the buffer,
    the loop stops there with a Parameter report, false and length 36, and what
    follows on the line is left unread. *)
Theorem WaitForResponse_overflow (j : nat) (ws : list Z) (q : list (option Z))
    (st : Engine) :
  (j < 5)%nat ->
  Z.of_nat (length ws) = MDB_MAX_MESSAGE_LENGTH ->
  rxq (hal st) = replicate j None ++ map Some ws ++ q ->
  WaitForResponse st
  = ((false, MDB_MAX_MESSAGE_LENGTH),
     snd (MDB_LogError MDB_ERR_PARAMETER
            (set_rxBuffer (store_at (rxBuffer st) 0 ws)
               (moved (tick_after j (tick (hal st))) q st)))).
Proof.
  intros Hj Hws Hq. rewrite WaitForResponse_unfold.
  rewrite (WaitForResponse_polls j st) by (lia || rewrite Hq; apply silent_replicate).
  destruct (WaitForResponse_fuel - j)%nat as [| fuel] eqn:Hfuel;
    [unfold WaitForResponse_fuel, MDB_RESPONSE_TIMEOUT in Hfuel; lia |].
  rewrite WaitForResponse_loop_step.
  rewrite moved_tick, tick_after_within by lia.
  destruct (Z.of_nat j <? MDB_RESPONSE_TIMEOUT) eqn:Hin;
    [| unfold MDB_RESPONSE_TIMEOUT in Hin; lia].
  rewrite Hq, drop_app_length' by (symmetry; apply length_replicate).
  destruct ws as [| w ws]; [unfold MDB_MAX_MESSAGE_LENGTH in Hws; cbn in Hws; lia |].
  cbn [map app length] in *.
  rewrite (HAL_UART_Receive_word 1 w (map Some ws ++ q)) by apply moved_rxq.
  assert (Hne : ws <> [])
    by (intros ->; unfold MDB_MAX_MESSAGE_LENGTH in Hws; cbn in Hws; lia).
  rewrite (WaitForResponse_more_full ws _ 1 q);
    [| reflexivity | lia | exact Hne | unfold MDB_MAX_MESSAGE_LENGTH in *; lia
     | unfold MDB_MAX_MESSAGE_LENGTH in *; lia].
  cbn [fst snd store_at].
  destruct st as [c se mq el ei lp tx rx lc ln rc es h]. reflexivity.
Qed.

Lemma WaitForResponse_overflow_witness :
  WaitForResponse (boot (mkWorld 7 (map Some (replicate 36 0xAB) ++ [Some 0x01]) [] []))
  = ((false, 36),
     snd (MDB_LogError MDB_ERR_PARAMETER
            (set_rxBuffer (replicate 36 0xAB) (boot (mkWorld 7 [Some 0x01] [] []))))).
Proof.
  apply (WaitForResponse_overflow 0 (replicate 36 0xAB) [Some 0x01]
           (boot (mkWorld 7 (map Some (replicate 36 0xAB) ++ [Some 0x01]) [] [])));
    [lia | reflexivity | reflexivity].
Defined.

(** ** The reset handshake, as it runs *)

Lemma MDB_Reset_events (st : Engine) :
  length (txBuffer st) = Z.to_nat MDB_MAX_MESSAGE_LENGTH ->
  exists e,
    is_wait_error e = true /\
    events (snd (MDB_Reset st))
    = events st ++ [EvLogMessage LOG_INFO "Performing reset..." [];
                    EvTransmit [MDB_CMD_RESET; 0x10] (tx_status st)]
                ++ (if tx_status st
                    then [EvLogError e; EvLogError MDB_ERR_TIMEOUT]
                    else [EvLogError MDB_ERR_COMMUNICATION; EvLogError MDB_ERR_COMMUNICATION]).
Proof.
  intros Htx. unfold MDB_Reset, MDB_LogMessage. rewrite bind_modify.
  set (st1 := set_hal (emit (EvLogMessage LOG_INFO "Performing reset..." []) (hal st)) st).
  destruct (SendCommand_accepts [MDB_CMD_RESET] 1 st1) as (Hsent & Hev & _);
    [unfold MDB_MAX_MESSAGE_LENGTH; lia | cbn; lia
    | change (txBuffer st1) with (txBuffer st); rewrite Htx;
      unfold MDB_MAX_MESSAGE_LENGTH; lia |].
  change (tx_status st1) with (tx_status st) in *.
  change (take (Z.to_nat 1) [MDB_CMD_RESET] ++ [CalculateChecksum [MDB_CMD_RESET] 1])
    with [MDB_CMD_RESET; 0x10] in Hev.
  change (events st1) with (events st ++ [EvLogMessage LOG_INFO "Performing reset..." []])
    in Hev.
  unfold bind at 1.
  destruct (SendCommand [MDB_CMD_RESET] 1 st1) as [sent st2]. cbn [fst snd] in *.
  rewrite Hsent. destruct (tx_status st); cbn [negb].
  - destruct (WaitForResponse_reports st2) as (e & len & buf & w & He & Hwait & Htrace).
    exists e. split; [exact He |].
    unfold bind at 1. rewrite Hwait. cbn [negb].
    unfold MDB_LogError. rewrite bind_modify. unfold ret, events. cbn [snd].
    cbn [hal set_hal set_rxBuffer emit trace].
    rewrite Htrace, Hev, <- !app_assoc. reflexivity.
  - exists MDB_ERR_TIMEOUT. split; [reflexivity |].
    unfold MDB_LogError. rewrite bind_modify. unfold ret, events. cbn [snd].
    cbn [hal set_hal emit trace].
    unfold events in Hev. rewrite Hev, <- !app_assoc. reflexivity.
Qed.

(** X5.  [MDB_Reset] in full.  It announces itself and puts the RESET frame on
    the wire.  If the transmit fails, the Communication error is reported twice,
    by [SendCommand] and by [MDB_Reset].  If it succeeds, the wait that follows
    fails, with its own report, and [MDB_Reset] adds a Timeout report whatever
    the wait reported.  In both cases the result is false, "Reset complete" is
    never logged, no Sequence error is ever reported and the session is not
    touched. *)
Theorem MDB_Reset_outcome (st : Engine) :
  length (txBuffer st) = Z.to_nat MDB_MAX_MESSAGE_LENGTH ->
  fst (MDB_Reset st) = false /\
  mdbSession (snd (MDB_Reset st)) = mdbSession st /\
  exists e,
    is_wait_error e = true /\
    events (snd (MDB_Reset st))
    = events st ++ [EvLogMessage LOG_INFO "Performing reset..." [];
                    EvTransmit [MDB_CMD_RESET; 0x10] (tx_status st)]
                ++ (if tx_status st
                    then [EvLogError e; EvLogError MDB_ERR_TIMEOUT]
                    else [EvLogError MDB_ERR_COMMUNICATION; EvLogError MDB_ERR_COMMUNICATION]).
Proof.
  intros Htx. split; [apply MDB_Reset_fails |]. split.
  - apply (MDB_Reset_keeps mdbSession).
  - apply MDB_Reset_events. exact Htx.
Qed.

Lemma MDB_Reset_outcome_witness :
  fst (MDB_Reset (boot (mkWorld 0 [Some 0x00] [false] []))) = false /\
  mdbSession (snd (MDB_Reset (boot (mkWorld 0 [Some 0x00] [false] [])))) = zero_session.
Proof.
  destruct (MDB_Reset_outcome (boot (mkWorld 0 [Some 0x00] [false] [])) ltac:(reflexivity))
    as (Hfalse & Hsession & _).
  split; [exact Hfalse | exact Hsession].
Defined.

(** ** Initialisation, as it runs *)

#[export] Instance mdbConfig_recovery : RecoveryBlind mdbConfig.
Proof. blind. Qed.

(** X6.  [MDB_Initialize] in full, for every choice of the absent parts.  It
    clears the configuration, the session and the queue, runs the reset
    handshake and stops there with "Reset failed": the RESET frame is the only
    thing it puts on the wire, the SETUP command is never sent and no
    configuration is ever read.  The retry counter, the poll time, the error log
    and the handler's statistics are not part of what it clears. *)
Theorem MDB_Initialize_outcome (A : Absent) (st : Engine) :
  length (txBuffer st) = Z.to_nat MDB_MAX_MESSAGE_LENGTH ->
  let st' := snd (MDB_Initialize A st) in
  mdbConfig st' = zero_config /\ mdbSession st' = zero_session /\
  messageQueue st' = zero_queue /\
  retryCount st' = retryCount st /\ lastPollTime st' = lastPollTime st /\
  errorLog st' = errorLog st /\ errorLogIndex st' = errorLogIndex st /\
  errStats st' = errStats st /\
  exists e,
    is_wait_error e = true /\
    events st'
    = events st ++ [EvLogMessage LOG_INFO "Initializing MDB interface..." [];
                    EvLogMessage LOG_INFO "Performing reset..." [];
                    EvTransmit [MDB_CMD_RESET; 0x10] (tx_status st)]
                ++ (if tx_status st
                    then [EvLogError e; EvLogError MDB_ERR_TIMEOUT]
                    else [EvLogError MDB_ERR_COMMUNICATION; EvLogError MDB_ERR_COMMUNICATION])
                ++ [EvLogMessage LOG_ERROR "Reset failed" []].
Proof.
  intros Htx. cbn zeta. unfold MDB_Initialize, MDB_LogMessage.
  rewrite !bind_modify.
  match goal with
  | |- context [bind MDB_Reset _ ?s] => set (st1 := s)
  end.
  rewrite bind_snd.
  destruct (MDB_Reset_events st1 Htx) as (e & He & Hev).
  pose proof (MDB_Reset_fails st1) as Hfail.
  pose proof (MDB_Reset_keeps mdbConfig st1) as Hconfig.
  pose proof (MDB_Reset_keeps mdbSession st1) as Hsession.
  pose proof (MDB_Reset_keeps messageQueue st1) as Hqueue.
  pose proof (MDB_Reset_keeps retryCount st1) as Hretry.
  pose proof (MDB_Reset_keeps lastPollTime st1) as Hpoll.
  pose proof (MDB_Reset_keeps errorLog st1) as Hlog.
  pose proof (MDB_Reset_keeps errorLogIndex st1) as Hidx.
  pose proof (MDB_Reset_keeps errStats st1) as Hstats.
  unfold keeps in *.
  destruct (MDB_Reset st1) as [reset st2]. cbn [fst snd] in *. subst reset.
  cbn [negb]. rewrite bind_modify. unfold ret. cbn [snd].
  cbn [mdbConfig mdbSession messageQueue retryCount lastPollTime errorLog errorLogIndex
       errStats set_hal].
  rewrite Hconfig, Hsession, Hqueue, Hretry, Hpoll, Hlog, Hidx, Hstats.
  repeat (split; [reflexivity |]).
  exists e. split; [exact He |].
  unfold events in *. cbn [hal set_hal emit trace]. rewrite Hev.
  change (tx_status st1) with (tx_status st).
  change (trace (hal st1))
    with (trace (hal st) ++ [EvLogMessage LOG_INFO "Initializing MDB interface..." []]).
  rewrite <- !app_assoc. reflexivity.
Qed.

Lemma MDB_Initialize_outcome_witness :
  mdbConfig (snd (MDB_Initialize sample (boot (mkWorld 0 [Some 0x00] [] [])))) = zero_config /\
  retryCount (snd (MDB_Initialize sample (boot (mkWorld 0 [Some 0x00] [] [])))) = 0.
Proof.
  destruct (MDB_Initialize_outcome sample (boot (mkWorld 0 [Some 0x00] [] []))
              ltac:(reflexivity)) as (Hconfig & _ & _ & Hretry & _).
  split; [exact Hconfig | exact Hretry].
Defined.

(** ** A poll that is due *)

Section PollOutcome.

Variable A : Absent.

Lemma MDB_Poll_sends (st : Engine) :
  MDB_POLL_INTERVAL <= u32 (tick (hal st) - lastPollTime st) ->
  let drained := snd (MDB_ProcessMessageQueue A (set_lastPollTime (tick (hal st)) st)) in
  let sent := SendCommand [MDB_CMD_POLL] 1 drained in
  snd (MDB_Poll A st)
  = if fst sent then snd (WaitForResponse (snd sent))
    else snd (MDB_HandleError A MDB_ERR_COMMUNICATION (snd sent)).
Proof.
  intros Hdue. apply Z.ltb_ge in Hdue. cbn zeta.
  unfold MDB_Poll, HAL_GetTick. rewrite !bind_get, Hdue, bind_modify, bind_snd. cbv beta.
  rewrite bind_snd.
  destruct (fst (SendCommand [MDB_CMD_POLL] 1 _)); cbn [negb]; [| reflexivity].
  rewrite bind_snd.
  match goal with
  | |- context [WaitForResponse ?s] =>
      destruct (WaitForResponse_reports s) as (e & len & buf & w & _ & Hwait & _);
      rewrite Hwait
  end.
  reflexivity.
Qed.

(** X7.  The POLL command went out.  The poll then ends with the wait: whatever
    the peripheral answers, no frame is handed to [MDB_ProcessMessage], the
    session is not touched, so an idle session is never timed out, and the
    failure of the wait is reported on the log and nowhere else: the error
    handler does not run, the error log and its statistics stay as they were. *)
Theorem MDB_Poll_sent (st : Engine) :
  MDB_POLL_INTERVAL <= u32 (tick (hal st) - lastPollTime st) ->
  let drained := snd (MDB_ProcessMessageQueue A (set_lastPollTime (tick (hal st)) st)) in
  length (txBuffer drained) = Z.to_nat MDB_MAX_MESSAGE_LENGTH ->
  tx_status drained = true ->
  let st' := snd (MDB_Poll A st) in
  mdbSession st' = mdbSession drained /\
  errorLog st' = errorLog drained /\ errorLogIndex st' = errorLogIndex drained /\
  errStats st' = errStats drained /\ retryCount st' = retryCount drained /\
  exists e,
    is_wait_error e = true /\
    events st' = events drained ++ [EvTransmit [MDB_CMD_POLL; 0x12] true; EvLogError e].
Proof.
  intros Hdue. cbn zeta. intros Htx Hok. rewrite (MDB_Poll_sends st Hdue). cbn zeta.
  set (drained := snd (MDB_ProcessMessageQueue A (set_lastPollTime (tick (hal st)) st))) in *.
  destruct (SendCommand_accepts [MDB_CMD_POLL] 1 drained) as (Hsent & Hev & _);
    [unfold MDB_MAX_MESSAGE_LENGTH; lia | cbn; lia
    | rewrite Htx; unfold MDB_MAX_MESSAGE_LENGTH; lia |].
  rewrite Hsent, Hok in *.
  change (take (Z.to_nat 1) [MDB_CMD_POLL] ++ [CalculateChecksum [MDB_CMD_POLL] 1])
    with [MDB_CMD_POLL; 0x12] in Hev.
  rewrite (WaitForResponse_keeps mdbSession), (SendCommand_keeps mdbSession).
  rewrite (WaitForResponse_keeps errorLog), (SendCommand_keeps errorLog).
  rewrite (WaitForResponse_keeps errorLogIndex), (SendCommand_keeps errorLogIndex).
  rewrite (WaitForResponse_keeps errStats), (SendCommand_keeps errStats).
  rewrite (WaitForResponse_keeps retryCount), (SendCommand_keeps retryCount).
  repeat (split; [reflexivity |]).
  destruct (WaitForResponse_reports (snd (SendCommand [MDB_CMD_POLL] 1 drained)))
    as (e & len & buf & w & He & Hwait & Htrace).
  exists e. split; [exact He |].
  rewrite Hwait. cbn [snd]. change (events (set_rxBuffer buf (set_hal w _))) with (trace w).
  rewrite Htrace, Hev, <- app_assoc. reflexivity.
Qed.

(** X8.  The POLL command could not be transmitted.  [SendCommand] reports a
    Communication error and [MDB_Poll] hands the same error to
    [MDB_HandleError], which reports it again, starts the recovery for a
    Communication error and enters it in the error log. *)
Theorem MDB_Poll_unsent (st : Engine) :
  MDB_POLL_INTERVAL <= u32 (tick (hal st) - lastPollTime st) ->
  let drained := snd (MDB_ProcessMessageQueue A (set_lastPollTime (tick (hal st)) st)) in
  length (txBuffer drained) = Z.to_nat MDB_MAX_MESSAGE_LENGTH ->
  tx_status drained = false ->
  let st' := snd (MDB_Poll A st) in
  (exists entry,
      error entry = MDB_ERR_COMMUNICATION /\
      errorLog st' = <[Z.to_nat (errorLogIndex drained) := entry]> (errorLog drained)) /\
  exists rest,
    events st'
    = events drained ++ [EvTransmit [MDB_CMD_POLL; 0x12] false;
                         EvLogError MDB_ERR_COMMUNICATION;
                         EvLogError MDB_ERR_COMMUNICATION;
                         EvLogMessage LOG_ERROR "Communication error" []] ++ rest.
Proof.
  intros Hdue. cbn zeta. intros Htx Hfail. rewrite (MDB_Poll_sends st Hdue). cbn zeta.
  set (drained := snd (MDB_ProcessMessageQueue A (set_lastPollTime (tick (hal st)) st))) in *.
  destruct (SendCommand_accepts [MDB_CMD_POLL] 1 drained) as (Hsent & Hev & _);
    [unfold MDB_MAX_MESSAGE_LENGTH; lia | cbn; lia
    | rewrite Htx; unfold MDB_MAX_MESSAGE_LENGTH; lia |].
  rewrite Hsent, Hfail in *.
  change (take (Z.to_nat 1) [MDB_CMD_POLL] ++ [CalculateChecksum [MDB_CMD_POLL] 1])
    with [MDB_CMD_POLL; 0x12] in Hev.
  pose proof (SendCommand_keeps errorLog [MDB_CMD_POLL] 1 drained) as Hlog.
  pose proof (SendCommand_keeps errorLogIndex [MDB_CMD_POLL] 1 drained) as Hidx.
  unfold keeps in Hlog, Hidx.
  set (st2 := snd (SendCommand [MDB_CMD_POLL] 1 drained)) in *.
  split.
  - destruct (MDB_HandleError_log A MDB_ERR_COMMUNICATION st2) as (Hentry & _).
    cbn zeta in Hentry. rewrite Hlog, Hidx in Hentry.
    eexists. split; [| exact Hentry]. reflexivity.
  - destruct (MDB_HandleError_after_recovery A MDB_ERR_COMMUNICATION st2) as (_ & evs & Hevs).
    cbn zeta in Hevs. rewrite Hevs. unfold recovered.
    cbn [HandleError_recover]. rewrite bind_snd. cbv beta.
    match goal with
    | |- context [snd (?m (snd (MDB_LogMessage ?l ?f ?a ?s)))] =>
        assert (Hq : quiet_op m) by quiet_auto;
        destruct (Hq (snd (MDB_LogMessage l f a s))) as (more & Hmore & _)
    end.
    rewrite Hmore. exists (more ++ evs).
    unfold MDB_LogMessage, MDB_LogError, modify, events in *. cbn [snd hal set_hal emit trace].
    rewrite Hev, <- !app_assoc. reflexivity.
Qed.

End PollOutcome.

Lemma MDB_Poll_sent_witness :
  mdbSession (snd (MDB_Poll sample (boot (mkWorld 300 [Some 0x00] [] [])))) = zero_session /\
  errorLogIndex (snd (MDB_Poll sample (boot (mkWorld 300 [Some 0x00] [] [])))) = 0.
Proof.
  destruct (MDB_Poll_sent sample (boot (mkWorld 300 [Some 0x00] [] []))
              ltac:(vm_compute; discriminate) ltac:(reflexivity) ltac:(reflexivity))
    as (Hsession & _ & Hidx & _).
  split; [exact Hsession | exact Hidx].
Defined.

Lemma MDB_Poll_unsent_witness :
  exists entry,
    error entry = MDB_ERR_COMMUNICATION /\
    errorLog (snd (MDB_Poll sample (boot (mkWorld 300 [] [false] []))))
    = entry :: replicate 49 zero_errorLog.
Proof.
  destruct (MDB_Poll_unsent sample (boot (mkWorld 300 [] [false] []))
              ltac:(vm_compute; discriminate) ltac:(reflexivity) ltac:(reflexivity))
    as ((entry & Herror & Hlog) & _).
  exists entry. split; [exact Herror | exact Hlog].
Defined.

(** ** The error handler: what it leaves alone *)

Lemma keeps_set_errStats {T : Type} (f : Engine -> T) (g : Engine -> ErrorStats) :
  (forall v st, f (set_errStats v st) = f st) ->
  keeps_op f (modify (fun st => set_errStats (g st) st)).
Proof. intros H st. apply H. Qed.

Section HandlerFrame.

Variable A : Absent.

Context {T : Type} (f : Engine -> T) `{!RecoveryBlind f}.

Hypothesis blind_errStats : forall v st, f (set_errStats v st) = f st.
Hypothesis blind_errorLog : forall v st, f (set_errorLog v st) = f st.
Hypothesis blind_errorLogIndex : forall v st, f (set_errorLogIndex v st) = f st.

Lemma HandleError_statistics_keeps t : keeps_op f (HandleError_statistics A t).
Proof.
  unfold HandleError_statistics.
  repeat first [apply keeps_set_errStats; exact blind_errStats | keeps_step].
Qed.

Lemma HandleError_log_keeps e t : keeps_op f (HandleError_log e t).
Proof.
  intros st. unfold HandleError_log, keeps. rewrite bind_get, bind_modify.
  unfold modify. cbn [snd]. rewrite blind_errorLogIndex, blind_errorLog. reflexivity.
Qed.

Lemma HandleError_serious_keeps e : keeps_op f (HandleError_serious e).
Proof.
  destruct e; cbn [HandleError_serious];
    repeat first [apply keeps_set_errStats; exact blind_errStats | keeps_step].
Qed.

Lemma MDB_HandleError_keeps e : keeps_op f (MDB_HandleError A e).
Proof.
  intros st. unfold keeps. rewrite MDB_HandleError_phases.
  rewrite (HandleError_serious_keeps e), (HandleError_log_keeps e),
    (HandleError_statistics_keeps (error_time A e st)).
  apply (recovered_keeps A f e st).
Qed.

End HandlerFrame.

(** X9.  Handling an error, of any kind and in any state, leaves the message
    queue, the time of the last poll and the configuration as they were: no
    queued frame is lost to a recovery, and the poll cadence is not disturbed. *)
Theorem MDB_HandleError_frame (A : Absent) (e : MDB_Error_t) (st : Engine) :
  messageQueue (snd (MDB_HandleError A e st)) = messageQueue st /\
  lastPollTime (snd (MDB_HandleError A e st)) = lastPollTime st /\
  mdbConfig (snd (MDB_HandleError A e st)) = mdbConfig st.
Proof.
  split; [| split].
  - apply (MDB_HandleError_keeps A messageQueue); reflexivity.
  - apply (MDB_HandleError_keeps A lastPollTime); reflexivity.
  - apply (MDB_HandleError_keeps A mdbConfig); reflexivity.
Qed.

(** ** The error handler: its counters *)

Section Counters.

Variable A : Absent.

Lemma HandleError_serious_count (e : MDB_Error_t) (st : Engine) :
  seriousErrorCount (errStats (snd (HandleError_serious e st)))
  = if is_serious e then
      if u8 (seriousErrorCount (errStats st) + 1) >=? 3 then 0
      else u8 (seriousErrorCount (errStats st) + 1)
    else seriousErrorCount (errStats st).
Proof.
  destruct e; cbn [HandleError_serious is_serious]; try reflexivity;
    rewrite bind_modify, bind_get; cbn [errStats set_errStats seriousErrorCount
                                        set_seriousErrorCount];
    destruct (u8 (seriousErrorCount (errStats st) + 1) >=? 3); reflexivity.
Qed.

Lemma MDB_HandleError_serious_count (e : MDB_Error_t) (st : Engine) :
  seriousErrorCount (errStats (snd (MDB_HandleError A e st)))
  = if is_serious e then
      if u8 (seriousErrorCount (errStats st) + 1) >=? 3 then 0
      else u8 (seriousErrorCount (errStats st) + 1)
    else seriousErrorCount (errStats st).
Proof.
  rewrite MDB_HandleError_phases, HandleError_serious_count.
  set (t := error_time A e st). set (st1 := recovered A e st).
  destruct (HandleError_statistics_spec A t st1) as (Hs2 & _).
  set (st2 := snd (HandleError_statistics A t st1)) in *.
  destruct (HandleError_log_spec e t st2) as (_ & _ & Hs3 & _).
  assert (Hs1 : errStats st1 = errStats st) by apply (recovered_keeps A errStats).
  rewrite Hs3, Hs2, Hs1. reflexivity.
Qed.

Lemma HandleError_recover_retry (e : MDB_Error_t) (st : Engine) :
  0 <= retryCount st <= 3 ->
  0 <= retryCount (snd (HandleError_recover A e st)) <= 3.
Proof.
  intros Hr.
  destruct e;
    try (match goal with
         | |- context [HandleError_recover A ?e] =>
             assert (Hk : keeps_op retryCount (HandleError_recover A e))
               by (cbn [HandleError_recover]; keeps_auto)
         end;
         rewrite (Hk st); exact Hr).
  cbn [HandleError_recover]. rewrite bind_get.
  destruct (retryCount st <? 3) eqn:Hlt.
  - apply Z.ltb_lt in Hlt. rewrite bind_modify.
    match goal with
    | |- context [snd (?m ?s)] =>
        assert (Hk : keeps_op retryCount m) by keeps_auto; rewrite (Hk s)
    end.
    cbn [retryCount set_retryCount]. rewrite u8_small by lia. lia.
  - rewrite bind_snd. cbv beta. rewrite bind_modify.
    match goal with
    | |- context [snd (?m ?s)] =>
        assert (Hk : keeps_op retryCount m) by keeps_auto; rewrite (Hk s)
    end.
    cbn [retryCount set_retryCount]. lia.
Qed.

(** X10.  The three counters of the recovery manager never leave their ranges:
    if the retry counter is at most 3, the rapid-error counter at most 5 and the
    serious-error counter at most 2 when the handler is called, the same holds
    when it returns, for every error kind.  No increment of these eight-bit
    counters can wrap around. *)
Theorem counters_stay_bounded (e : MDB_Error_t) (st : Engine) :
  counters_bounded st -> counters_bounded (snd (MDB_HandleError A e st)).
Proof.
  intros (Hretry & Hrapid & Hserious). unfold counters_bounded.
  destruct (MDB_HandleError_after_recovery A e st) as (Hr & _). cbn zeta in Hr.
  destruct (MDB_HandleError_stats A e st) as (_ & Hc & _). cbn zeta in Hc.
  rewrite Hr, Hc, MDB_HandleError_serious_count. split; [| split].
  - unfold recovered. apply HandleError_recover_retry.
    rewrite (MDB_LogError_keeps retryCount). exact Hretry.
  - unfold burst_next.
    destruct (u32 (error_time A e st - lastErrorTime (errStats st)) <? 5000);
      cbn [fst]; [| lia].
    rewrite u8_small by lia.
    destruct (rapidErrorCount (errStats st) + 1 >? 5) eqn:Hover; cbn [fst]; lia.
  - rewrite u8_small by lia.
    destruct (is_serious e); [| exact Hserious].
    destruct (seriousErrorCount (errStats st) + 1 >=? 3) eqn:Hthird; lia.
Qed.

End Counters.

Lemma counters_stay_bounded_witness :
  counters_bounded (snd (MDB_HandleError sample MDB_ERR_NAK (boot (mkWorld 0 [] [] [])))).
Proof.
  apply (counters_stay_bounded sample MDB_ERR_NAK (boot (mkWorld 0 [] [] []))).
  vm_compute. repeat split; discriminate.
Defined.

(** ** What a run puts on the trace, and what it does not *)

Lemma free_refl (p : Event -> bool) (st : Engine) : free p st st.
Proof. exists []. rewrite app_nil_r. split; reflexivity. Qed.

Lemma free_trans (p : Event -> bool) (st1 st2 st3 : Engine) :
  free p st1 st2 -> free p st2 st3 -> free p st1 st3.
Proof.
  intros (evs1 & H1 & A1) (evs2 & H2 & A2). exists (evs1 ++ evs2). split.
  - rewrite H2, H1, app_assoc. reflexivity.
  - rewrite existsb_app, A1, A2. reflexivity.
Qed.

Lemma free_same_events (p : Event -> bool) (st st' : Engine) :
  events st' = events st -> free p st st'.
Proof. intros H. exists []. rewrite app_nil_r. split; [exact H | reflexivity]. Qed.

Lemma free_emit (p : Event -> bool) (ev : Event) (st : Engine) :
  p ev = false -> free p st (set_hal (emit ev (hal st)) st).
Proof. intros Hev. exists [ev]. split; [reflexivity |]. cbn. rewrite Hev. reflexivity. Qed.

Lemma free_new_events (p : Event -> bool) (st st' : Engine) :
  free p st st' -> existsb p (new_events st st') = false.
Proof. intros (evs & Hev & Hp). rewrite (new_events_app st st' evs Hev). exact Hp. Qed.

Lemma hits_new_events (p : Event -> bool) (st st' : Engine) :
  hits p st st' -> existsb p (new_events st st') = true.
Proof. intros (evs & Hev & Hp). rewrite (new_events_app st st' evs Hev). exact Hp. Qed.

Lemma hits_after (p q : Event -> bool) (st1 st2 st3 : Engine) :
  free q st1 st2 -> hits p st2 st3 -> hits p st1 st3.
Proof.
  intros (evs1 & H1 & _) (evs2 & H2 & A2). exists (evs1 ++ evs2). split.
  - rewrite H2, H1, app_assoc. reflexivity.
  - rewrite existsb_app, A2. apply orb_true_r.
Qed.

Lemma hits_before (p q : Event -> bool) (st1 st2 st3 : Engine) :
  hits p st1 st2 -> free q st2 st3 -> hits p st1 st3.
Proof.
  intros (evs1 & H1 & A1) (evs2 & H2 & _). exists (evs1 ++ evs2). split.
  - rewrite H2, H1, app_assoc. reflexivity.
  - rewrite existsb_app, A1. reflexivity.
Qed.

Lemma free_ret {R : Type} (p : Event -> bool) (r : R) : free_op p (ret r).
Proof. intros st. apply free_refl. Qed.

Lemma free_get {R : Type} (p : Event -> bool) (g : Engine -> R) : free_op p (get g).
Proof. intros st. apply free_refl. Qed.

Lemma free_modify (p : Event -> bool) (g : Engine -> Engine) :
  (forall st, free p st (g st)) -> free_op p (modify g).
Proof. intros H st. apply H. Qed.

Lemma free_bind {R S : Type} (p : Event -> bool) (m : M R) (k : R -> M S) :
  free_op p m -> (forall r, free_op p (k r)) -> free_op p (bind m k).
Proof.
  intros Hm Hk st. rewrite bind_snd.
  eapply free_trans; [apply Hm | apply Hk].
Qed.

Create HintDb free discriminated.

Section Free.

Variable p : Event -> bool.

Hypothesis p_error : forall e, p (EvLogError e) = false.
Hypothesis p_transmit : forall bytes ok, p (EvTransmit bytes ok) = false.
Hypothesis p_message :
  forall level format args,
    String.eqb format "Performing reset..." = false ->
    p (EvLogMessage level format args) = false.

Lemma MDB_LogMessage_free level format args :
  String.eqb format "Performing reset..." = false ->
  free_op p (MDB_LogMessage level format args).
Proof. intros H st. apply free_emit. apply p_message. exact H. Qed.

Lemma MDB_LogError_free e : free_op p (MDB_LogError e).
Proof. intros st. apply free_emit. apply p_error. Qed.

Lemma HAL_GetTick_free : free_op p HAL_GetTick.
Proof. apply free_get. Qed.

Lemma HAL_Delay_free ms : free_op p (HAL_Delay ms).
Proof. intros st. apply free_same_events. reflexivity. Qed.

Lemma HAL_UART_Receive_free timeout : free_op p (HAL_UART_Receive timeout).
Proof. intros st. apply free_same_events. apply HAL_UART_Receive_events. Qed.

Lemma HAL_UART_Transmit_free bytes timeout : free_op p (HAL_UART_Transmit bytes timeout).
Proof.
  intros st. unfold HAL_UART_Transmit. cbn [snd].
  exists [EvTransmit bytes match txq (hal st) with b :: _ => b | [] => true end].
  split; [reflexivity |]. cbn. rewrite p_transmit. reflexivity.
Qed.

#[local] Hint Resolve MDB_LogError_free HAL_GetTick_free HAL_Delay_free HAL_UART_Receive_free
  HAL_UART_Transmit_free : free.

#[local] Ltac free_step :=
  lazymatch goal with
  | |- free_op _ (bind _ _) => apply free_bind; [| intros ?]
  | |- free_op _ (ret _) => apply free_ret
  | |- free_op _ (get _) => apply free_get
  | |- free_op _ (MDB_LogMessage _ _ _) => apply MDB_LogMessage_free; reflexivity
  | |- free_op _ (modify _) =>
      apply free_modify; intros; apply free_same_events; reflexivity
  | |- free_op _ (if ?b then _ else _) => destruct b
  | |- free_op _ (match ?x with _ => _ end) => destruct x
  | |- free_op _ _ => solve [eauto with free]
  end.

#[local] Ltac free_auto := repeat free_step.

Lemma SendCommand_free bytes len : free_op p (SendCommand bytes len).
Proof. unfold SendCommand. free_auto. Qed.

Lemma WaitForResponse_more_free fuel : forall len, free_op p (WaitForResponse_more fuel len).
Proof.
  induction fuel as [| fuel IH]; intros len; cbn [WaitForResponse_more]; free_auto.
Qed.

Lemma WaitForResponse_check_free len : free_op p (WaitForResponse_check len).
Proof. unfold WaitForResponse_check. free_auto. Qed.

#[local] Hint Resolve SendCommand_free WaitForResponse_more_free WaitForResponse_check_free
  : free.

Lemma WaitForResponse_loop_free fuel :
  forall startTime, free_op p (WaitForResponse_loop fuel startTime).
Proof.
  induction fuel as [| fuel IH]; intros startTime; cbn [WaitForResponse_loop]; free_auto.
Qed.

#[local] Hint Resolve WaitForResponse_loop_free : free.

Lemma WaitForResponse_free : free_op p WaitForResponse.
Proof. unfold WaitForResponse. free_auto. Qed.

Lemma MDB_SetState_free s : free_op p (MDB_SetState s).
Proof. unfold MDB_SetState. free_auto. Qed.

#[local] Hint Resolve WaitForResponse_free MDB_SetState_free : free.

Lemma MDB_Reset_free :
  p (EvLogMessage LOG_INFO "Performing reset..." []) = false -> free_op p MDB_Reset.
Proof.
  intros Hstart. unfold MDB_Reset.
  apply free_bind; [intros st; apply free_emit; exact Hstart | intros _].
  free_auto.
Qed.

Section FreeSession.

Variable A : Absent.

Lemma MDB_EnableReader_free : free_op p (MDB_EnableReader A).
Proof. unfold MDB_EnableReader. free_auto. Qed.

Lemma MDB_DisableReader_free : free_op p (MDB_DisableReader A).
Proof. unfold MDB_DisableReader. free_auto. Qed.

Lemma MDB_SessionComplete_free : free_op p (MDB_SessionComplete A).
Proof. unfold MDB_SessionComplete. free_auto. Qed.

Lemma MDB_VendFailure_free : free_op p MDB_VendFailure.
Proof. unfold MDB_VendFailure. free_auto. Qed.

#[local] Hint Resolve MDB_EnableReader_free MDB_DisableReader_free MDB_SessionComplete_free
  MDB_VendFailure_free : free.

Lemma HandleError_recover_free e :
  p (EvLogMessage LOG_INFO "Performing reset..." []) = false ->
  free_op p (HandleError_recover A e).
Proof.
  intros Hstart. pose proof (MDB_Reset_free Hstart) as Hreset.
  destruct e; cbn [HandleError_recover]; free_auto.
Qed.

Lemma HandleError_recover_free_unless e st :
  resets e st = false -> free p st (snd (HandleError_recover A e st)).
Proof.
  destruct e; cbn [resets HandleError_recover]; intros Hno; try discriminate Hno.
  - rewrite bind_get. apply negb_false_iff in Hno. rewrite Hno.
    match goal with |- free _ _ (snd (?m st)) => assert (Hm : free_op p m) by free_auto end.
    apply Hm.
  - rewrite bind_snd. cbv beta. rewrite bind_get.
    rewrite (MDB_LogMessage_keeps session_state).
    rewrite Hno.
    exact (MDB_LogMessage_free LOG_ERROR "Communication timeout" [] eq_refl st).
  - match goal with |- free _ _ (snd (?m st)) => assert (Hm : free_op p m) by free_auto end.
    apply Hm.
  - match goal with |- free _ _ (snd (?m st)) => assert (Hm : free_op p m) by free_auto end.
    apply Hm.
  - rewrite bind_snd. cbv beta. rewrite bind_get.
    rewrite (MDB_LogMessage_keeps session_state).
    apply negb_false_iff in Hno. rewrite Hno. rewrite bind_ret_tt.
    eapply free_trans;
      [exact (MDB_LogMessage_free LOG_ERROR "Command sequence error" [] eq_refl st) |].
    apply MDB_SessionComplete_free.
  - match goal with |- free _ _ (snd (?m st)) => assert (Hm : free_op p m) by free_auto end.
    apply Hm.
Qed.

Lemma HandleError_statistics_free t : free_op p (HandleError_statistics A t).
Proof. unfold HandleError_statistics. free_auto. Qed.

Lemma HandleError_log_free e t : free_op p (HandleError_log e t).
Proof. unfold HandleError_log. free_auto. Qed.

End FreeSession.

End Free.

Lemma hits_bind_first {R S : Type} (p q : Event -> bool) (m : M R) (k : R -> M S) :
  (forall st, hits p st (snd (m st))) -> (forall r, free_op q (k r)) ->
  forall st, hits p st (snd (bind m k st)).
Proof.
  intros Hm Hk st. rewrite bind_snd. eapply hits_before; [apply Hm | apply Hk].
Qed.

Lemma hits_bind_later {R S : Type} (p q : Event -> bool) (m : M R) (k : R -> M S) :
  free_op q m -> (forall r st, hits p st (snd (k r st))) ->
  forall st, hits p st (snd (bind m k st)).
Proof.
  intros Hm Hk st. rewrite bind_snd. eapply hits_after; [apply Hm | apply Hk].
Qed.

Lemma HandleError_serious_events (e : MDB_Error_t) (st : Engine) :
  events (snd (HandleError_serious e st))
  = events st ++ (if is_serious e && (u8 (seriousErrorCount (errStats st) + 1) >=? 3)
                  then [EvDumpLogs] else []).
Proof.
  destruct e; cbn [HandleError_serious is_serious andb];
    try (symmetry; apply app_nil_r);
    rewrite bind_modify, bind_get;
    cbn [errStats set_errStats seriousErrorCount set_seriousErrorCount];
    destruct (u8 (seriousErrorCount (errStats st) + 1) >=? 3);
    try (symmetry; apply app_nil_r); reflexivity.
Qed.

(** ** The error handler: when the logs are dumped *)

Section Dumps.

Variable A : Absent.

Lemma before_serious_free (e : MDB_Error_t) (st : Engine) :
  free is_dump st
    (snd (HandleError_log e (error_time A e st)
            (snd (HandleError_statistics A (error_time A e st) (recovered A e st))))).
Proof.
  eapply free_trans; [| apply HandleError_log_free].
  eapply free_trans; [| apply HandleError_statistics_free; intros; reflexivity].
  unfold recovered.
  eapply free_trans; [apply MDB_LogError_free; intros; reflexivity |].
  apply HandleError_recover_free; intros; reflexivity.
Qed.

(** X11.  The serious-error counter and the dump of the logs.  A Hardware or a
    Communication error moves the counter from 0 to 1, from 1 to 2 and from 2
    back to 0; the handler calls [MDB_DumpLogs] in the last case and in no
    other.  An error of any other kind leaves the counter alone and dumps
    nothing, so the serious errors are counted across whatever else is handled
    between them. *)
Theorem dump_on_third_serious_error (e : MDB_Error_t) (st : Engine) :
  0 <= seriousErrorCount (errStats st) <= 2 ->
  seriousErrorCount (errStats (snd (MDB_HandleError A e st)))
  = (if is_serious e then (seriousErrorCount (errStats st) + 1) mod 3
     else seriousErrorCount (errStats st)) /\
  dumped A e st = is_serious e && (seriousErrorCount (errStats st) =? 2).
Proof.
  intros Hc. split.
  - rewrite MDB_HandleError_serious_count. rewrite u8_small by lia.
    destruct (is_serious e); [| reflexivity].
    destruct (seriousErrorCount (errStats st) + 1 >=? 3) eqn:Hthird.
    + replace (seriousErrorCount (errStats st) + 1) with 3 by lia. reflexivity.
    + symmetry. apply Z.mod_small. lia.
  - unfold dumped. rewrite MDB_HandleError_phases.
    pose proof (before_serious_free e st) as Hfree.
    set (t := error_time A e st) in *. set (st1 := recovered A e st) in *.
    destruct (HandleError_statistics_spec A t st1) as (Hs2 & _).
    set (st2 := snd (HandleError_statistics A t st1)) in *.
    destruct (HandleError_log_spec e t st2) as (_ & _ & Hs3 & _).
    set (st3 := snd (HandleError_log e t st2)) in *.
    assert (Hs1 : errStats st1 = errStats st) by apply (recovered_keeps A errStats).
    pose proof (HandleError_serious_events e st3) as Hev.
    rewrite Hs3, Hs2, Hs1 in Hev. cbn [seriousErrorCount] in Hev.
    rewrite u8_small in Hev by lia.
    replace (seriousErrorCount (errStats st) + 1 >=? 3)
      with (seriousErrorCount (errStats st) =? 2) in Hev by lia.
    destruct (is_serious e && (seriousErrorCount (errStats st) =? 2)).
    + apply hits_new_events. eapply hits_after; [exact Hfree |].
      exists [EvDumpLogs]. split; [exact Hev | reflexivity].
    + apply free_new_events. eapply free_trans; [exact Hfree |].
      apply free_same_events. rewrite Hev. apply app_nil_r.
Qed.

End Dumps.

Lemma dump_on_third_serious_error_witness :
  dumped sample MDB_ERR_HARDWARE
    (set_errStats (mkErrorStats 0 0 2) (boot (mkWorld 0 [] [] []))) = true.
Proof.
  destruct (dump_on_third_serious_error sample MDB_ERR_HARDWARE
              (set_errStats (mkErrorStats 0 0 2) (boot (mkWorld 0 [] [] [])))
              ltac:(cbn; lia)) as (_ & Hdump).
  exact Hdump.
Defined.

(** ** The error handler: which errors end in a reset *)

Lemma MDB_Reset_hits (st : Engine) : hits is_reset_start st (snd (MDB_Reset st)).
Proof.
  destruct (MDB_Reset_starts st) as (rest & Hev).
  exists (EvLogMessage LOG_INFO "Performing reset..." [] :: rest).
  split; [exact Hev | reflexivity].
Qed.

Section Resets.

Variable A : Absent.

Lemma MDB_LogMessage_grows level format args :
  free_op no_event (MDB_LogMessage level format args).
Proof. intros st. apply free_emit. reflexivity. Qed.

Lemma HandleError_recover_hits (e : MDB_Error_t) (st : Engine) :
  resets e st = true -> hits is_reset_start st (snd (HandleError_recover A e st)).
Proof.
  assert (Hreset : forall s, hits is_reset_start s (snd (bind MDB_Reset (fun _ => ret tt) s))).
  { apply (hits_bind_first is_reset_start no_event); [apply MDB_Reset_hits |].
    intros _. apply free_ret. }
  assert (Hdisable : free_op no_event (MDB_DisableReader A))
    by (apply MDB_DisableReader_free; intros; reflexivity).
  assert (Henable : free_op no_event (MDB_EnableReader A))
    by (apply MDB_EnableReader_free; intros; reflexivity).
  destruct e; cbn [resets HandleError_recover]; intros Hyes; try discriminate Hyes.
  - revert st Hyes. intros st _. revert st.
    apply (hits_bind_later _ no_event); [apply MDB_LogMessage_grows | intros _; exact Hreset].
  - rewrite bind_get. apply negb_true_iff in Hyes. rewrite Hyes. revert st Hyes. intros st _.
    revert st.
    apply (hits_bind_later _ no_event); [apply MDB_LogMessage_grows | intros _].
    apply (hits_bind_later _ no_event); [| intros _; exact Hreset].
    intros st. apply free_same_events. reflexivity.
  - rewrite bind_snd. cbv beta. rewrite bind_get.
    rewrite (MDB_LogMessage_keeps session_state), Hyes.
    eapply hits_after; [apply MDB_LogMessage_grows | apply Hreset].
  - revert st Hyes. intros st _. revert st.
    apply (hits_bind_later _ no_event); [apply MDB_LogMessage_grows | intros _; exact Hreset].
  - revert st Hyes. intros st _. revert st.
    apply (hits_bind_later _ no_event); [apply MDB_LogMessage_grows | intros _].
    apply (hits_bind_later _ no_event); [exact Hdisable | intros _].
    apply (hits_bind_later _ no_event); [apply HAL_Delay_free | intros _].
    apply (hits_bind_first _ no_event); [apply MDB_Reset_hits | intros _].
    apply free_bind; [apply HAL_Delay_free | intros _].
    apply free_bind; [exact Henable | intros _; apply free_ret].
  - rewrite bind_snd. cbv beta. rewrite bind_get.
    rewrite (MDB_LogMessage_keeps session_state).
    apply negb_true_iff in Hyes. rewrite Hyes.
    eapply hits_after; [apply MDB_LogMessage_grows | apply Hreset].
  - revert st Hyes. intros st _. revert st.
    apply (hits_bind_later _ no_event); [apply MDB_LogMessage_grows | intros _].
    apply (hits_bind_later _ no_event); [exact Hdisable | intros _].
    apply (hits_bind_later _ no_event); [apply HAL_Delay_free | intros _; exact Hreset].
Qed.

Lemma is_reset_start_message (level : MDB_LogLevel_t) (format : string) (args : list Z) :
  String.eqb format "Performing reset..." = false ->
  is_reset_start (EvLogMessage level format args) = false.
Proof. intros H. destruct level; try reflexivity. exact H. Qed.

Lemma HandleError_serious_free_reset (e : MDB_Error_t) (st : Engine) :
  free is_reset_start st (snd (HandleError_serious e st)).
Proof.
  eexists. split; [apply HandleError_serious_events |].
  destruct (is_serious e && _); reflexivity.
Qed.

Lemma resets_reported (e : MDB_Error_t) (st : Engine) :
  resets e (snd (MDB_LogError e st)) = resets e st.
Proof. destruct e; reflexivity. Qed.

(** X12.  The recovery table, read off the trace.  [MDB_HandleError] runs the
    reset handshake for a NAK once three retries have been spent, for a Timeout
    unless the session is inactive, for a Sequence error unless a session is
    open, and always for Hardware and Communication errors and for the kinds
    without a row of their own, [MDB_ERR_NONE] and [MDB_ERR_PARAMETER]; for
    Checksum, State and Funds errors it never does.  Nothing else the handler
    calls, the burst detector included, starts a reset. *)
Theorem reset_table (e : MDB_Error_t) (st : Engine) :
  reset_performed A e st = resets e st.
Proof.
  unfold reset_performed.
  destruct (resets e st) eqn:Hrow.
  - apply hits_new_events.
    destruct (MDB_HandleError_after_recovery A e st) as (_ & evs & Hev). cbn zeta in Hev.
    apply (hits_before _ no_event _ (recovered A e st)); [| exists evs; split; [exact Hev |]].
    + unfold recovered.
      eapply hits_after; [apply (MDB_LogError_free no_event); intros; reflexivity |].
      apply HandleError_recover_hits. rewrite resets_reported. exact Hrow.
    + clear Hev. induction evs as [| ev evs IH]; [reflexivity | exact IH].
  - apply free_new_events. rewrite MDB_HandleError_phases.
    eapply free_trans; [| apply HandleError_serious_free_reset].
    eapply free_trans; [| apply HandleError_log_free].
    eapply free_trans;
      [| apply HandleError_statistics_free;
         first [exact is_reset_start_message | intros; reflexivity]].
    unfold recovered.
    eapply free_trans; [apply MDB_LogError_free; intros; reflexivity |].
    apply HandleError_recover_free_unless;
      [first [exact is_reset_start_message | intros; reflexivity] .. |].
    rewrite resets_reported. exact Hrow.
Qed.

End Resets.

(** ** The error log as a ring *)

Section ErrorRing.

Variable A : Absent.

Lemma ring_slot_next (idx i : Z) :
  ((idx + 1) mod MDB_ERROR_LOG_SIZE + i) mod MDB_ERROR_LOG_SIZE
  = (idx + (i + 1)) mod MDB_ERROR_LOG_SIZE.
Proof.
  unfold MDB_ERROR_LOG_SIZE. rewrite Z.add_mod_idemp_l by lia. f_equal. lia.
Qed.

Lemma handle_all_other (es : list MDB_Error_t) :
  forall (st : Engine) (j : nat),
    log_sized st ->
    (forall i : nat, (i < length es)%nat ->
       j <> Z.to_nat ((errorLogIndex st + Z.of_nat i) mod MDB_ERROR_LOG_SIZE)) ->
    errorLog (handle_all A es st) !! j = errorLog st !! j.
Proof.
  induction es as [| e es IH]; intros st j Hst Hj; [reflexivity |].
  cbn [handle_all].
  destruct (MDB_HandleError_log_sized A e st Hst) as (Hst' & Hnext).
  destruct (MDB_HandleError_log A e st) as (Hlog & _). cbn zeta in Hlog.
  rewrite IH; [| exact Hst' |].
  - rewrite Hlog. apply list_lookup_insert_ne.
    specialize (Hj 0%nat ltac:(cbn; lia)). destruct Hst as [_ Hidx].
    rewrite Z.add_0_r, Z.mod_small in Hj by exact Hidx. congruence.
  - intros i Hi. rewrite Hnext, ring_slot_next.
    replace (Z.of_nat i + 1) with (Z.of_nat (S i)) by lia.
    apply Hj. cbn. lia.
Qed.

(** X13.  The error log read back.  After a run of at most 50 errors handled one
    after the other, the entry of the [k]-th error of the run is in the slot [k]
    places after the one the index pointed to before the run, counting modulo
    50, and it carries the kind of that error: the log holds the errors of the
    run in the order they were handled, and no error of the run has overwritten
    another. *)
Theorem error_log_read_back (es : list MDB_Error_t) :
  forall (st : Engine) (k : nat) (e : MDB_Error_t),
    log_sized st ->
    (length es <= Z.to_nat MDB_ERROR_LOG_SIZE)%nat ->
    es !! k = Some e ->
    error <$> errorLog (handle_all A es st)
                !! Z.to_nat ((errorLogIndex st + Z.of_nat k) mod MDB_ERROR_LOG_SIZE)
    = Some e.
Proof.
  induction es as [| e0 es IH]; intros st k e Hst Hlen Hk; [discriminate Hk |].
  cbn [handle_all length] in *.
  destruct (MDB_HandleError_log_sized A e0 st Hst) as (Hst' & Hnext).
  destruct (MDB_HandleError_log A e0 st) as (Hlog & _). cbn zeta in Hlog.
  pose proof Hst as [Hsize Hidx].
  destruct k as [| k].
  - injection Hk as ->.
    rewrite Z.add_0_r, Z.mod_small by exact Hidx.
    rewrite handle_all_other; [| exact Hst' |].
    + rewrite Hlog, list_lookup_insert_eq; [reflexivity |].
      unfold MDB_ERROR_LOG_SIZE in *. lia.
    + intros i Hi. rewrite Hnext, ring_slot_next.
      unfold MDB_ERROR_LOG_SIZE in *.
      intros Heq. apply Z2Nat.inj in Heq;
        [| lia | apply Z.mod_pos_bound; lia].
      pose proof (Z.mod_pos_bound (errorLogIndex st + (Z.of_nat i + 1)) 50 ltac:(lia)).
      assert (Hsplit : errorLogIndex st + (Z.of_nat i + 1) < 50 \/
                       50 <= errorLogIndex st + (Z.of_nat i + 1) < 100) by lia.
      destruct Hsplit as [Hlow | Hhigh].
      * rewrite Z.mod_small in Heq by lia. lia.
      * replace (errorLogIndex st + (Z.of_nat i + 1))
          with (errorLogIndex st + (Z.of_nat i + 1) - 50 + 1 * 50) in Heq by lia.
        rewrite Z.mod_add, Z.mod_small in Heq by lia. lia.
  - cbn in Hk.
    replace (Z.of_nat (S k)) with (Z.of_nat k + 1) by lia.
    rewrite <- ring_slot_next, <- Hnext.
    apply IH; [exact Hst' | lia | exact Hk].
Qed.

End ErrorRing.

Lemma error_log_read_back_witness :
  error <$> errorLog (handle_all sample [MDB_ERR_FUNDS; MDB_ERR_STATE; MDB_ERR_NAK]
                        (set_errorLogIndex 49 (boot (mkWorld 0 [] [] [])))) !! 1%nat
  = Some MDB_ERR_NAK.
Proof.
  apply (error_log_read_back sample [MDB_ERR_FUNDS; MDB_ERR_STATE; MDB_ERR_NAK]
           (set_errorLogIndex 49 (boot (mkWorld 0 [] [] []))) 2 MDB_ERR_NAK).
  - split; [reflexivity | cbn; unfold MDB_ERROR_LOG_SIZE; lia].
  - vm_compute. lia.
  - reflexivity.
Defined.

(** ** Recovery from a checksum error *)

Section ChecksumRecovery.

Variable A : Absent.

Lemma recovered_checksum (st : Engine) :
  length (txBuffer st) = Z.to_nat MDB_MAX_MESSAGE_LENGTH ->
  let st1 := recovered A MDB_ERR_CHECKSUM st in
  lastCommandLength st1 = 1 /\
  rd8 (lastCommand st1) 0 = MDB_RET /\
  events st1
  = events st ++ [EvLogError MDB_ERR_CHECKSUM;
                  EvLogMessage LOG_ERROR "Checksum error" [];
                  EvTransmit [MDB_RET; 0xAA] (tx_status st)]
              ++ (if tx_status st then [] else [EvLogError MDB_ERR_COMMUNICATION]).
Proof.
  intros Htx. cbn zeta. unfold recovered. cbn [HandleError_recover].
  rewrite bind_snd. cbv beta. rewrite bind_ret_tt.
  set (st0 := snd (MDB_LogMessage LOG_ERROR "Checksum error" []
                     (snd (MDB_LogError MDB_ERR_CHECKSUM st)))).
  destruct (SendCommand_accepts [MDB_RET] 1 st0) as (_ & Hev & Hcmd & Hlen);
    [unfold MDB_MAX_MESSAGE_LENGTH; lia | cbn; lia
    | change (txBuffer st0) with (txBuffer st); rewrite Htx;
      unfold MDB_MAX_MESSAGE_LENGTH; lia |].
  split; [exact Hlen |]. split; [rewrite Hcmd; reflexivity |].
  rewrite Hev. change (tx_status st0) with (tx_status st).
  change (take (Z.to_nat 1) [MDB_RET] ++ [CalculateChecksum [MDB_RET] 1])
    with [MDB_RET; 0xAA].
  change (events st0)
    with ((events st ++ [EvLogError MDB_ERR_CHECKSUM])
            ++ [EvLogMessage LOG_ERROR "Checksum error" []]).
  rewrite <- !app_assoc. reflexivity.
Qed.

Lemma after_quiet_statistics (e : MDB_Error_t) (t : Z) (st1 : Engine) :
  snd (burst_next (errStats st1) t) = false ->
  is_serious e = false ->
  let st' :=
    snd (HandleError_serious e
           (snd (HandleError_log e t (snd (HandleError_statistics A t st1))))) in
  lastCommandLength st' = lastCommandLength st1 /\
  lastCommand st' = lastCommand st1 /\
  events st' = events st1.
Proof.
  intros Hquiet Hminor. cbn zeta.
  rewrite HandleError_statistics_cases, Hquiet.
  destruct e; try discriminate Hminor; repeat split.
Qed.

(** X14.  Handling a Checksum error asks for a retransmission with RET, and
    sending RET goes through [SendCommand], which records what it sends: unless
    the burst detector steps in, the handler returns with RET on record as the
    last command, in place of the command whose answer was damaged, and with
    nothing on the trace but its report, its log line and that frame.  A NAK
    that follows makes the handler resend RET. *)
Theorem checksum_recovery_replaces_command (st : Engine) :
  length (txBuffer st) = Z.to_nat MDB_MAX_MESSAGE_LENGTH ->
  burst_alarmed A MDB_ERR_CHECKSUM st = false ->
  let st' := snd (MDB_HandleError A MDB_ERR_CHECKSUM st) in
  lastCommandLength st' = 1 /\
  rd8 (lastCommand st') 0 = MDB_RET /\
  events st'
  = events st ++ [EvLogError MDB_ERR_CHECKSUM;
                  EvLogMessage LOG_ERROR "Checksum error" [];
                  EvTransmit [MDB_RET; 0xAA] (tx_status st)]
              ++ (if tx_status st then [] else [EvLogError MDB_ERR_COMMUNICATION]).
Proof.
  intros Htx Hquiet. cbn zeta.
  destruct (recovered_checksum st Htx) as (Hlen & Hcmd & Hev). cbn zeta in *.
  destruct (MDB_HandleError_stats A MDB_ERR_CHECKSUM st) as (_ & _ & Halarm).
  rewrite Hquiet in Halarm.
  rewrite <- (recovered_keeps A errStats MDB_ERR_CHECKSUM st) in Halarm.
  destruct (after_quiet_statistics MDB_ERR_CHECKSUM (error_time A MDB_ERR_CHECKSUM st)
              (recovered A MDB_ERR_CHECKSUM st) (eq_sym Halarm) eq_refl)
    as (Hlen' & Hcmd' & Hev').
  rewrite MDB_HandleError_phases, Hlen', Hcmd', Hev'.
  split; [exact Hlen |]. split; [exact Hcmd | exact Hev].
Qed.

End ChecksumRecovery.

Lemma checksum_recovery_replaces_command_witness :
  let st := snd (SendCommand [MDB_CMD_VEND; 0x00; 0x05] 3 (boot (mkWorld 0 [] [] []))) in
  rd8 (lastCommand st) 0 = MDB_CMD_VEND /\
  rd8 (lastCommand (snd (MDB_HandleError sample MDB_ERR_CHECKSUM st))) 0 = MDB_RET.
Proof.
  cbn zeta. split; [reflexivity |].
  apply (checksum_recovery_replaces_command sample
           (snd (SendCommand [MDB_CMD_VEND; 0x00; 0x05] 3 (boot (mkWorld 0 [] [] []))))).
  - reflexivity.
  - vm_compute. reflexivity.
Defined.

(** ** The error statistics *)

Lemma sum_insert_succ (l : list Z) :
  forall (i : nat) (x : Z),
    l !! i = Some x ->
    foldr Z.add 0 (<[i := x + 1]> l) = foldr Z.add 0 l + 1.
Proof.
  induction l as [| y l IH]; intros i x Hi; [discriminate Hi |].
  destruct i as [| i].
  - injection Hi as ->. cbn. lia.
  - change (<[S i := x + 1]> (y :: l)) with (y :: <[i := x + 1]> l).
    cbn [foldr]. rewrite (IH i x Hi). lia.
Qed.

Lemma sum_nonneg (l : list Z) : Forall (fun c => 0 <= c) l -> 0 <= foldr Z.add 0 l.
Proof. intros H. induction H as [| y l Hy Hl IH]; cbn [foldr]; lia. Qed.

Lemma sum_member_le (l : list Z) :
  Forall (fun c => 0 <= c) l ->
  forall (i : nat) (x : Z), l !! i = Some x -> 0 <= x <= foldr Z.add 0 l.
Proof.
  intros Hpos. induction Hpos as [| y l Hy Hl IH]; intros i x Hx; [discriminate Hx |].
  pose proof (sum_nonneg l Hl) as Hsum.
  destruct i as [| i]; cbn [foldr].
  - injection Hx as ->. lia.
  - specialize (IH i x Hx). lia.
Qed.

Lemma MDB_DumpErrorStats_step_sum (acc : list Z * Z) (entry : MDB_ErrorLog_t) (n : Z) :
  length (fst acc) = 10%nat ->
  Forall (fun c => 0 <= c) (fst acc) ->
  foldr Z.add 0 (fst acc) = snd acc ->
  snd acc = n ->
  0 <= n < 2 ^ 32 - 1 ->
  let acc' := MDB_DumpErrorStats_step acc entry in
  length (fst acc') = 10%nat /\
  Forall (fun c => 0 <= c) (fst acc') /\
  foldr Z.add 0 (fst acc') = snd acc' /\
  snd acc' = n + (if timestamp entry =? 0 then 0 else 1).
Proof.
  intros Hlen Hpos Hsum Hn Hbound. cbn zeta. unfold MDB_DumpErrorStats_step.
  destruct (timestamp entry =? 0); cbn [negb]; [rewrite Z.add_0_r; auto |].
  set (i := Z.to_nat (error_ord (error entry))).
  assert (Hi : (i < length (fst acc))%nat)
    by (rewrite Hlen; unfold i; destruct (error entry); cbn; lia).
  destruct (lookup_lt_is_Some_2 _ _ Hi) as (x & Hx).
  rewrite (nth_lookup_Some _ _ 0 _ Hx).
  destruct (sum_member_le _ Hpos _ _ Hx) as [Hx0 Hxn]. rewrite Hsum, Hn in Hxn.
  cbn [fst snd]. rewrite !u32_small by lia.
  split; [rewrite length_insert; exact Hlen |]. split; [| split].
  - apply Forall_insert; [exact Hpos | lia].
  - rewrite (sum_insert_succ _ _ _ Hx). lia.
  - lia.
Qed.

Lemma MDB_DumpErrorStats_fold (l : list MDB_ErrorLog_t) :
  forall (acc : list Z * Z),
    length (fst acc) = 10%nat ->
    Forall (fun c => 0 <= c) (fst acc) ->
    foldr Z.add 0 (fst acc) = snd acc ->
    0 <= snd acc ->
    snd acc + Z.of_nat (length l) < 2 ^ 32 ->
    let acc' := foldl MDB_DumpErrorStats_step acc l in
    length (fst acc') = 10%nat /\
    Forall (fun c => 0 <= c) (fst acc') /\
    foldr Z.add 0 (fst acc') = snd acc' /\
    snd acc' = snd acc + stamped l.
Proof.
  induction l as [| entry l IH]; intros acc Hlen Hpos Hsum Hn Hbound; cbn zeta.
  - cbn. rewrite Z.add_0_r. auto.
  - cbn [foldl stamped foldr length] in *.
    destruct (MDB_DumpErrorStats_step_sum acc entry (snd acc) Hlen Hpos Hsum eq_refl
                ltac:(lia)) as (Hlen' & Hpos' & Hsum' & Hn').
    cbn zeta in *.
    destruct (IH (MDB_DumpErrorStats_step acc entry) Hlen' Hpos' Hsum')
      as (Hlen2 & Hpos2 & Hsum2 & Hn2).
    + rewrite Hn'. destruct (timestamp entry =? 0); lia.
    + rewrite Hn'. destruct (timestamp entry =? 0); lia.
    + cbn zeta in *. repeat (split; [assumption |]).
      rewrite Hn2, Hn'. fold (stamped l). lia.
Qed.

Lemma stamped_bounds (l : list MDB_ErrorLog_t) : 0 <= stamped l <= Z.of_nat (length l).
Proof.
  induction l as [| entry l IH]; cbn [stamped foldr length]; [lia |].
  fold (stamped l). destruct (timestamp entry =? 0); lia.
Qed.

Lemma MDB_DumpErrorStats_total (log : list MDB_ErrorLog_t) :
  snd (MDB_DumpErrorStats_counts log) = stamped (take (Z.to_nat MDB_ERROR_LOG_SIZE) log).
Proof.
  unfold MDB_DumpErrorStats_counts.
  set (l := take (Z.to_nat MDB_ERROR_LOG_SIZE) log).
  assert (Hl : (length l <= 50)%nat)
    by (unfold l; rewrite length_take; change (Z.to_nat MDB_ERROR_LOG_SIZE) with 50%nat; lia).
  destruct (MDB_DumpErrorStats_fold l (replicate 10 0, 0)) as (_ & _ & _ & Hn);
    [reflexivity | cbn [fst]; apply Forall_replicate; lia | reflexivity | cbn; lia
    | cbn [snd]; lia |].
  cbn zeta in Hn. change (Z.to_nat (error_ord MDB_ERR_HARDWARE + 1)) with 10%nat.
  rewrite Hn. apply Z.add_0_l.
Qed.

(** X15.  The counting loop of [MDB_DumpErrorStats], on every error log.  The
    total is the number of entries with a timestamp, at most 50; it is the sum
    of the ten counts, and every count is between 0 and the total.  So a kind
    that has a positive count finds a positive total to be divided by, and none
    of the thirty-two-bit counters wraps around. *)
Theorem MDB_DumpErrorStats_totals (log : list MDB_ErrorLog_t) :
  let errorCounts := fst (MDB_DumpErrorStats_counts log) in
  let totalErrors := snd (MDB_DumpErrorStats_counts log) in
  totalErrors = stamped (take (Z.to_nat MDB_ERROR_LOG_SIZE) log) /\
  0 <= totalErrors <= MDB_ERROR_LOG_SIZE /\
  length errorCounts = 10%nat /\
  foldr Z.add 0 errorCounts = totalErrors /\
  forall (kind : nat) (c : Z), errorCounts !! kind = Some c -> 0 <= c <= totalErrors.
Proof.
  cbn zeta. unfold MDB_DumpErrorStats_counts.
  set (l := take (Z.to_nat MDB_ERROR_LOG_SIZE) log).
  assert (Hl : (length l <= 50)%nat)
    by (unfold l; rewrite length_take; change (Z.to_nat MDB_ERROR_LOG_SIZE) with 50%nat; lia).
  destruct (MDB_DumpErrorStats_fold l (replicate 10 0, 0))
    as (Hlen & Hpos & Hsum & Hn).
  - reflexivity.
  - cbn [fst]. apply Forall_replicate. lia.
  - reflexivity.
  - cbn. lia.
  - cbn [snd]. lia.
  - cbn zeta in *. cbn [snd] in Hn. rewrite Z.add_0_l in Hn.
    change (Z.to_nat (error_ord MDB_ERR_HARDWARE + 1)) with 10%nat.
    pose proof (stamped_bounds l) as Hb.
    split; [exact Hn |]. split; [unfold MDB_ERROR_LOG_SIZE; lia |].
    split; [exact Hlen |]. split; [exact Hsum |].
    intros kind c Hc.
    rewrite <- Hsum. exact (sum_member_le _ Hpos _ _ Hc).
Qed.

Lemma stamped_insert (l : list MDB_ErrorLog_t) :
  forall (i : nat) (old new : MDB_ErrorLog_t),
    l !! i = Some old ->
    stamped (<[i := new]> l)
    = stamped l - (if timestamp old =? 0 then 0 else 1)
                + (if timestamp new =? 0 then 0 else 1).
Proof.
  induction l as [| y l IH]; intros i old new Hi; [discriminate Hi |].
  destruct i as [| i].
  - injection Hi as ->. change (<[0%nat := new]> (old :: l)) with (new :: l).
    cbn [stamped foldr]. lia.
  - change (<[S i := new]> (y :: l)) with (y :: <[i := new]> l).
    cbn [stamped foldr]. fold (stamped (<[i := new]> l)). fold (stamped l).
    rewrite (IH i old new Hi). lia.
Qed.

(** X16.  The statistics over what the handler logs.  Handling an error changes
    the total of [MDB_DumpErrorStats] by what the new entry counts for, less
    what the entry it overwrites counted for.  An entry counts for one, unless
    its timestamp is zero: an error handled while the tick reads 0 is in the log
    and missing from the statistics. *)
Theorem statistics_after_HandleError (A : Absent) (e : MDB_Error_t) (st : Engine)
    (old : MDB_ErrorLog_t) :
  log_sized st ->
  errorLog st !! Z.to_nat (errorLogIndex st) = Some old ->
  snd (MDB_DumpErrorStats_counts (errorLog (snd (MDB_HandleError A e st))))
  = snd (MDB_DumpErrorStats_counts (errorLog st))
    - (if timestamp old =? 0 then 0 else 1)
    + (if error_time A e st =? 0 then 0 else 1).
Proof.
  intros Hst Hold.
  destruct (MDB_HandleError_log_sized A e st Hst) as ((Hlen' & _) & _).
  destruct Hst as [Hlen _].
  destruct (MDB_HandleError_log A e st) as (Hlog & _). cbn zeta in Hlog.
  rewrite !MDB_DumpErrorStats_total.
  rewrite !take_ge by lia.
  rewrite Hlog. rewrite (stamped_insert _ _ old _ Hold). reflexivity.
Qed.

Lemma statistics_after_HandleError_witness :
  snd (MDB_DumpErrorStats_counts
         (errorLog (snd (MDB_HandleError sample MDB_ERR_FUNDS (boot (mkWorld 0 [] [] []))))))
  = 0 /\
  snd (MDB_DumpErrorStats_counts
         (errorLog (snd (MDB_HandleError sample MDB_ERR_FUNDS (boot (mkWorld 9 [] [] []))))))
  = 1.
Proof.
  split.
  - apply (statistics_after_HandleError sample MDB_ERR_FUNDS (boot (mkWorld 0 [] [] []))
             zero_errorLog).
    + split; [reflexivity | cbn; unfold MDB_ERROR_LOG_SIZE; lia].
    + reflexivity.
  - apply (statistics_after_HandleError sample MDB_ERR_FUNDS (boot (mkWorld 9 [] [] []))
             zero_errorLog).
    + split; [reflexivity | cbn; unfold MDB_ERROR_LOG_SIZE; lia].
    + reflexivity.
Defined.

(** ** A NAK with nothing to resend *)

Section NakWithoutCommand.

Variable A : Absent.

Lemma recovered_nak_idle (st : Engine) :
  lastCommandLength st = 0 ->
  0 <= retryCount st < 3 ->
  recovered A MDB_ERR_NAK st
  = snd (MDB_LogMessage LOG_WARNING "Retrying command, attempt %d" [retryCount st + 1]
           (set_retryCount (retryCount st + 1) (snd (MDB_LogError MDB_ERR_NAK st)))).
Proof.
  intros Hnone Hretry. unfold recovered. cbn [HandleError_recover].
  rewrite bind_get.
  change (retryCount (snd (MDB_LogError MDB_ERR_NAK st))) with (retryCount st).
  destruct (retryCount st <? 3) eqn:Hlt; [| lia].
  rewrite bind_modify, bind_get.
  change (retryCount (snd (MDB_LogError MDB_ERR_NAK st))) with (retryCount st).
  cbn [retryCount set_retryCount].
  rewrite u8_small by lia.
  rewrite bind_snd. cbv beta. rewrite bind_get.
  change (lastCommandLength (snd (MDB_LogMessage _ _ _ _))) with (lastCommandLength st).
  rewrite Hnone. reflexivity.
Qed.

(** X17.  A NAK while no command is on record, as after start-up: the handler
    counts a retry and logs it, and puts nothing on the wire.  Three such NAKs
    use up the retries all the same. *)
Theorem nak_without_command (st : Engine) :
  lastCommandLength st = 0 ->
  0 <= retryCount st < 3 ->
  burst_alarmed A MDB_ERR_NAK st = false ->
  let st' := snd (MDB_HandleError A MDB_ERR_NAK st) in
  retryCount st' = retryCount st + 1 /\
  events st'
  = events st ++ [EvLogError MDB_ERR_NAK;
                  EvLogMessage LOG_WARNING "Retrying command, attempt %d"
                    [retryCount st + 1]].
Proof.
  intros Hnone Hretry Hquiet. cbn zeta.
  pose proof (recovered_nak_idle st Hnone Hretry) as Hrec.
  destruct (MDB_HandleError_after_recovery A MDB_ERR_NAK st) as (Hr & _). cbn zeta in Hr.
  destruct (MDB_HandleError_stats A MDB_ERR_NAK st) as (_ & _ & Halarm).
  rewrite Hquiet in Halarm.
  rewrite <- (recovered_keeps A errStats MDB_ERR_NAK st) in Halarm.
  destruct (after_quiet_statistics A MDB_ERR_NAK (error_time A MDB_ERR_NAK st)
              (recovered A MDB_ERR_NAK st) (eq_sym Halarm) eq_refl)
    as (_ & _ & Hev).
  split.
  - rewrite Hr, Hrec. reflexivity.
  - rewrite MDB_HandleError_phases, Hev, Hrec.
    unfold MDB_LogMessage, MDB_LogError, modify, events. cbn [snd hal set_hal set_retryCount
      emit trace].
    rewrite <- app_assoc. reflexivity.
Qed.

End NakWithoutCommand.

Lemma nak_without_command_witness :
  events (snd (MDB_HandleError sample MDB_ERR_NAK (boot (mkWorld 9000 [] [] []))))
  = [EvLogError MDB_ERR_NAK;
     EvLogMessage LOG_WARNING "Retrying command, attempt %d" [1]].
Proof.
  apply (nak_without_command sample (boot (mkWorld 9000 [] [] []))).
  - reflexivity.
  - cbn. lia.
  - vm_compute. reflexivity.
Defined.

(** ** The checksum test of the receiver *)



